(** * SpotmarktSyncService: the synchronization engine, embedded and verified

    The development follows the Python sources:
    - [src/models.py]             the two contact shapes,
    - [src/admin_panel_client.py] the contact source,
    - [src/shopware_client.py]    the destination directory and field mapper,
    - [src/sync_service.py]       the reconciliation engine,
    - [src/logger.py]             the first line of the log,
    - [main.py]                   the run ([run_sync]).

    Values that cross the HTTP boundary are JSON values; Python's dynamic
    behaviour on them (truthiness, [dict.get], subscripting, iteration) is
    written out, with the exception each misuse raises.  The remote systems
    are a parameter of the model: a [World] answers every HTTP request and
    mints the uuids, and the code is a computation over a state made of that
    world, the log and a trace of what the client was asked to do. *)

From Stdlib Require Import String Ascii List Bool Arith ZArith Lia.
From Stdlib Require Import DecimalString DecimalNat.
Import ListNotations.
Local Open Scope string_scope.
Local Open Scope list_scope.

Set Implicit Arguments.
Set Warnings "-register-all".

(* ===================================================================== *)
(** ** JSON values and the Python operations the code applies to them *)
(* ===================================================================== *)

(** A decoded JSON document ([response.json()]) or a payload under
    construction.  [JObj] keeps the bindings in insertion order, as a Python
    dict does; a decoded object binds each key once, and on a list that
    repeats a key the first binding is the dict's.  Numbers are the integers
    (no claim depends on a fraction). *)
Inductive json : Type :=
| JNull
| JBool (b : bool)
| JNum (z : Z)
| JStr (s : string)
| JArr (l : list json)
| JObj (m : list (string * json)).

(** The classes of [Exception] the modelled code can raise. *)
Inductive exn_class : Type :=
| RequestException
| ValueError
| KeyError
| IndexError
| AttributeError
| TypeError
| ValidationError.

Record exn : Type := Exn { exn_cls : exn_class; exn_msg : string }.

Inductive result (A : Type) : Type :=
| Ok (a : A)
| Raise (e : exn).
Arguments Ok {A} a.
Arguments Raise {A} e.

(** [dict] lookup by key. *)
Fixpoint assoc (k : string) (m : list (string * json)) : option json :=
  match m with
  | [] => None
  | (k', v) :: m' => if String.eqb k k' then Some v else assoc k m'
  end.

(** [bool(x)]: None, False, 0, the empty string, list and dict are falsy. *)
Definition truthy (j : json) : bool :=
  match j with
  | JNull => false
  | JBool b => b
  | JNum z => negb (Z.eqb z 0)
  | JStr s => negb (String.eqb s "")
  | JArr l => match l with [] => false | _ => true end
  | JObj m => match m with [] => false | _ => true end
  end.

(** [x.get(k, default)]: only a dict has [.get]. *)
Definition py_get (j : json) (k : string) (default : json) : result json :=
  match j with
  | JObj m => Ok (match assoc k m with Some v => v | None => default end)
  | _ => Raise (Exn AttributeError "object has no attribute 'get'")
  end.

(** [x[k]] with a string key. *)
Definition py_item (j : json) (k : string) : result json :=
  match j with
  | JObj m => match assoc k m with
              | Some v => Ok v
              | None => Raise (Exn KeyError ("'" ++ k ++ "'"))
              end
  | _ => Raise (Exn TypeError "indices must be integers")
  end.

(** [x[0]]. *)
Definition py_first (j : json) : result json :=
  match j with
  | JArr (x :: _) => Ok x
  | JArr [] => Raise (Exn IndexError "list index out of range")
  | JStr (String c _) => Ok (JStr (String c EmptyString))
  | JStr EmptyString => Raise (Exn IndexError "string index out of range")
  | JObj _ => Raise (Exn KeyError "0")
  | _ => Raise (Exn TypeError "object is not subscriptable")
  end.

(** [for x in j]: the elements a [for] loop visits. *)
Definition py_iter (j : json) : result (list json) :=
  match j with
  | JArr l => Ok l
  | JObj m => Ok (map (fun kv => JStr (fst kv)) m)
  | JStr s => Ok (map (fun c => JStr (String c EmptyString)) (list_ascii_of_string s))
  | _ => Raise (Exn TypeError "object is not iterable")
  end.

(** [j == s] for a Python string [s]. *)
Definition py_eq_str (j : json) (s : string) : bool :=
  match j with
  | JStr s' => String.eqb s' s
  | _ => false
  end.

(** [s.upper()].  Python maps every cased character of Unicode, by tables
    the model does not carry.  The method is therefore a parameter of the
    model, as the remote systems are: the code is embedded over every
    [upper], and a statement that does not fix one holds for Python's. *)
Class StrMethods : Type := { upper : string -> string }.

(** [s.upper()] on a string of ASCII characters: the letters a to z go to
    A to Z and every other ASCII character stays.  The sample contacts have
    ASCII country codes, and the sample runs are computed with it. *)
Definition upper_ascii (c : ascii) : ascii :=
  let n := nat_of_ascii c in
  if andb (Nat.leb 97 n) (Nat.leb n 122) then ascii_of_nat (n - 32) else c.

Fixpoint ascii_upper (s : string) : string :=
  match s with
  | EmptyString => EmptyString
  | String c s' => String (upper_ascii c) (ascii_upper s')
  end.

#[global] Instance ascii_strings : StrMethods := {| upper := ascii_upper |}.

(** [str(n)] for a counter. *)
Definition str_of_nat (n : nat) : string :=
  NilEmpty.string_of_uint (Nat.to_uint n).

(** An optional string as a JSON value. *)
Definition opt_json (o : option string) : json :=
  match o with
  | Some s => JStr s
  | None => JNull
  end.

(** [str(x)] as an f-string interpolates it.  The repr of a list or a dict is
    abbreviated: the code interpolates identifiers only. *)
Definition py_str (j : json) : string :=
  match j with
  | JNull => "None"
  | JBool true => "True"
  | JBool false => "False"
  | JNum z => NilEmpty.string_of_int (Z.to_int z)
  | JStr s => s
  | JArr _ => "[...]"
  | JObj _ => "{...}"
  end.

(** Sequencing of computations that may raise. *)
Definition rbind {A B : Type} (r : result A) (k : A -> result B) : result B :=
  match r with
  | Ok a => k a
  | Raise e => Raise e
  end.

Notation "'let?' x := r 'in' k" := (rbind r (fun x => k))
  (at level 10, x name, r at level 100, k at level 200).

(* ===================================================================== *)
(** ** [src/models.py] *)
(* ===================================================================== *)

Record AdminPanelUser : Type := mkUser {
  vorname : string;
  name : string;
  eMailadresse : string;
  uStID : option string;
  zrNummer : string;
  firma : string;
  strasse : string;
  postleitzahl : string;
  stadt : string;
  land : string;
  adresstyp : string;
  entraID : string
}.

(** The fields of the second model carry the prefix [zr_]: Rocq has one
    name space for the projections of both records. *)
Record AdminPanelZrContact : Type := mkZr {
  zr_uStID : option string;
  zr_zrNummer : string;
  zr_firma : string;
  zr_strasse : string;
  zr_postleitzahl : string;
  zr_stadt : string;
  zr_land : string;
  zr_adresstyp : string
}.

(** [Union[AdminPanelUser, AdminPanelZrContact]]. *)
Inductive contact : Type :=
| IsUser (u : AdminPanelUser)
| IsZr (z : AdminPanelZrContact).

(** Attributes both shapes have. *)
Definition c_uStID (c : contact) : option string :=
  match c with IsUser u => uStID u | IsZr z => zr_uStID z end.
Definition c_zrNummer (c : contact) : string :=
  match c with IsUser u => zrNummer u | IsZr z => zr_zrNummer z end.
Definition c_firma (c : contact) : string :=
  match c with IsUser u => firma u | IsZr z => zr_firma z end.
Definition c_strasse (c : contact) : string :=
  match c with IsUser u => strasse u | IsZr z => zr_strasse z end.
Definition c_postleitzahl (c : contact) : string :=
  match c with IsUser u => postleitzahl u | IsZr z => zr_postleitzahl z end.
Definition c_stadt (c : contact) : string :=
  match c with IsUser u => stadt u | IsZr z => zr_stadt z end.
Definition c_land (c : contact) : string :=
  match c with IsUser u => land u | IsZr z => zr_land z end.
Definition c_adresstyp (c : contact) : string :=
  match c with IsUser u => adresstyp u | IsZr z => zr_adresstyp z end.

(** Attributes only [AdminPanelUser] has: reading one on the other shape
    raises [AttributeError]. *)
Definition no_attribute (a : string) : exn :=
  Exn AttributeError ("'AdminPanelZrContact' object has no attribute '" ++ a ++ "'").

Definition c_vorname (c : contact) : result string :=
  match c with IsUser u => Ok (vorname u) | IsZr _ => Raise (no_attribute "vorname") end.
Definition c_name (c : contact) : result string :=
  match c with IsUser u => Ok (name u) | IsZr _ => Raise (no_attribute "name") end.
Definition c_entraID (c : contact) : result string :=
  match c with IsUser u => Ok (entraID u) | IsZr _ => Raise (no_attribute "entraID") end.

(** [getattr(contact, "eMailadresse", None)]. *)
Definition getattr_eMailadresse (c : contact) : json :=
  match c with IsUser u => JStr (eMailadresse u) | IsZr _ => JNull end.

(* ===================================================================== *)
(** ** The boundary: HTTP requests, the log, the trace *)
(* ===================================================================== *)

Inductive method : Type := GET | POST | PATCH.

(** What [requests.get/post/patch] is called with.  The headers carry the
    credentials only and are left out, as is the authentication that
    obtains them. *)
Record request : Type := mkReq {
  meth : method;
  url : string;
  params : list (string * string);
  body : option json
}.

(** What a call gives back: [Body j] when the call returned, the status
    passed [raise_for_status] and the body decodes to [j]; [Refused m] when
    any of them raised a [requests.RequestException] with message [m]. *)
Inductive http_result : Type :=
| Body (j : json)
| Refused (m : string).

Inductive level : Type := INFO | ERROR.

(** Ghost trace: the public methods of the destination client as they are
    entered, every uuid as it is minted and every HTTP request as it is
    sent. *)
Inductive event : Type :=
| CallGetByEntraId (identifier : string)
| CallGetByNumber (customer_number : string)
| CallCreate (c : contact) (is_zr_contact : bool)
| CallUpdate (c : contact) (is_zr_contact : bool) (existing_customer : json)
| Uuid4 (hex : string)
| Http (r : request).

(* ===================================================================== *)
(** ** Computations over the remote systems *)
(* ===================================================================== *)

Section Engine.

(** The remote systems: [http] answers a request and moves the world on,
    [uuid4_hex] is [str(uuid4()).replace("-", "")]. *)
Variable World : Type.
Variable http : request -> World -> http_result * World.
Variable uuid4_hex : World -> string * World.

Record state : Type := mkState {
  world : World;
  log : list (level * string);
  trace : list event
}.

(** A computation returns or raises, and keeps what it did to the state in
    both cases. *)
Definition M (A : Type) : Type := state -> result A * state.

Definition ret {A : Type} (a : A) : M A := fun s => (Ok a, s).

Definition raise {A : Type} (e : exn) : M A := fun s => (Raise e, s).

Definition bind {A B : Type} (c : M A) (k : A -> M B) : M B :=
  fun s =>
    match c s with
    | (Ok a, s') => k a s'
    | (Raise e, s') => (Raise e, s')
    end.

Definition lift {A : Type} (r : result A) : M A := fun s => (r, s).

(** [try: c  except Exception as e: h e]. *)
Definition try_except {A : Type} (c : M A) (h : exn -> M A) : M A :=
  fun s =>
    match c s with
    | (Ok a, s') => (Ok a, s')
    | (Raise e, s') => h e s'
    end.

Definition is_request_exception (e : exn) : bool :=
  match exn_cls e with RequestException => true | _ => false end.

(** [try: c  except requests.RequestException as e: h e]: any other
    exception passes through. *)
Definition try_except_request {A : Type} (c : M A) (h : exn -> M A) : M A :=
  try_except c (fun e => if is_request_exception e then h e else raise e).

(** The state with one more line in the log. *)
Definition logged (l : level) (msg : string) (s : state) : state :=
  mkState (world s) (log s ++ [(l, msg)]) (trace s).

Definition logger (l : level) (msg : string) : M unit :=
  fun s => (Ok tt, logged l msg s).

Definition emit (ev : event) : M unit :=
  fun s => (Ok tt, mkState (world s) (log s) (trace s ++ [ev])).

(** One HTTP call followed by [raise_for_status()] and, where the code
    reads it, [response.json()]. *)
Definition send (r : request) : M json :=
  fun s =>
    let '(res, w) := http r (world s) in
    let s' := mkState w (log s) (trace s ++ [Http r]) in
    match res with
    | Body j => (Ok j, s')
    | Refused m => (Raise (Exn RequestException m), s')
    end.

Definition fresh_uuid : M string :=
  fun s =>
    let '(u, w) := uuid4_hex (world s) in
    (Ok u, mkState w (log s) (trace s ++ [Uuid4 u])).

End Engine.

Arguments ret {World A} a.
Arguments raise {World A} e.
Arguments lift {World A} r.
Arguments logged {World} l msg s.
Arguments logger {World} l msg.
Arguments emit {World} ev.

Notation "x <- c ;; k" := (bind c (fun x => k))
  (at level 61, c at next level, right associativity).
Notation "c ;; k" := (bind c (fun _ => k))
  (at level 61, right associativity).

(* ===================================================================== *)
(** ** [src/shopware_client.py]: class [ShopwareClient] *)
(* ===================================================================== *)

(** Literals of the mapping. *)
Definition salutation_id : string := "0194f5c3188270cebd82c273d4142f1a".
Definition sales_channel_id : string := "019523bfc9e77764a3373ddc1bafdb18".
Definition language_id : string := "0194f5c317e673168b59b25c7f5514cc".
Definition payment_method_id : string := "0197a6f28afe77af91a0c5e23c4c4633".
Definition zr_email_domain : string := "einrichtungspartnerring.com".
Definition entraid_field : string := "custom_identifier_user_entraid_".
Definition country_url : string := "https://spotmarkt.meinvme.de/api/country".

(** ["ZR-Kunden" if is_zr_contact else "User-Kunden"]. *)
Definition group_name_of (is_zr_contact : bool) : string :=
  if is_zr_contact then "ZR-Kunden" else "User-Kunden".

(** ["ZR customer" if is_zr_contact else "customer"]. *)
Definition contact_type (is_zr_contact : bool) : string :=
  if is_zr_contact then "ZR customer" else "customer".

(** [customers[0] if customers else None]. *)
Definition first_or_none (customers : json) : result json :=
  if truthy customers then py_first customers else Ok JNull.

(** The [for group in groups] loop of [_get_customer_group_id]: [Some id]
    when an iteration returns, [None] when the loop runs out. *)
Fixpoint group_loop (group_name : string) (groups : list json) : result (option json) :=
  match groups with
  | [] => Ok None
  | group :: rest =>
      let? attributes := py_get group "attributes" (JObj []) in
      let? nm := py_get attributes "name" JNull in
      if py_eq_str nm group_name
      then (let? id := py_item group "id" in Ok (Some id))
      else group_loop group_name rest
  end.

(** [groups[0]["id"] if groups else None]. *)
Definition first_group_id (groups : json) : result json :=
  if truthy groups
  then (let? g := py_first groups in py_item g "id")
  else Ok JNull.

(** [countries[0].get("id") if countries else None]. *)
Definition first_country_id (countries : json) : result json :=
  if truthy countries
  then (let? c := py_first countries in py_get c "id" JNull)
  else Ok JNull.

(** [[contact.uStID] if contact.uStID else []]. *)
Definition vat_ids (c : contact) : json :=
  match c_uStID c with
  | Some s => if truthy (JStr s) then JArr [JStr s] else JArr []
  | None => JArr []
  end.

(** [f"zr{contact.zrNummer}@einrichtungspartnerring.com" if is_zr_contact
     else getattr(contact, "eMailadresse", None)]. *)
Definition email_of (c : contact) (is_zr_contact : bool) : json :=
  if is_zr_contact
  then JStr ("zr" ++ c_zrNummer c ++ "@" ++ zr_email_domain)
  else getattr_eMailadresse c.

(** [None if is_zr_contact else contact.vorname] and its like. *)
Definition unless_zr (is_zr_contact : bool) (attr : result string) : result json :=
  if is_zr_contact then Ok JNull else (let? v := attr in Ok (JStr v)).

(** The entries the two dict literals [customer_data] share, evaluated in
    the order they are written. *)
Definition customer_data_common (c : contact) (is_zr_contact : bool)
    (default_address_id customer_group_id country_id : json)
  : result (list (string * json)) :=
  let email := email_of c is_zr_contact in
  let? firstName := unless_zr is_zr_contact (c_vorname c) in
  let? lastName := unless_zr is_zr_contact (c_name c) in
  let? addrFirstName := unless_zr is_zr_contact (c_vorname c) in
  let? addrLastName := unless_zr is_zr_contact (c_name c) in
  Ok [ ("email", email);
       ("salutationId", JStr salutation_id);
       ("firstName", firstName);
       ("lastName", lastName);
       ("customerNumber", JStr (c_zrNummer c));
       ("company", JStr (c_firma c ++ " (" ++ c_zrNummer c ++ ")"));
       ("vatIds", vat_ids c);
       ("groupId", customer_group_id);
       ("salesChannelId", JStr sales_channel_id);
       ("accountType", JStr "business");
       ("languageId", JStr language_id);
       ("defaultBillingAddressId", default_address_id);
       ("defaultShippingAddressId", default_address_id);
       ("defaultPaymentMethodId", JStr payment_method_id);
       ("addresses", JArr [ JObj [
           ("id", default_address_id);
           ("firstName", addrFirstName);
           ("lastName", addrLastName);
           ("street", JStr (c_strasse c));
           ("zipcode", JStr (c_postleitzahl c));
           ("city", JStr (c_stadt c));
           ("countryId", country_id);
           ("company", JStr (c_firma c)) ] ]) ].

(** [existing_customer.get("attributes", {}).get("defaultBillingAddressId")]. *)
Definition existing_billing_address_id (existing_customer : json) : result json :=
  let? attributes := py_get existing_customer "attributes" (JObj []) in
  py_get attributes "defaultBillingAddressId" JNull.

(** [customer_data] of [create_customer_generic]: the common entries and
    ["customFields"]. *)
Definition create_customer_data (c : contact) (is_zr_contact : bool)
    (default_address_id customer_group_id country_id : json) : result json :=
  let? common := customer_data_common c is_zr_contact
                   default_address_id customer_group_id country_id in
  let? entra := (if negb is_zr_contact
                 then (let? e := c_entraID c in Ok (JStr e))
                 else Ok JNull) in
  Ok (JObj (common ++ [ ("customFields", JObj [ (entraid_field, entra) ]) ])).

(** [customer_data] of [update_customer_generic]. *)
Definition update_customer_data (c : contact) (is_zr_contact : bool)
    (default_address_id customer_group_id country_id : json) : result json :=
  let? common := customer_data_common c is_zr_contact
                   default_address_id customer_group_id country_id in
  Ok (JObj common).

Section ShopwareClient.

Context {str : StrMethods}.
Variable World : Type.
Variable http : request -> World -> http_result * World.
Variable uuid4_hex : World -> string * World.

(** [self.base_url], with the trailing slashes [__init__] strips removed. *)
Variable base_url : string.
Variable client_id : string.
Variable client_secret : string.

(** [__init__] ends with this call.  The token it reads is kept for the
    headers, which the model leaves out. *)
Definition _authenticate : M World unit :=
  try_except_request
    (token_data <- send http (mkReq POST (base_url ++ "/api/oauth/token") []
                                (Some (JObj [ ("grant_type", JStr "client_credentials");
                                              ("client_id", JStr client_id);
                                              ("client_secret", JStr client_secret) ]))) ;;
     _ <- lift (py_item token_data "access_token") ;;
     logger INFO "Successfully authenticated with Shopware API")
    (fun e =>
       logger ERROR ("Failed to authenticate with Shopware: " ++ exn_msg e) ;;
       raise e).

Definition get_customer_by_custom_field_entraid (identifier : string) : M World json :=
  emit (CallGetByEntraId identifier) ;;
  try_except_request
    (data <- send http (mkReq GET (base_url ++ "/api/customer")
                     [("filter[customFields.custom_identifier_user_entraid_]", identifier)]
                     None) ;;
     customers <- lift (py_get data "data" (JArr [])) ;;
     lift (first_or_none customers))
    (fun e =>
       logger ERROR ("Failed to search customer by entra id " ++ identifier
                     ++ ": " ++ exn_msg e) ;;
       raise e).

Definition get_customer_by_customer_number (customer_number : string) : M World json :=
  emit (CallGetByNumber customer_number) ;;
  try_except_request
    (data <- send http (mkReq GET (base_url ++ "/api/customer")
                     [("filter[customerNumber]", customer_number)]
                     None) ;;
     customers <- lift (py_get data "data" (JArr [])) ;;
     lift (first_or_none customers))
    (fun e =>
       logger ERROR ("Failed to search customer by number " ++ customer_number
                     ++ ": " ++ exn_msg e) ;;
       raise e).

Definition _get_customer_group_id (group_name : string) : M World json :=
  try_except_request
    (data <- send http (mkReq GET (base_url ++ "/api/customer-group") [] None) ;;
     groups <- lift (py_get data "data" (JArr [])) ;;
     items <- lift (py_iter groups) ;;
     found <- lift (group_loop group_name items) ;;
     match found with
     | Some id => ret id
     | None => lift (first_group_id groups)
     end)
    (fun e =>
       logger ERROR ("Failed to get customer group ID: " ++ exn_msg e) ;;
       ret JNull).

Definition _get_country_id (iso_code : string) : M World json :=
  try_except_request
    (data <- send http (mkReq GET country_url [("filter[iso]", upper iso_code)] None) ;;
     countries <- lift (py_get data "data" (JArr [])) ;;
     lift (first_country_id countries))
    (fun e =>
       logger ERROR ("Failed to get country ID for " ++ iso_code ++ ": " ++ exn_msg e) ;;
       ret JNull).

Definition create_customer_generic (c : contact) (is_zr_contact : bool) : M World unit :=
  emit (CallCreate c is_zr_contact) ;;
  country_id <- _get_country_id (c_land c) ;;
  customer_group_id <- _get_customer_group_id (group_name_of is_zr_contact) ;;
  (if negb (forallb truthy [JStr salutation_id; JStr sales_channel_id; customer_group_id])
   then raise (Exn ValueError "Failed to get required Shopware IDs")
   else ret tt) ;;
  default_address_id <- fresh_uuid uuid4_hex ;;
  customer_data <- lift (create_customer_data c is_zr_contact
                           (JStr default_address_id) customer_group_id country_id) ;;
  try_except_request
    (send http (mkReq POST (base_url ++ "/api/customer") [] (Some customer_data)) ;;
     logger INFO ("Successfully created " ++ contact_type is_zr_contact
                  ++ ": " ++ c_zrNummer c))
    (fun e =>
       logger ERROR ("Failed to create " ++ contact_type is_zr_contact ++ " "
                     ++ c_zrNummer c ++ ": " ++ exn_msg e) ;;
       raise e).

Definition create_customer (admin_user : AdminPanelUser) : M World unit :=
  create_customer_generic (IsUser admin_user) false.

Definition create_zr_customer (zr_contact : AdminPanelZrContact) : M World unit :=
  create_customer_generic (IsZr zr_contact) true.

Definition update_customer_generic (c : contact) (is_zr_contact : bool)
    (existing_customer : json) : M World unit :=
  emit (CallUpdate c is_zr_contact existing_customer) ;;
  customer_id <- lift (py_item existing_customer "id") ;;
  default_address_id <- lift (existing_billing_address_id existing_customer) ;;
  customer_group_id <- _get_customer_group_id (group_name_of is_zr_contact) ;;
  country_id <- _get_country_id (c_land c) ;;
  customer_data <- lift (update_customer_data c is_zr_contact
                           default_address_id customer_group_id country_id) ;;
  try_except_request
    (send http (mkReq PATCH (base_url ++ "/api/customer/" ++ py_str customer_id) []
             (Some customer_data)) ;;
     logger INFO ("Successfully updated " ++ contact_type is_zr_contact
                  ++ ": " ++ c_zrNummer c))
    (fun e =>
       logger ERROR ("Failed to update " ++ contact_type is_zr_contact ++ " "
                     ++ c_zrNummer c ++ ": " ++ exn_msg e) ;;
       raise e).

Definition update_customer (admin_user : AdminPanelUser) (existing_customer : json) : M World unit :=
  update_customer_generic (IsUser admin_user) false existing_customer.

Definition update_zr_customer (zr_contact : AdminPanelZrContact) (existing_customer : json)
  : M World unit :=
  update_customer_generic (IsZr zr_contact) true existing_customer.

End ShopwareClient.

(* ===================================================================== *)
(** ** [src/admin_panel_client.py]: class [AdminPanelClient] *)
(* ===================================================================== *)

(** The keys the comprehension of [get_all_contacts] tests, in its order. *)
Definition mandatory_fields : list string :=
  ["adresstyp"; "eMailadresse"; "vorname"; "name"; "entraID"; "firma";
   "zrNummer"; "strasse"; "postleitzahl"; "stadt"; "land"].

(** [contact.get(k1) and contact.get(k2) and ...], as a condition. *)
Fixpoint all_present (contact_ : json) (keys : list string) : result bool :=
  match keys with
  | [] => Ok true
  | k :: rest =>
      let? v := py_get contact_ k JNull in
      if truthy v then all_present contact_ rest else Ok false
  end.

(** The allow-list of [get_all_zr_contacts]. *)
Definition zr_allow_list : list string := ["112212"; "112213"; "112214"].

(** [contact.get('zrNummer') in ['112212', '112213', '112214']]. *)
Definition in_allow_list (contact_ : json) : result bool :=
  let? v := py_get contact_ "zrNummer" JNull in
  Ok (existsb (py_eq_str v) zr_allow_list).

(** The address of the mock filter of [get_all_contacts]. *)
Definition mock_address : string := "thomas.kauer@kauer.ch".

(** Validation of the models, as [pydantic] (version 2) runs it on keyword
    arguments: a field annotated [str] takes a string only, a field
    annotated [str | None = None] may be missing or null, keys that name no
    field are ignored.  The message of the error is abbreviated. *)
Definition validation_error (model : string) : exn :=
  Exn ValidationError ("validation error for " ++ model).

Definition field_str (model : string) (m : list (string * json)) (k : string)
  : result string :=
  match assoc k m with
  | Some (JStr v) => Ok v
  | _ => Raise (validation_error model)
  end.

Definition field_opt_str (model : string) (m : list (string * json)) (k : string)
  : result (option string) :=
  match assoc k m with
  | None => Ok None
  | Some JNull => Ok None
  | Some (JStr v) => Ok (Some v)
  | Some _ => Raise (validation_error model)
  end.

(** [AdminPanelUser] built from the keyword arguments [contact]. *)
Definition parse_user (contact_ : json) : result AdminPanelUser :=
  match contact_ with
  | JObj m =>
      let f := field_str "AdminPanelUser" m in
      let? a_vorname := f "vorname" in
      let? a_name := f "name" in
      let? a_eMailadresse := f "eMailadresse" in
      let? a_uStID := field_opt_str "AdminPanelUser" m "uStID" in
      let? a_zrNummer := f "zrNummer" in
      let? a_firma := f "firma" in
      let? a_strasse := f "strasse" in
      let? a_postleitzahl := f "postleitzahl" in
      let? a_stadt := f "stadt" in
      let? a_land := f "land" in
      let? a_adresstyp := f "adresstyp" in
      let? a_entraID := f "entraID" in
      Ok (mkUser a_vorname a_name a_eMailadresse a_uStID a_zrNummer a_firma
            a_strasse a_postleitzahl a_stadt a_land a_adresstyp a_entraID)
  | _ => Raise (Exn TypeError "argument after ** must be a mapping")
  end.

(** [AdminPanelZrContact] built from the keyword arguments [contact]. *)
Definition parse_zr (contact_ : json) : result AdminPanelZrContact :=
  match contact_ with
  | JObj m =>
      let f := field_str "AdminPanelZrContact" m in
      let? a_uStID := field_opt_str "AdminPanelZrContact" m "uStID" in
      let? a_zrNummer := f "zrNummer" in
      let? a_firma := f "firma" in
      let? a_strasse := f "strasse" in
      let? a_postleitzahl := f "postleitzahl" in
      let? a_stadt := f "stadt" in
      let? a_land := f "land" in
      let? a_adresstyp := f "adresstyp" in
      Ok (mkZr a_uStID a_zrNummer a_firma a_strasse a_postleitzahl a_stadt
            a_land a_adresstyp)
  | _ => Raise (Exn TypeError "argument after ** must be a mapping")
  end.

(** [[build(x) for x in items if cond(x)]]: the first exception ends it. *)
Fixpoint comprehension {A : Type} (cond : json -> result bool)
    (build : json -> result A) (items : list json) : result (list A) :=
  match items with
  | [] => Ok []
  | x :: rest =>
      let? keep := cond x in
      if keep
      then (let? a := build x in
            let? l := comprehension cond build rest in
            Ok (a :: l))
      else comprehension cond build rest
  end.

Section AdminPanelClient.

Variable World : Type.
Variable http : request -> World -> http_result * World.

(** [self.base_url], with the trailing slashes [__init__] strips removed. *)
Variable base_url : string.

Definition get_all_contacts : M World (list AdminPanelUser) :=
  try_except
    (contacts_data <- send http (mkReq GET (base_url ++ "/api/contacts/list_contact_gs")
                                   [] None) ;;
     items <- lift (py_iter contacts_data) ;;
     contacts <- lift (comprehension (fun x => all_present x mandatory_fields)
                         parse_user items) ;;
     logger INFO ("Successfully fetched " ++ str_of_nat (length contacts)
                  ++ " contacts from admin panel") ;;
     (* MOCK TODO - FLZ *)
     let contacts := filter (fun x => String.eqb (eMailadresse x) mock_address) contacts in
     ret contacts)
    (fun e =>
       if is_request_exception e
       then logger ERROR ("Failed to fetch contacts from admin panel: " ++ exn_msg e) ;;
            raise e
       else logger ERROR ("Failed to parse contacts data: " ++ exn_msg e) ;;
            raise e).

Definition get_all_zr_contacts : M World (list AdminPanelZrContact) :=
  try_except
    (zr_contacts_data <- send http (mkReq GET (base_url ++ "/api/companys/list_gs_adresstyp")
                                      [] None) ;;
     items <- lift (py_iter zr_contacts_data) ;;
     zr_contacts <- lift (comprehension in_allow_list parse_zr items) ;;
     logger INFO ("Successfully fetched " ++ str_of_nat (length zr_contacts)
                  ++ " ZR contacts from admin panel") ;;
     ret zr_contacts)
    (fun e =>
       if is_request_exception e
       then logger ERROR ("Failed to fetch ZR contacts from admin panel: " ++ exn_msg e) ;;
            raise e
       else logger ERROR ("Failed to parse ZR contacts data: " ++ exn_msg e) ;;
            raise e).

End AdminPanelClient.

(* ===================================================================== *)
(** ** [src/sync_service.py]: class [SyncService] *)
(* ===================================================================== *)

(** The three counters of a pass. *)
Record counters : Type := mkCounters {
  updated : nat;
  created : nat;
  failed : nat
}.

Definition zero : counters := mkCounters 0 0 0.
Definition incr_updated (c : counters) : counters :=
  mkCounters (updated c + 1) (created c) (failed c).
Definition incr_created (c : counters) : counters :=
  mkCounters (updated c) (created c + 1) (failed c).
Definition incr_failed (c : counters) : counters :=
  mkCounters (updated c) (created c) (failed c + 1).

(** The closing line of a pass. *)
Definition completed_line (heading : string) (total : nat) (c : counters) : string :=
  heading ++ " completed. Total: " ++ str_of_nat total
  ++ ", Updated: " ++ str_of_nat (updated c)
  ++ ", Created: " ++ str_of_nat (created c)
  ++ ", Failed: " ++ str_of_nat (failed c).

(** The two summary lines of [run_sync]; the second component of a triple
    is bound to [existing] there. *)
Definition users_summary (r : nat * nat * nat) : string :=
  let '(_, existing, created_) := r in
  "Sync completed successfully: " ++ str_of_nat created_
  ++ " users created, " ++ str_of_nat existing ++ " already existed".

Definition zr_summary (r : nat * nat * nat) : string :=
  let '(_, existing_zr, created_zr) := r in
  "ZR Sync completed successfully: " ++ str_of_nat created_zr
  ++ " ZR customers created, " ++ str_of_nat existing_zr ++ " already existed".

(** How [run_sync] ends: it returns, or [sys.exit(1)] ends the process. *)
Inductive exit : Type :=
| Returned
| SysExit (code : nat).

Section SyncService.

Context {str : StrMethods}.
Variable World : Type.
Variable http : request -> World -> http_result * World.
Variable uuid4_hex : World -> string * World.
Variable shopware_url : string.
Variable admin_panel_url : string.

(** The [try] block of one iteration of [sync_users]. *)
Definition sync_user_try (user : AdminPanelUser) (c : counters) : M World counters :=
  existing_customer <-
    get_customer_by_custom_field_entraid http shopware_url (entraID user) ;;
  if truthy existing_customer
  then update_customer http shopware_url user existing_customer ;;
       logger INFO ("Updated existing user: " ++ eMailadresse user) ;;
       ret (incr_updated c)
  else create_customer http uuid4_hex shopware_url user ;;
       logger INFO ("Created new user: " ++ eMailadresse user) ;;
       ret (incr_created c).

(** One iteration of the loop of [sync_users]. *)
Definition sync_user_iteration (user : AdminPanelUser) (c : counters) : M World counters :=
  try_except (sync_user_try user c)
    (fun e =>
       logger ERROR ("Failed to process user " ++ eMailadresse user
                     ++ ": " ++ exn_msg e) ;;
       ret (incr_failed c)).

Fixpoint sync_users_loop (admin_users : list AdminPanelUser) (c : counters)
  : M World counters :=
  match admin_users with
  | [] => ret c
  | user :: rest =>
      c' <- sync_user_iteration user c ;;
      sync_users_loop rest c'
  end.

Definition sync_users : M World (nat * nat * nat) :=
  logger INFO "Starting user synchronization" ;;
  try_except
    (admin_users <- get_all_contacts http admin_panel_url ;;
     let total_users := length admin_users in
     logger INFO ("Processing " ++ str_of_nat total_users ++ " users from admin panel") ;;
     c <- sync_users_loop admin_users zero ;;
     logger INFO (completed_line "Synchronization" total_users c) ;;
     ret (total_users, updated c, created c))
    (fun e =>
       logger ERROR ("Synchronization failed: " ++ exn_msg e) ;;
       raise e).

(** The [try] block of one iteration of [sync_zr_customers]. *)
Definition sync_zr_try (zr_contact : AdminPanelZrContact) (c : counters)
  : M World counters :=
  existing_customer <-
    get_customer_by_customer_number http shopware_url (zr_zrNummer zr_contact) ;;
  if truthy existing_customer
  then update_zr_customer http shopware_url zr_contact existing_customer ;;
       logger INFO ("Updated existing ZR customer: " ++ zr_zrNummer zr_contact) ;;
       ret (incr_updated c)
  else create_zr_customer http uuid4_hex shopware_url zr_contact ;;
       logger INFO ("Created new ZR customer: " ++ zr_zrNummer zr_contact) ;;
       ret (incr_created c).

(** One iteration of the loop of [sync_zr_customers]. *)
Definition sync_zr_iteration (zr_contact : AdminPanelZrContact) (c : counters)
  : M World counters :=
  try_except (sync_zr_try zr_contact c)
    (fun e =>
       logger ERROR ("Failed to process ZR customer " ++ zr_zrNummer zr_contact
                     ++ ": " ++ exn_msg e) ;;
       ret (incr_failed c)).

Fixpoint sync_zr_loop (zr_contacts : list AdminPanelZrContact) (c : counters)
  : M World counters :=
  match zr_contacts with
  | [] => ret c
  | zr_contact :: rest =>
      c' <- sync_zr_iteration zr_contact c ;;
      sync_zr_loop rest c'
  end.

Definition sync_zr_customers : M World (nat * nat * nat) :=
  logger INFO "Starting ZR customer synchronization" ;;
  try_except
    (zr_contacts <- get_all_zr_contacts http admin_panel_url ;;
     let total_contacts := length zr_contacts in
     logger INFO ("Processing " ++ str_of_nat total_contacts
                  ++ " ZR contacts from admin panel") ;;
     c <- sync_zr_loop zr_contacts zero ;;
     logger INFO (completed_line "ZR synchronization" total_contacts c) ;;
     ret (total_contacts, updated c, created c))
    (fun e =>
       logger ERROR ("ZR synchronization failed: " ++ exn_msg e) ;;
       raise e).

(* ------------------------------------------------------------------- *)
(** *** [main.py]: [run_sync] *)
(* ------------------------------------------------------------------- *)

Variable client_id : string.
Variable client_secret : string.

(** [src/logger.py]: [setup_logging] configures the handlers (the standard
    output and the log file of the day, both outside the model), logs one
    line and returns the logger. *)
Definition setup_logging : M World unit :=
  logger INFO "Logging initialized".

(** [logger = setup_logging()] stands before the [try]. *)
Definition run_sync : state World -> exit * state World :=
  fun s =>
    match
      (logger INFO "Initializing sync service..." ;;
       _authenticate http shopware_url client_id client_secret ;;
       r <- sync_users ;;
       logger INFO (users_summary r) ;;
       rz <- sync_zr_customers ;;
       logger INFO (zr_summary rz)) (snd (setup_logging s))
    with
    | (Ok _, s') => (Returned, s')
    | (Raise e, s') => (SysExit 1, logged ERROR ("Sync failed: " ++ exn_msg e) s')
    end.

End SyncService.

(* ===================================================================== *)
(** ** Reading a trace *)
(* ===================================================================== *)

(** What a computation added to the trace. *)
Definition new_events {World : Type} (s s' : state World) : list event :=
  skipn (length (trace s)) (trace s').

Definition is_call (ev : event) : bool :=
  match ev with
  | CallGetByEntraId _ | CallGetByNumber _ | CallCreate _ _ | CallUpdate _ _ _ => true
  | _ => false
  end.

(** The client methods entered, in order. *)
Definition calls (evs : list event) : list event := filter is_call evs.

Definition method_eqb (a b : method) : bool :=
  match a, b with
  | GET, GET | POST, POST | PATCH, PATCH => true
  | _, _ => false
  end.

(** The requests sent with method [m], in order. *)
Fixpoint sent (m : method) (evs : list event) : list request :=
  match evs with
  | [] => []
  | Http r :: rest => if method_eqb (meth r) m then r :: sent m rest else sent m rest
  | _ :: rest => sent m rest
  end.

(** The uuids minted, in order. *)
Fixpoint minted (evs : list event) : list string :=
  match evs with
  | [] => []
  | Uuid4 u :: rest => u :: minted rest
  | _ :: rest => minted rest
  end.

(** A key of a payload. *)
Definition field (k : string) (j : json) : option json :=
  match j with
  | JObj m => assoc k m
  | _ => None
  end.

(** A key of the one address block of a payload. *)
Definition address_field (k : string) (j : json) : option json :=
  match field "addresses" j with
  | Some (JArr [a]) => field k a
  | _ => None
  end.

(* ===================================================================== *)
(** ** The address-type policy as the specification words it *)
(* ===================================================================== *)

(** [s.split(sep)] for a separator of one character. *)
Fixpoint split_on (sep : ascii) (s : string) : list string :=
  match s with
  | EmptyString => [EmptyString]
  | String c s' =>
      if Ascii.eqb c sep
      then EmptyString :: split_on sep s'
      else match split_on sep s' with
           | h :: t => String c h :: t
           | [] => [String c EmptyString]
           end
  end.

(** Specification, section 3: the address-type string, split on [;],
    designates the default slots that point at the written address. *)
Definition spec_designates (slot adresstyp_ : string) : bool :=
  existsb (String.eqb slot) (split_on ";" adresstyp_).

Definition spec_billing_designated (adresstyp_ : string) : bool :=
  spec_designates "Rechnungsanschrift" adresstyp_.

Definition spec_shipping_designated (adresstyp_ : string) : bool :=
  spec_designates "Lieferanschrift" adresstyp_.


(* ===================================================================== *)
(** ** A destination and a source to run the engine against *)
(* ===================================================================== *)

(** A world after sections 4.1 and 4.2 of the specification.  The source
    serves two fixed documents.  The destination keeps its customers in the
    order they were created (there is no deletion), names each by its
    position, looks one up by the external-identity custom field or by the
    customer number, and treats every write as a full overwrite: the stored
    fields of a customer are the payload of the last write, so a field the
    payload omits is cleared.  With [strict] set it refuses a write whose
    address carries no country id. *)
Module Shop.

Definition shop_url : string := "https://shop.example".
Definition admin_url : string := "https://admin.example".

Record t : Type := mk {
  contacts_gs : json;
  companys_gs : json;
  customer_groups : json;
  countries : list (string * string);
  customers : list (list (string * json));
  strict : bool;
  uuids : nat
}.

Definition customer_id (i : nat) : string := str_of_nat i.

Definition parse_id (s : string) : option nat :=
  match NilEmpty.uint_of_string s with
  | Some d => let n := Nat.of_uint d in
              if String.eqb (customer_id n) s then Some n else None
  | None => None
  end.

Fixpoint strip_prefix (p s : string) : option string :=
  match p, s with
  | EmptyString, _ => Some s
  | String a p', String b s' => if Ascii.eqb a b then strip_prefix p' s' else None
  | String _ _, EmptyString => None
  end.

(** A customer as a lookup lists it. *)
Definition render (i : nat) (fields : list (string * json)) : json :=
  JObj [ ("id", JStr (customer_id i));
         ("type", JStr "customer");
         ("attributes", JObj fields) ].

Definition entraid_of (fields : list (string * json)) : json :=
  match assoc "customFields" fields with
  | Some cf => match field entraid_field cf with Some v => v | None => JNull end
  | None => JNull
  end.

Definition number_of (fields : list (string * json)) : json :=
  match assoc "customerNumber" fields with Some v => v | None => JNull end.

(** The customers from position [i] on whose [key] is the string [v]. *)
Fixpoint select (key : list (string * json) -> json) (v : string) (i : nat)
    (l : list (list (string * json))) : list json :=
  match l with
  | [] => []
  | f :: rest =>
      if py_eq_str (key f) v
      then render i f :: select key v (S i) rest
      else select key v (S i) rest
  end.

Fixpoint country_of (iso : string) (l : list (string * string)) : option string :=
  match l with
  | [] => None
  | (k, id) :: rest => if String.eqb iso k then Some id else country_of iso rest
  end.

Definition data (l : list json) : json := JObj [ ("data", JArr l) ].

Definition country_given (payload : json) : bool :=
  match address_field "countryId" payload with
  | Some (JStr _) => true
  | _ => false
  end.

Definition accepts (w : t) (payload : json) : bool :=
  orb (negb (strict w)) (country_given payload).

Fixpoint replace {A : Type} (i : nat) (x : A) (l : list A) : list A :=
  match l, i with
  | [], _ => []
  | _ :: rest, 0 => x :: rest
  | y :: rest, S i' => y :: replace i' x rest
  end.

Definition with_customers (w : t) (l : list (list (string * json))) : t :=
  mk (contacts_gs w) (companys_gs w) (customer_groups w) (countries w) l
     (strict w) (uuids w).

Definition get (r : request) (w : t) : http_result :=
  if String.eqb (url r) (admin_url ++ "/api/contacts/list_contact_gs")
  then Body (contacts_gs w)
  else if String.eqb (url r) (admin_url ++ "/api/companys/list_gs_adresstyp")
  then Body (companys_gs w)
  else if String.eqb (url r) (shop_url ++ "/api/customer-group")
  then Body (JObj [ ("data", customer_groups w) ])
  else if String.eqb (url r) country_url
  then match params r with
       | [ (k, v) ] =>
           if String.eqb k "filter[iso]"
           then match country_of v (countries w) with
                | Some id => Body (data [ JObj [ ("id", JStr id) ] ])
                | None => Body (data [])
                end
           else Refused "400 Bad Request"
       | _ => Refused "400 Bad Request"
       end
  else if String.eqb (url r) (shop_url ++ "/api/customer")
  then match params r with
       | [ (k, v) ] =>
           if String.eqb k "filter[customFields.custom_identifier_user_entraid_]"
           then Body (data (select entraid_of v 0 (customers w)))
           else if String.eqb k "filter[customerNumber]"
           then Body (data (select number_of v 0 (customers w)))
           else Refused "400 Bad Request"
       | _ => Refused "400 Bad Request"
       end
  else Refused "404 Not Found".

Definition post (r : request) (w : t) : http_result * t :=
  if String.eqb (url r) (shop_url ++ "/api/oauth/token")
  then (Body (JObj [ ("access_token", JStr "token") ]), w)
  else if String.eqb (url r) (shop_url ++ "/api/customer")
  then match body r with
       | Some (JObj fields) =>
           if accepts w (JObj fields)
           then (Body JNull, with_customers w (customers w ++ [fields]))
           else (Refused "400 Bad Request", w)
       | _ => (Refused "400 Bad Request", w)
       end
  else (Refused "404 Not Found", w).

Definition patch (r : request) (w : t) : http_result * t :=
  match strip_prefix (shop_url ++ "/api/customer/") (url r) with
  | Some id =>
      match parse_id id, body r with
      | Some i, Some (JObj fields) =>
          if Nat.ltb i (length (customers w))
          then if accepts w (JObj fields)
               then (Body JNull, with_customers w (replace i fields (customers w)))
               else (Refused "400 Bad Request", w)
          else (Refused "404 Not Found", w)
      | _, _ => (Refused "400 Bad Request", w)
      end
  | None => (Refused "404 Not Found", w)
  end.

Definition http (r : request) (w : t) : http_result * t :=
  match meth r with
  | GET => (get r w, w)
  | POST => post r w
  | PATCH => patch r w
  end.

Definition uuid4_hex (w : t) : string * t :=
  (("a" ++ str_of_nat (uuids w))%string,
   mk (contacts_gs w) (companys_gs w) (customer_groups w) (countries w)
      (customers w) (strict w) (S (uuids w))).

(** A state to start a run from. *)
Definition start (w : t) : state t := mkState w [] [].

(** The two customer groups the mapper asks for. *)
Definition two_groups : json :=
  JArr [ JObj [ ("id", JStr "g-user"); ("attributes", JObj [ ("name", JStr "User-Kunden") ]) ];
         JObj [ ("id", JStr "g-zr"); ("attributes", JObj [ ("name", JStr "ZR-Kunden") ]) ] ].

End Shop.

(* ===================================================================== *)
(** ** Contacts and worlds the statements are tried on *)
(* ===================================================================== *)

(** A record as the source serves it. *)
Definition user_json (u : AdminPanelUser) : json :=
  JObj [ ("vorname", JStr (vorname u)); ("name", JStr (name u));
         ("eMailadresse", JStr (eMailadresse u)); ("uStID", opt_json (uStID u));
         ("zrNummer", JStr (zrNummer u)); ("firma", JStr (firma u));
         ("strasse", JStr (strasse u)); ("postleitzahl", JStr (postleitzahl u));
         ("stadt", JStr (stadt u)); ("land", JStr (land u));
         ("adresstyp", JStr (adresstyp u)); ("entraID", JStr (entraID u)) ].

Definition zr_json (z : AdminPanelZrContact) : json :=
  JObj [ ("uStID", opt_json (zr_uStID z)); ("zrNummer", JStr (zr_zrNummer z));
         ("firma", JStr (zr_firma z)); ("strasse", JStr (zr_strasse z));
         ("postleitzahl", JStr (zr_postleitzahl z)); ("stadt", JStr (zr_stadt z));
         ("land", JStr (zr_land z)); ("adresstyp", JStr (zr_adresstyp z)) ].

(** The same contact with another address-type. *)
Definition with_adresstyp (u : AdminPanelUser) (t : string) : AdminPanelUser :=
  mkUser (vorname u) (name u) (eMailadresse u) (uStID u) (zrNummer u) (firma u)
         (strasse u) (postleitzahl u) (stadt u) (land u) t (entraID u).

Definition zr_with_adresstyp (z : AdminPanelZrContact) (t : string) : AdminPanelZrContact :=
  mkZr (zr_uStID z) (zr_zrNummer z) (zr_firma z) (zr_strasse z) (zr_postleitzahl z)
       (zr_stadt z) (zr_land z) t.

Module Sample.

(** An individual whose address is a billing address only. *)
Definition kauer : AdminPanelUser :=
  mkUser "Thomas" "Kauer" "thomas.kauer@kauer.ch" None "700100" "Kauer AG"
         "Seeweg 1" "8000" "Zuerich" "ch" "Rechnungsanschrift" "entra-1".

(** An individual with every mandatory field and another address. *)
Definition huber : AdminPanelUser :=
  mkUser "Anna" "Huber" "anna.huber@example.org" None "700200" "Huber GmbH"
         "Markt 2" "80331" "Muenchen" "de" "Rechnungsanschrift;Lieferanschrift" "entra-2".

(** Kauer again, in a country the destination does not know. *)
Definition nomad : AdminPanelUser :=
  mkUser "Thomas" "Kauer" "thomas.kauer@kauer.ch" None "700100" "Kauer AG"
         "Seeweg 1" "8000" "Zuerich" "xx" "Rechnungsanschrift" "entra-3".

Definition zr_a : AdminPanelZrContact :=
  mkZr None "112212" "Moebel A" "Ring 1" "50667" "Koeln" "de" "Rechnungsanschrift".
Definition zr_b : AdminPanelZrContact :=
  mkZr None "112213" "Moebel B" "Ring 2" "50667" "Koeln" "xx" "Rechnungsanschrift".
Definition zr_c : AdminPanelZrContact :=
  mkZr None "112214" "Moebel C" "Ring 3" "50667" "Koeln" "de" "Lieferanschrift".

Definition known_countries : list (string * string) :=
  [ ("CH", "country-ch"); ("DE", "country-de") ].

(** An empty destination; the source serves [users] and [zrs]. *)
Definition empty_shop (users : list AdminPanelUser) (zrs : list AdminPanelZrContact)
    (strict : bool) : Shop.t :=
  Shop.mk (JArr (map user_json users)) (JArr (map zr_json zrs))
          Shop.two_groups known_countries [] strict 0.



(** One run of [main.run_sync] against the sample urls. *)
Definition run {str : StrMethods} (s : state Shop.t) : exit * state Shop.t :=
  run_sync Shop.http Shop.uuid4_hex Shop.shop_url Shop.admin_url "id" "secret" s.

End Sample.

(* ===================================================================== *)
(** ** Statements of the specification, as propositions *)
(* ===================================================================== *)

(** A default slot of the payload points at the address the payload
    writes. *)
Definition points_at_written_address (slot : string) (payload : json) : Prop :=
  exists a, address_field "id" payload = Some a /\ field slot payload = Some a.

(** Specification, sections 3 and 8: the slots that point at the written
    address are exactly those the address-type designates. *)
Definition address_type_policy (adresstyp_ : string) (payload : json) : Prop :=
  (points_at_written_address "defaultBillingAddressId" payload
   <-> spec_billing_designated adresstyp_ = true) /\
  (points_at_written_address "defaultShippingAddressId" payload
   <-> spec_shipping_designated adresstyp_ = true).

(* ===================================================================== *)
(** ** What a computation adds to the trace *)
(* ===================================================================== *)

(** [emits P c]: whatever the state, [c] only appends to the trace, and
    every event it appends satisfies [P]. *)
Definition emits {World A : Type} (P : event -> Prop) (c : M World A) : Prop :=
  forall s, exists evs, trace (snd (c s)) = trace s ++ evs /\ Forall P evs.
Definition is_get (ev : event) : Prop :=
  exists r, ev = Http r /\ meth r = GET.

(** What [create_customer_generic] may add to the trace after its own
    entry: lookups, the uuid, and the POST of a create payload. *)
Definition create_event (base_url : string) (c : contact) (is_zr_contact : bool)
    (ev : event) : Prop :=
  match ev with
  | Http r =>
      meth r = GET \/
      (meth r = POST /\ url r = (base_url ++ "/api/customer")%string /\
       exists a g k payload,
         create_customer_data c is_zr_contact (JStr a) g k = Ok payload /\
         body r = Some payload)
  | Uuid4 _ => True
  | _ => False
  end.

(** What [update_customer_generic] may add to the trace after its own
    entry: lookups, and the PATCH of an update payload whose address id is
    read from the default billing address id of the existing customer. *)
Definition update_event (base_url : string) (c : contact) (is_zr_contact : bool)
    (existing_customer : json) (ev : event) : Prop :=
  match ev with
  | Http r =>
      meth r = GET \/
      (meth r = PATCH /\
       exists id d g k payload,
         py_item existing_customer "id" = Ok id /\
         url r = (base_url ++ "/api/customer/" ++ py_str id)%string /\
         existing_billing_address_id existing_customer = Ok d /\
         update_customer_data c is_zr_contact d g k = Ok payload /\
         body r = Some payload)
  | _ => False
  end.


(** Both default slots and the address block carry the address id [a]. *)
Definition both_slots (a : json) (payload : json) : Prop :=
  field "defaultBillingAddressId" payload = Some a /\
  field "defaultShippingAddressId" payload = Some a /\
  address_field "id" payload = Some a.

(** The shape of a payload for an organization contact. *)
Definition zr_shape (z : AdminPanelZrContact) (payload : json) : Prop :=
  field "email" payload
    = Some (JStr ("zr" ++ zr_zrNummer z ++ "@einrichtungspartnerring.com")) /\
  field "firstName" payload = Some JNull /\
  field "lastName" payload = Some JNull /\
  address_field "firstName" payload = Some JNull /\
  address_field "lastName" payload = Some JNull.


(* ===================================================================== *)
(** ** The requests and the log lines the statements name *)
(* ===================================================================== *)

(** The lookup of an individual: the external identity reference is the
    only parameter. *)
Definition entraid_lookup (base_url identifier : string) : request :=
  mkReq GET (base_url ++ "/api/customer")
        [("filter[customFields.custom_identifier_user_entraid_]", identifier)] None.

(** The lookup of an organization: the customer number is the only
    parameter. *)
Definition number_lookup (base_url customer_number : string) : request :=
  mkReq GET (base_url ++ "/api/customer")
        [("filter[customerNumber]", customer_number)] None.

(** The line the loop of [sync_users] logs for a record that raised. *)
Definition user_failure_line (user : AdminPanelUser) (e : exn) : level * string :=
  (ERROR, ("Failed to process user " ++ eMailadresse user ++ ": " ++ exn_msg e)%string).

(** The line the loop of [sync_zr_customers] logs for a record that raised. *)
Definition zr_failure_line (zr_contact : AdminPanelZrContact) (e : exn) : level * string :=
  (ERROR, ("Failed to process ZR customer " ++ zr_zrNummer zr_contact ++ ": "
           ++ exn_msg e)%string).

(** The number of records a pass has tallied. *)
Definition tallied (c : counters) : nat := updated c + created c + failed c.

(* ===================================================================== *)
(** ** Two runs against the sample destination: the vocabulary *)
(* ===================================================================== *)

(** The fields without the key [k]. *)
Definition without (k : string) (fields : list (string * json)) : list (string * json) :=
  filter (fun kv => negb (String.eqb k (fst kv))) fields.

(** No string occurs twice. *)
Fixpoint distinct (l : list string) : bool :=
  match l with
  | [] => true
  | x :: rest => andb (negb (existsb (String.eqb x) rest)) (distinct rest)
  end.

(** The country id the sample destination resolves for a contact. *)
Definition resolved_country {str : StrMethods}
    (countries : list (string * string)) (c : contact) : json :=
  match Shop.country_of (upper (c_land c)) countries with
  | Some id => JStr id
  | None => JNull
  end.

(** The ids of [Shop.two_groups]. *)
Definition group_of (is_zr_contact : bool) : json :=
  JStr (if is_zr_contact then "g-zr" else "g-user").

(** The destination takes the write of a contact: it is not strict, or the
    country of the contact resolves. *)
Definition taken {str : StrMethods} (w : Shop.t) (c : contact) : bool :=
  orb (negb (Shop.strict w))
      (match Shop.country_of (upper (c_land c)) (Shop.countries w) with
       | Some _ => true
       | None => false
       end).

(** The fields a create leaves at the destination, given the uuid. *)
Definition stored_by_create {str : StrMethods} (countries : list (string * string)) (c : contact)
    (is_zr_contact : bool) (a : string) : list (string * json) :=
  match create_customer_data c is_zr_contact (JStr a) (group_of is_zr_contact)
          (resolved_country countries c) with
  | Ok (JObj p) => p
  | _ => []
  end.

(** The uuid the sample destination mints after [n] others. *)
Definition nth_uuid (n : nat) : string := ("a" ++ str_of_nat n)%string.

(** The customers a first pass over [users] creates, the first uuid being
    the [n]-th. *)
Fixpoint created_users {str : StrMethods} (countries : list (string * string))
    (users : list AdminPanelUser) (n : nat) : list (list (string * json)) :=
  match users with
  | [] => []
  | u :: rest =>
      stored_by_create countries (IsUser u) false (nth_uuid n)
      :: created_users countries rest (S n)
  end.

Fixpoint created_zrs {str : StrMethods} (countries : list (string * string))
    (zrs : list AdminPanelZrContact) (n : nat) : list (list (string * json)) :=
  match zrs with
  | [] => []
  | z :: rest =>
      stored_by_create countries (IsZr z) true (nth_uuid n)
      :: created_zrs countries rest (S n)
  end.

(** No customer of the list answers the lookup of the individual [u], of
    the organization [z]. *)
Definition no_entraid_match (l : list (list (string * json))) (u : AdminPanelUser) : bool :=
  forallb (fun f => negb (py_eq_str (Shop.entraid_of f) (entraID u))) l.

Definition no_number_match (l : list (list (string * json))) (z : AdminPanelZrContact) : bool :=
  forallb (fun f => negb (py_eq_str (Shop.number_of f) (zr_zrNummer z))) l.

(** The world after a create. *)
Definition after_create (w : Shop.t) (fields : list (string * json)) : Shop.t :=
  Shop.mk (Shop.contacts_gs w) (Shop.companys_gs w) (Shop.customer_groups w)
          (Shop.countries w) (Shop.customers w ++ [fields]) (Shop.strict w)
          (S (Shop.uuids w)).

(** The worlds with these customers and this many uuids minted. *)
Definition shop_with (w : Shop.t) (l : list (list (string * json))) (n : nat) : Shop.t :=
  Shop.mk (Shop.contacts_gs w) (Shop.companys_gs w) (Shop.customer_groups w)
          (Shop.countries w) l (Shop.strict w) n.

(** [keeps_log c]: whatever the state, [c] only appends to the log. *)
Definition keeps_log {World A : Type} (c : M World A) : Prop :=
  forall s, exists l, log (snd (c s)) = log s ++ l.

(** No individual carries the number of an organization of the list. *)
Definition numbers_apart (users : list AdminPanelUser) (zrs : list AdminPanelZrContact)
  : bool :=
  forallb (fun u => negb (existsb (String.eqb (zrNummer u)) (map zr_zrNummer zrs))) users.




(* ===================================================================== *)
(** ** Further vocabulary: reference data, outages, writes *)
(* ===================================================================== *)

(** The request [_get_country_id] sends. *)
Definition country_request {str : StrMethods} (iso_code : string) : request :=
  mkReq GET country_url [("filter[iso]", upper iso_code)] None.

(** The request [_get_customer_group_id] sends. *)
Definition group_request (base_url : string) : request :=
  mkReq GET (base_url ++ "/api/customer-group") [] None.

(** The request [_authenticate] sends. *)
Definition token_request (base_url client_id client_secret : string) : request :=
  mkReq POST (base_url ++ "/api/oauth/token") []
        (Some (JObj [ ("grant_type", JStr "client_credentials");
                      ("client_id", JStr client_id);
                      ("client_secret", JStr client_secret) ])).

(** The requests of the two fetches. *)
Definition contacts_request (base_url : string) : request :=
  mkReq GET (base_url ++ "/api/contacts/list_contact_gs") [] None.

Definition companys_request (base_url : string) : request :=
  mkReq GET (base_url ++ "/api/companys/list_gs_adresstyp") [] None.

(** A customer group as the destination lists it: its id and its
    attributes. *)
Definition group_json (g : json * list (string * json)) : json :=
  JObj [ ("id", fst g); ("attributes", JObj (snd g)) ].

(** The name among the attributes of a group, [None] when there is none. *)
Definition group_name (g : json * list (string * json)) : json :=
  match assoc "name" (snd g) with
  | Some n => n
  | None => JNull
  end.

(** The id of the first group with the name; without one, the id of the
    first group; without any group, [None]. *)
Definition resolve_group (name_ : string) (gs : list (json * list (string * json))) : json :=
  match find (fun g => py_eq_str (group_name g) name_) gs with
  | Some g => fst g
  | None => match gs with
            | g :: _ => fst g
            | [] => JNull
            end
  end.

(** The sample destination behind an outage: the requests [down] selects
    are refused, the others reach the destination. *)
Module Outage.

Definition http (down : request -> bool) (r : request) (w : Shop.t)
  : http_result * Shop.t :=
  if down r then (Refused "503 Service Unavailable", w) else Shop.http r w.

(** Every request is down. *)
Definition all (r : request) : bool := true.

(** The requests to one url are down. *)
Definition only (u : string) (r : request) : bool := String.eqb (url r) u.

End Outage.

(** A world that gives every request the same answer. *)
Module Canned.

Definition http (answer : json) (r : request) (w : unit) : http_result * unit :=
  (Body answer, w).

Definition uuid4_hex (w : unit) : string * unit := ("a0", w).

Definition start : state unit := mkState tt [] [].

End Canned.

Definition is_lookup (ev : event) : bool :=
  match ev with
  | CallGetByEntraId _ | CallGetByNumber _ => true
  | _ => false
  end.

(** The lookups a pass entered, in order. *)
Definition lookups (evs : list event) : list event := filter is_lookup evs.

(** The counters after [n] more failures. *)
Definition add_failed (n : nat) (c : counters) : counters :=
  mkCounters (updated c) (created c) (failed c + n).

(** The records of a served list that a fetch keeps: those for which the
    condition of the comprehension is true. *)
Definition kept (cond : json -> result bool) (items : list json) : list json :=
  filter (fun x => match cond x with Ok true => true | _ => false end) items.

(** Every mandatory field of an individual is a non-empty string. *)
Definition complete (u : AdminPanelUser) : Prop :=
  adresstyp u <> "" /\ eMailadresse u <> "" /\ vorname u <> "" /\ name u <> "" /\
  entraID u <> "" /\ firma u <> "" /\ zrNummer u <> "" /\ strasse u <> "" /\
  postleitzahl u <> "" /\ stadt u <> "" /\ land u <> "".

(** A JSON value is an object. *)
Definition is_object (j : json) : Prop := exists m, j = JObj m.

(** The log of a pass over an empty list. *)
Definition empty_users_log : list (level * string) :=
  [ (INFO, "Starting user synchronization");
    (INFO, "Successfully fetched 0 contacts from admin panel");
    (INFO, "Processing 0 users from admin panel");
    (INFO, "Synchronization completed. Total: 0, Updated: 0, Created: 0, Failed: 0") ].

Definition empty_zr_log : list (level * string) :=
  [ (INFO, "Starting ZR customer synchronization");
    (INFO, "Successfully fetched 0 ZR contacts from admin panel");
    (INFO, "Processing 0 ZR contacts from admin panel");
    (INFO, "ZR synchronization completed. Total: 0, Updated: 0, Created: 0, Failed: 0") ].

(** A record of an individual whose company is a list, not a string. *)
Definition malformed_individual : json :=
  JObj [ ("vorname", JStr "Eva"); ("name", JStr "Lang");
         ("eMailadresse", JStr "thomas.kauer@kauer.ch"); ("zrNummer", JStr "700300");
         ("firma", JArr [ JStr "Lang"; JStr "Soehne" ]); ("strasse", JStr "Hof 3");
         ("postleitzahl", JStr "1010"); ("stadt", JStr "Wien"); ("land", JStr "at");
         ("adresstyp", JStr "Lieferanschrift"); ("entraID", JStr "entra-9") ].

(** A record of an individual without a family name, whose first name is
    a number. *)
Definition stray_individual : json :=
  JObj [ ("vorname", JNum 3); ("eMailadresse", JStr "thomas.kauer@kauer.ch") ].

(** A record of an organization off the allow-list and without an
    address. *)
Definition stray_organization : json :=
  JObj [ ("zrNummer", JStr "999999"); ("firma", JNum 7) ].

(** A record validates as an individual, as an organization. *)
Definition valid_individual (x : json) : Prop := exists u, parse_user x = Ok u.
Definition valid_organization (x : json) : Prop := exists z, parse_zr x = Ok z.

(** The served list is one the fetch of the individuals reads to the end:
    a list of objects in which every object with all mandatory fields
    validates. *)
Definition readable_contacts (items : list json) : Prop :=
  Forall is_object items /\
  Forall valid_individual (kept (fun x => all_present x mandatory_fields) items).

(** The same for the organizations: every object with an allowed number
    validates. *)
Definition readable_companys (items : list json) : Prop :=
  Forall is_object items /\
  Forall valid_organization (kept in_allow_list items).

(** A world in which the token endpoint and the source answer and every
    other request is refused: the destination hands out tokens and serves
    nothing else. *)
Module TokenOnly.

Definition http (r : request) (w : unit) : http_result * unit :=
  if String.eqb (url r) (Shop.shop_url ++ "/api/oauth/token")
  then (Body (JObj [ ("access_token", JStr "token") ]), w)
  else if String.eqb (url r) (Shop.admin_url ++ "/api/contacts/list_contact_gs")
  then (Body (JArr [ user_json Sample.kauer ]), w)
  else if String.eqb (url r) (Shop.admin_url ++ "/api/companys/list_gs_adresstyp")
  then (Body (JArr [ stray_organization; zr_json Sample.zr_a ]), w)
  else (Refused "503 Service Unavailable", w).

Definition run (s : state unit) : exit * state unit :=
  run_sync http Canned.uuid4_hex Shop.shop_url Shop.admin_url "id" "secret" s.

End TokenOnly.

(** The sample run with the requests [down] selects refused. *)
Definition run_during_outage {str : StrMethods} (down : request -> bool) (s : state Shop.t)
  : exit * state Shop.t :=
  run_sync (Outage.http down) Shop.uuid4_hex Shop.shop_url Shop.admin_url "id" "secret" s.

(** The state of the sample run once the token is read. *)
Definition authenticated (w : Shop.t) : state Shop.t :=
  mkState w
    [ (INFO, "Logging initialized");
      (INFO, "Initializing sync service...");
      (INFO, "Successfully authenticated with Shopware API") ]
    [ Http (token_request Shop.shop_url "id" "secret") ].

(** The request carries a payload with a customer group. *)
Definition carries_group (r : request) : Prop :=
  exists payload g,
    body r = Some payload /\ field "groupId" payload = Some g /\ truthy g = true.

(** The request carries a payload whose customer group is null. *)
Definition carries_no_group (r : request) : Prop :=
  exists payload, body r = Some payload /\ field "groupId" payload = Some JNull.

(** An event of a create: a POST among them carries a customer group. *)
Definition guarded_post (ev : event) : Prop :=
  match ev with
  | Http r => meth r = POST -> carries_group r
  | _ => True
  end.

(** An event of an update: a PATCH among them carries no customer group. *)
Definition ungrouped_patch (ev : event) : Prop :=
  match ev with
  | Http r => meth r = PATCH -> carries_no_group r
  | _ => True
  end.

(** An event that writes nothing and mints nothing. *)
Definition reads_only (ev : event) : Prop :=
  match ev with
  | Http r => meth r = GET
  | Uuid4 _ => False
  | _ => True
  end.

(** The state once a client method is entered: its entry is in the trace. *)
Definition entered {World : Type} (ev : event) (s : state World) : state World :=
  mkState (world s) (log s) (trace s ++ [ev]).

(** The customer groups cannot be read: whatever the world, the request for
    them is refused. *)
Definition groups_down {World : Type} (http : request -> World -> http_result * World)
    (base_url : string) : Prop :=
  forall w, exists msg w', http (group_request base_url) w = (Refused msg, w').

(** The sample destination holding Kauer as a first run created him. *)
Definition kauer_stored : list (string * json) :=
  stored_by_create Sample.known_countries (IsUser Sample.kauer) false "a0".

Definition shop_with_kauer : Shop.t :=
  shop_with (Sample.empty_shop [Sample.kauer] [] false) [kauer_stored] 1.

(** The requests for the customer groups are down. *)
Definition groups_request_down : request -> bool :=
  Outage.only (Shop.shop_url ++ "/api/customer-group").

(** The writes among the events: the POST and PATCH requests sent. *)
Definition writes (evs : list event) : nat :=
  length (sent POST evs) + length (sent PATCH evs).

(** The lookups a pass over the records enters, record by record. *)
Definition user_lookups (admin_users : list AdminPanelUser) : list event :=
  map (fun u => CallGetByEntraId (entraID u)) admin_users.

Definition zr_lookups (zr_contacts : list AdminPanelZrContact) : list event :=
  map (fun z => CallGetByNumber (zr_zrNummer z)) zr_contacts.

(** What a loop over [n] records may add to the trace when it takes the
    counters from [c] to [c']: the lookups [ls], at most one write for each
    record, and a PATCH for every update counted, a POST for every create
    counted. *)
Definition accounted (ls : list event) (n : nat) (c c' : counters) (evs : list event)
  : Prop :=
  lookups evs = ls /\
  writes evs <= n /\
  updated c' <= updated c + length (sent PATCH evs) /\
  created c' <= created c + length (sent POST evs).

(** The fields the update of an organization writes over a customer whose
    default billing address is [a]. *)
Definition written_by_zr_update {str : StrMethods} (countries : list (string * string))
    (z : AdminPanelZrContact) (a : string) : list (string * json) :=
  match update_customer_data (IsZr z) true (JStr a) (group_of true)
          (resolved_country countries (IsZr z)) with
  | Ok (JObj p) => p
  | _ => []
  end.

(** An individual who carries the number of the organization [Sample.zr_a]. *)
Definition member_of_a : AdminPanelUser :=
  mkUser "Thomas" "Kauer" "thomas.kauer@kauer.ch" None "112212" "Moebel A"
         "Ring 1" "50667" "Koeln" "de" "Rechnungsanschrift" "entra-4".

(** The request carries a payload with the customer number [n]. *)
Definition carries_number (n : string) (r : request) : Prop :=
  exists payload, body r = Some payload /\ field "customerNumber" payload = Some (JStr n).

(** The request carries a payload that stores [e] under the custom field
    the lookup of the individuals filters on. *)
Definition carries_entraid (e : string) (r : request) : Prop :=
  exists payload custom,
    body r = Some payload /\ field "customFields" payload = Some custom /\
    field entraid_field custom = Some (JStr e).

(* ===================================================================== *)
(** ** Rules for [emits] *)
(* ===================================================================== *)

Section Emission.

Context {str : StrMethods}.

Variable World : Type.

Lemma emits_ret {A : Type} (P : event -> Prop) (a : A) : emits P (@ret World A a).
Proof. intros s. exists []. simpl. rewrite app_nil_r. auto. Qed.

Lemma emits_raise {A : Type} (P : event -> Prop) (e : exn) : emits P (@raise World A e).
Proof. intros s. exists []. simpl. rewrite app_nil_r. auto. Qed.

Lemma emits_lift {A : Type} (P : event -> Prop) (r : result A) : emits P (@lift World A r).
Proof. intros s. exists []. simpl. rewrite app_nil_r. auto. Qed.

Lemma emits_logger (P : event -> Prop) (l : level) (m : string) :
  emits P (@logger World l m).
Proof. intros s. exists []. simpl. rewrite app_nil_r. auto. Qed.

Lemma emits_emit (P : event -> Prop) (ev : event) : P ev -> emits P (@emit World ev).
Proof. intros H s. exists [ev]. simpl. auto. Qed.

Lemma emits_send (P : event -> Prop) http (r : request) :
  P (Http r) -> emits P (@send World http r).
Proof.
  intros H s. exists [Http r]. unfold send.
  destruct (http r (world s)) as [[j | m] w]; simpl; auto.
Qed.

Lemma emits_fresh_uuid (P : event -> Prop) uuid4_hex :
  (forall u, P (Uuid4 u)) -> emits P (@fresh_uuid World uuid4_hex).
Proof.
  intros H s. unfold fresh_uuid.
  destruct (uuid4_hex (world s)) as [u w]. exists [Uuid4 u]. simpl. auto.
Qed.

Lemma emits_bind {A B : Type} (P : event -> Prop) (c : M World A) (k : A -> M World B) :
  emits P c -> (forall a, emits P (k a)) -> emits P (bind c k).
Proof.
  intros Hc Hk s. unfold bind.
  destruct (Hc s) as [evs [Ht Hf]].
  destruct (c s) as [[a | e] s1]; simpl in *.
  - destruct (Hk a s1) as [evs' [Ht' Hf']].
    exists (evs ++ evs'). rewrite Ht', Ht, app_assoc. split; auto.
    apply Forall_app; auto.
  - exists evs. auto.
Qed.

(** A value read from pure code is known to the continuation. *)
Lemma emits_bind_lift {A B : Type} (P : event -> Prop) (r : result A) (k : A -> M World B) :
  (forall a, r = Ok a -> emits P (k a)) -> emits P (bind (lift r) k).
Proof.
  intros Hk s. unfold bind, lift.
  destruct r as [a | e].
  - apply (Hk a eq_refl).
  - exists []. simpl. rewrite app_nil_r. auto.
Qed.

Lemma emits_try_except {A : Type} (P : event -> Prop) (c : M World A) (h : exn -> M World A) :
  emits P c -> (forall e, emits P (h e)) -> emits P (try_except c h).
Proof.
  intros Hc Hh s. unfold try_except.
  destruct (Hc s) as [evs [Ht Hf]].
  destruct (c s) as [[a | e] s1]; simpl in *.
  - exists evs. auto.
  - destruct (Hh e s1) as [evs' [Ht' Hf']].
    exists (evs ++ evs'). rewrite Ht', Ht, app_assoc. split; auto.
    apply Forall_app; auto.
Qed.

Lemma emits_try_except_request {A : Type} (P : event -> Prop)
    (c : M World A) (h : exn -> M World A) :
  emits P c -> (forall e, emits P (h e)) -> emits P (try_except_request c h).
Proof.
  intros Hc Hh. apply emits_try_except; auto.
  intros e. destruct (is_request_exception e); auto using emits_raise.
Qed.


Lemma emits_new_events {A : Type} (P : event -> Prop) (c : M World A) (s : state World) :
  emits P c -> Forall P (new_events s (snd (c s))).
Proof.
  intros Hc. destruct (Hc s) as [evs [Ht Hf]].
  unfold new_events. rewrite Ht, skipn_app, skipn_all, Nat.sub_diag. assumption.
Qed.

End Emission.
Section ClientTraces.

Context {str : StrMethods}.

Variable World : Type.
Variable http : request -> World -> http_result * World.
Variable uuid4_hex : World -> string * World.
Variable base_url : string.

Ltac emits_step :=
  first
    [ apply emits_ret | apply emits_raise | apply emits_lift | apply emits_logger
    | apply emits_bind_lift; intros ? ?
    | apply emits_try_except_request; [ | intros ? ]
    | apply emits_bind; [ | intros ? ] ].

Lemma get_country_emits (P : event -> Prop) (iso_code : string) :
  (forall r, meth r = GET -> P (Http r)) ->
  emits P (_get_country_id http iso_code).
Proof.
  intros HP. unfold _get_country_id.
  apply emits_try_except_request; [ | intros e; repeat emits_step ].
  apply emits_bind; [ apply emits_send; apply HP; reflexivity | intros data ].
  repeat emits_step.
Qed.

Lemma get_group_emits (P : event -> Prop) (group_name : string) :
  (forall r, meth r = GET -> P (Http r)) ->
  emits P (_get_customer_group_id http base_url group_name).
Proof.
  intros HP. unfold _get_customer_group_id.
  apply emits_try_except_request; [ | intros e; repeat emits_step ].
  apply emits_bind; [ apply emits_send; apply HP; reflexivity | intros data ].
  repeat emits_step. destruct a1; repeat emits_step.
Qed.

(** What follows the entry of a method in the trace. *)
Lemma emit_then {A : Type} (P : event -> Prop) (ev : event) (k : unit -> M World A) :
  emits P (k tt) ->
  forall s, exists evs,
    trace (snd (bind (emit ev) k s)) = trace s ++ ev :: evs /\ Forall P evs.
Proof.
  intros Hk s. unfold bind, emit.
  destruct (Hk (mkState (world s) (log s) (trace s ++ [ev]))) as [evs [Ht Hf]].
  exists evs. rewrite Ht. simpl. rewrite <- app_assoc. auto.
Qed.

Lemma create_trace (c : contact) (is_zr_contact : bool) (s : state World) :
  exists evs,
    trace (snd (create_customer_generic http uuid4_hex base_url c is_zr_contact s))
      = trace s ++ CallCreate c is_zr_contact :: evs /\
    Forall (create_event base_url c is_zr_contact) evs.
Proof.
  unfold create_customer_generic. apply emit_then.
  apply emits_bind; [ apply get_country_emits; intros r Hr; left; exact Hr | intros country_id ].
  apply emits_bind; [ apply get_group_emits; intros r Hr; left; exact Hr | intros group_id ].
  apply emits_bind; [ destruct (negb _); repeat emits_step | intros _ ].
  apply emits_bind; [ apply emits_fresh_uuid; intros u; exact I | intros a ].
  apply emits_bind_lift. intros payload Hpayload.
  apply emits_try_except_request; [ | intros e; repeat emits_step ].
  apply emits_bind; [ | intros _; repeat emits_step ].
  apply emits_send. right. simpl. repeat split.
  exists a, group_id, country_id, payload. auto.
Qed.

Lemma update_trace (c : contact) (is_zr_contact : bool) (existing_customer : json)
    (s : state World) :
  exists evs,
    trace (snd (update_customer_generic http base_url c is_zr_contact existing_customer s))
      = trace s ++ CallUpdate c is_zr_contact existing_customer :: evs /\
    Forall (update_event base_url c is_zr_contact existing_customer) evs.
Proof.
  unfold update_customer_generic. apply emit_then.
  apply emits_bind_lift. intros id Hid.
  apply emits_bind_lift. intros d Hd.
  apply emits_bind; [ apply get_group_emits; intros r Hr; left; exact Hr | intros group_id ].
  apply emits_bind; [ apply get_country_emits; intros r Hr; left; exact Hr | intros country_id ].
  apply emits_bind_lift. intros payload Hpayload.
  apply emits_try_except_request; [ | intros e; repeat emits_step ].
  apply emits_bind; [ | intros _; repeat emits_step ].
  apply emits_send. right. simpl. split; [ reflexivity | ].
  exists id, d, group_id, country_id, payload.
  repeat split; auto.
Qed.

Lemma create_emits (c : contact) (is_zr_contact : bool) :
  emits (fun ev => ev = CallCreate c is_zr_contact \/ create_event base_url c is_zr_contact ev)
    (create_customer_generic http uuid4_hex base_url c is_zr_contact).
Proof.
  intros s. destruct (create_trace c is_zr_contact s) as [evs [Ht Hf]].
  exists (CallCreate c is_zr_contact :: evs). split; [ exact Ht | ].
  constructor; [ left; reflexivity | ].
  eapply Forall_impl; [ | exact Hf ]. intros ev H. right. exact H.
Qed.

Lemma update_emits (c : contact) (is_zr_contact : bool) (existing_customer : json) :
  emits (fun ev => ev = CallUpdate c is_zr_contact existing_customer \/
                   update_event base_url c is_zr_contact existing_customer ev)
    (update_customer_generic http base_url c is_zr_contact existing_customer).
Proof.
  intros s. destruct (update_trace c is_zr_contact existing_customer s) as [evs [Ht Hf]].
  exists (CallUpdate c is_zr_contact existing_customer :: evs). split; [ exact Ht | ].
  constructor; [ left; reflexivity | ].
  eapply Forall_impl; [ | exact Hf ]. intros ev H. right. exact H.
Qed.

End ClientTraces.
Lemma sent_Forall (P : event -> Prop) (Q : request -> Prop) (m : method) (evs : list event) :
  (forall r, P (Http r) -> meth r = m -> Q r) ->
  Forall P evs -> Forall Q (sent m evs).
Proof.
  intros HPQ H. induction H as [ | ev evs Hev _ IH ]; simpl; [ constructor | ].
  destruct ev; auto.
  destruct (method_eqb (meth r) m) eqn:E; auto.
  constructor; auto. apply HPQ; auto.
  destruct (meth r), m; simpl in E; congruence.
Qed.

Lemma minted_nil (P : event -> Prop) (evs : list event) :
  (forall u, ~ P (Uuid4 u)) -> Forall P evs -> minted evs = [].
Proof.
  intros HP H. induction H as [ | ev evs Hev _ IH ]; simpl; auto.
  destruct ev; auto. exfalso. eapply HP; eauto.
Qed.


(** *** The payloads, field by field *)

Lemma common_user (u : AdminPanelUser) (d g k : json) :
  exists p, customer_data_common (IsUser u) false d g k = Ok p /\
            assoc "customFields" p = None /\
            both_slots d (JObj p) /\
            address_field "countryId" (JObj p) = Some k.
Proof. eexists. split; [ reflexivity | ]. repeat split. Qed.

Lemma common_zr (c : contact) (d g k : json) :
  exists p, customer_data_common c true d g k = Ok p /\
            assoc "customFields" p = None /\
            both_slots d (JObj p) /\
            address_field "countryId" (JObj p) = Some k /\
            assoc "email" p = Some (JStr ("zr" ++ c_zrNummer c ++ "@einrichtungspartnerring.com")) /\
            assoc "firstName" p = Some JNull /\
            assoc "lastName" p = Some JNull /\
            address_field "firstName" (JObj p) = Some JNull /\
            address_field "lastName" (JObj p) = Some JNull.
Proof. eexists. split; [ reflexivity | ]. repeat split. Qed.

Lemma common_inv (c : contact) (z : bool) (d g k : json) (p : list (string * json)) :
  customer_data_common c z d g k = Ok p ->
  assoc "customFields" p = None /\
  both_slots d (JObj p) /\
  address_field "countryId" (JObj p) = Some k /\
  (z = true ->
   assoc "email" p = Some (JStr ("zr" ++ c_zrNummer c ++ "@einrichtungspartnerring.com")) /\
   assoc "firstName" p = Some JNull /\
   assoc "lastName" p = Some JNull /\
   address_field "firstName" (JObj p) = Some JNull /\
   address_field "lastName" (JObj p) = Some JNull).
Proof.
  intros H. destruct z.
  - destruct (common_zr c d g k) as [p' [E F]]. rewrite E in H. inversion H; subst.
    intuition.
  - destruct c as [u | zc]; [ | discriminate H ].
    destruct (common_user u d g k) as [p' [E F]]. rewrite E in H. inversion H; subst.
    intuition discriminate.
Qed.

Lemma update_data_inv (c : contact) (z : bool) (d g k payload : json) :
  update_customer_data c z d g k = Ok payload ->
  exists p, payload = JObj p /\ customer_data_common c z d g k = Ok p.
Proof.
  unfold update_customer_data. destruct (customer_data_common c z d g k) as [p | e]; simpl.
  - intros H. inversion H. eauto.
  - discriminate.
Qed.

Lemma assoc_app_l (k : string) (p q : list (string * json)) (v : json) :
  assoc k p = Some v -> assoc k (p ++ q) = Some v.
Proof.
  induction p as [ | [k' v'] p IH ]; simpl; [ discriminate | ].
  destruct (String.eqb k k'); auto.
Qed.


Lemma create_data_inv (c : contact) (z : bool) (d g k payload : json) :
  create_customer_data c z d g k = Ok payload ->
  exists p entra, payload = JObj (p ++ [ ("customFields", JObj [ (entraid_field, entra) ]) ]) /\
                  customer_data_common c z d g k = Ok p /\
                  (if z then entra = JNull
                   else exists e, c_entraID c = Ok e /\ entra = JStr e).
Proof.
  unfold create_customer_data. destruct (customer_data_common c z d g k) as [p | e]; simpl;
    [ | discriminate ].
  destruct z; simpl.
  - intros H. inversion H. exists p, JNull. auto.
  - destruct (c_entraID c) as [e | e]; simpl; [ | discriminate ].
    intros H. inversion H. exists p, (JStr e). eauto.
Qed.

Lemma both_slots_app (a : json) (p q : list (string * json)) :
  both_slots a (JObj p) -> both_slots a (JObj (p ++ q)).
Proof.
  unfold both_slots, address_field, field. intros [H1 [H2 H3]].
  rewrite (assoc_app_l _ _ q H1), (assoc_app_l _ _ q H2).
  destruct (assoc "addresses" p) as [v | ] eqn:E; [ | discriminate ].
  rewrite (assoc_app_l _ _ q E). auto.
Qed.

Lemma address_field_app (k : string) (v : json) (p q : list (string * json)) :
  address_field k (JObj p) = Some v -> address_field k (JObj (p ++ q)) = Some v.
Proof.
  unfold address_field, field.
  destruct (assoc "addresses" p) as [w | ] eqn:E; [ | discriminate ].
  rewrite (assoc_app_l _ _ q E). auto.
Qed.

Lemma zr_shape_common (z : AdminPanelZrContact) (d g k : json) (p q : list (string * json)) :
  customer_data_common (IsZr z) true d g k = Ok p -> zr_shape z (JObj (p ++ q)).
Proof.
  intros H. destruct (common_inv _ _ _ _ _ H) as [_ [_ [_ Hz]]].
  destruct (Hz eq_refl) as [E [F [L [AF AL]]]].
  unfold zr_shape, field. simpl in E.
  rewrite (assoc_app_l _ _ q E), (assoc_app_l _ _ q F), (assoc_app_l _ _ q L).
  rewrite (address_field_app _ _ q AF), (address_field_app _ _ q AL). auto.
Qed.

(** C9. For every organization (ZR) contact the create payload and the
    update payload exist, their email is ["zr" + zrNummer + "@" +
    "einrichtungspartnerring.com"], and firstName and lastName are null in
    the customer object and in its address block; so is the body of every
    POST that [create_zr_customer] sends and of every PATCH that
    [update_zr_customer] sends. *)
Theorem zr_payload_email_and_null_names :
  (forall (z : AdminPanelZrContact) (a g k : json),
      exists pc pu,
        create_customer_data (IsZr z) true a g k = Ok pc /\ zr_shape z pc /\
        update_customer_data (IsZr z) true a g k = Ok pu /\ zr_shape z pu) /\
  (forall (str : StrMethods) World
          (http : request -> World -> http_result * World) uuid4_hex base_url
          (z : AdminPanelZrContact) (s : state World),
      Forall (fun r => exists payload, body r = Some payload /\ zr_shape z payload)
        (sent POST (new_events s
           (snd (create_zr_customer http uuid4_hex base_url z s))))) /\
  (forall (str : StrMethods) World (http : request -> World -> http_result * World) base_url
          (z : AdminPanelZrContact) (existing_customer : json) (s : state World),
      Forall (fun r => exists payload, body r = Some payload /\ zr_shape z payload)
        (sent PATCH (new_events s
           (snd (update_zr_customer http base_url z existing_customer s))))).
Proof.
  split; [ | split ].
  - intros z a g k.
    destruct (common_zr (IsZr z) a g k) as [p [E _]].
    exists (JObj (p ++ [ ("customFields", JObj [ (entraid_field, JNull) ]) ])), (JObj p).
    unfold create_customer_data, update_customer_data. rewrite E. simpl.
    split; [ reflexivity | ].
    split; [ eapply zr_shape_common; exact E | ].
    split; [ reflexivity | ].
    rewrite <- (app_nil_r p). eapply zr_shape_common; exact E.
  - intros str World http uuid4_hex base_url z s. unfold create_zr_customer.
    eapply sent_Forall; [ | apply emits_new_events; apply create_emits ].
    intros r [H | H] Hm; [ discriminate H | ].
    destruct H as [H | [_ [_ [a [g [k [payload [Hp Hb]]]]]]]]; [ congruence | ].
    exists payload. split; [ assumption | ].
    destruct (create_data_inv _ _ _ _ _ Hp) as [p [entra [-> [Hc _]]]].
    eapply zr_shape_common; eauto.
  - intros str World http base_url z existing_customer s. unfold update_zr_customer.
    eapply sent_Forall; [ | apply emits_new_events; apply update_emits ].
    intros r [H | H] Hm; [ discriminate H | ].
    destruct H as [H | [_ [id [d [g [k [payload [_ [_ [_ [Hp Hb]]]]]]]]]]]; [ congruence | ].
    exists payload. split; [ assumption | ].
    destruct (update_data_inv _ _ _ _ _ Hp) as [p [-> Hc]].
    rewrite <- (app_nil_r p). eapply zr_shape_common; eauto.
Qed.

(** C10. The body of every PATCH that [update_customer_generic] sends has
    no [customFields] key, whatever the contact and the existing customer;
    the update payload of an individual and of a ZR contact exists and has
    none either.  The create payload has the key: it holds the contact's
    entraID for an individual and null for a ZR contact, and so does the
    body of every POST that [create_customer] and [create_zr_customer]
    send. *)
Theorem update_payload_has_no_customFields :
  (forall (str : StrMethods) World (http : request -> World -> http_result * World) base_url
          (c : contact) (is_zr_contact : bool) (existing_customer : json) (s : state World),
      Forall (fun r => exists payload,
                  body r = Some payload /\ field "customFields" payload = None)
        (sent PATCH (new_events s
           (snd (update_customer_generic http base_url c is_zr_contact
                   existing_customer s))))) /\
  (forall (u : AdminPanelUser) (d g k : json),
      exists payload, update_customer_data (IsUser u) false d g k = Ok payload /\
                      field "customFields" payload = None) /\
  (forall (z : AdminPanelZrContact) (d g k : json),
      exists payload, update_customer_data (IsZr z) true d g k = Ok payload /\
                      field "customFields" payload = None) /\
  (forall (u : AdminPanelUser) (a g k : json),
      exists payload, create_customer_data (IsUser u) false a g k = Ok payload /\
                      field "customFields" payload
                        = Some (JObj [ (entraid_field, JStr (entraID u)) ])) /\
  (forall (z : AdminPanelZrContact) (a g k : json),
      exists payload, create_customer_data (IsZr z) true a g k = Ok payload /\
                      field "customFields" payload
                        = Some (JObj [ (entraid_field, JNull) ])) /\
  (forall (str : StrMethods) World
          (http : request -> World -> http_result * World) uuid4_hex base_url
          (u : AdminPanelUser) (s : state World),
      Forall (fun r => exists payload,
                  body r = Some payload /\
                  field "customFields" payload
                    = Some (JObj [ (entraid_field, JStr (entraID u)) ]))
        (sent POST (new_events s (snd (create_customer http uuid4_hex base_url u s))))) /\
  (forall (str : StrMethods) World
          (http : request -> World -> http_result * World) uuid4_hex base_url
          (z : AdminPanelZrContact) (s : state World),
      Forall (fun r => exists payload,
                  body r = Some payload /\
                  field "customFields" payload = Some (JObj [ (entraid_field, JNull) ]))
        (sent POST (new_events s (snd (create_zr_customer http uuid4_hex base_url z s))))).
Proof.
  repeat apply conj.
  - intros str World http base_url c z existing_customer s.
    eapply sent_Forall; [ | apply emits_new_events; apply update_emits ].
    intros r [H | H] Hm; [ discriminate H | ].
    destruct H as [H | [_ [id [d [g [k [payload [_ [_ [_ [Hp Hb]]]]]]]]]]]; [ congruence | ].
    exists payload. split; [ assumption | ].
    destruct (update_data_inv _ _ _ _ _ Hp) as [p [-> Hc]].
    apply (common_inv _ _ _ _ _ Hc).
  - intros u d g k. eexists. split; reflexivity.
  - intros z d g k. eexists. split; reflexivity.
  - intros u a g k. eexists. split; reflexivity.
  - intros z a g k. eexists. split; reflexivity.
  - intros str World http uuid4_hex base_url u s. unfold create_customer.
    eapply sent_Forall; [ | apply emits_new_events; apply create_emits ].
    intros r [H | H] Hm; [ discriminate H | ].
    destruct H as [H | [_ [_ [a [g [k [payload [Hp Hb]]]]]]]]; [ congruence | ].
    exists payload. split; [ assumption | ].
    simpl in Hp. inversion Hp. reflexivity.
  - intros str World http uuid4_hex base_url z s. unfold create_zr_customer.
    eapply sent_Forall; [ | apply emits_new_events; apply create_emits ].
    intros r [H | H] Hm; [ discriminate H | ].
    destruct H as [H | [_ [_ [a [g [k [payload [Hp Hb]]]]]]]]; [ congruence | ].
    exists payload. split; [ assumption | ].
    simpl in Hp. inversion Hp. reflexivity.
Qed.

Lemma minted_app (l1 l2 : list event) : minted (l1 ++ l2) = minted l1 ++ minted l2.
Proof.
  induction l1 as [ | ev l1 IH ]; simpl; auto. destruct ev; simpl; auto. f_equal; auto.
Qed.

Lemma sent_app (m : method) (l1 l2 : list event) : sent m (l1 ++ l2) = sent m l1 ++ sent m l2.
Proof.
  induction l1 as [ | ev l1 IH ]; simpl; auto. destruct ev; simpl; auto.
  destruct (method_eqb (meth r) m); simpl; auto. f_equal; auto.
Qed.

Lemma calls_app (l1 l2 : list event) : calls (l1 ++ l2) = calls l1 ++ calls l2.
Proof. unfold calls. apply filter_app. Qed.

Lemma only_gets (evs : list event) :
  Forall is_get evs ->
  minted evs = [] /\ calls evs = [] /\ sent POST evs = [] /\ sent PATCH evs = [].
Proof.
  intros H. induction H as [ | ev evs [r [-> Hr]] _ [IH1 [IH2 [IH3 IH4]]] ]; simpl; auto.
  rewrite Hr. simpl. auto.
Qed.

Lemma new_events_app {World : Type} (s s' : state World) (evs : list event) :
  trace s' = trace s ++ evs -> new_events s s' = evs.
Proof.
  intros H. unfold new_events. rewrite H, skipn_app, skipn_all, Nat.sub_diag. reflexivity.
Qed.

Section CreateMints.

Context {str : StrMethods}.

Variable World : Type.
Variable http : request -> World -> http_result * World.
Variable uuid4_hex : World -> string * World.
Variable base_url : string.

Lemma get_country_gets (iso_code : string) : emits is_get (_get_country_id http iso_code).
Proof. apply get_country_emits. intros r Hr. exists r. auto. Qed.

Lemma get_group_gets (group_name : string) :
  emits is_get (_get_customer_group_id http base_url group_name).
Proof. apply get_group_emits. intros r Hr. exists r. auto. Qed.

Lemma bind_run {A B : Type} (c : M World A) (k : A -> M World B) (s : state World) :
  bind c k s = match c s with
               | (Ok a, s') => k a s'
               | (Raise e, s') => (Raise e, s')
               end.
Proof. reflexivity. Qed.

Lemma create_data_both_slots (c : contact) (z : bool) (a g k payload : json) :
  create_customer_data c z a g k = Ok payload -> both_slots a payload.
Proof.
  intros H. destruct (create_data_inv _ _ _ _ _ H) as [p [entra [-> [Hc _]]]].
  apply both_slots_app. apply (common_inv _ _ _ _ _ Hc).
Qed.

(** A create mints at most one uuid, and the payload it posts points both
    default slots and its address block at that uuid. *)
Lemma create_mints_the_address_id (c : contact) (is_zr_contact : bool) (s : state World) :
  let evs := new_events s (snd (create_customer_generic http uuid4_hex base_url
                                  c is_zr_contact s)) in
  (minted evs = [] /\ sent POST evs = []) \/
  (exists a, minted evs = [a] /\
             Forall (fun r => exists payload,
                         body r = Some payload /\ both_slots (JStr a) payload)
               (sent POST evs)).
Proof.
  unfold create_customer_generic. rewrite bind_run. simpl.
  set (s1 := mkState (world s) (log s) (trace s ++ [CallCreate c is_zr_contact])).
  rewrite bind_run.
  destruct (get_country_gets (c_land c) s1) as [evs1 [T1 G1]].
  destruct (_get_country_id http (c_land c) s1) as [[country_id | e] s2]; simpl in T1.
  2:{ left. simpl. rewrite (new_events_app s s2 ([CallCreate c is_zr_contact] ++ evs1)).
      - rewrite minted_app, sent_app. destruct (only_gets G1) as [-> [_ [-> _]]]. auto.
      - rewrite T1. unfold s1. simpl. rewrite <- app_assoc. reflexivity. }
  rewrite bind_run.
  destruct (get_group_gets (group_name_of is_zr_contact) s2) as [evs2 [T2 G2]].
  destruct (_get_customer_group_id http base_url (group_name_of is_zr_contact) s2)
    as [[group_id | e] s3]; simpl in T2.
  2:{ left. simpl.
      rewrite (new_events_app s s3 ([CallCreate c is_zr_contact] ++ evs1 ++ evs2)).
      - rewrite !minted_app, !sent_app.
        destruct (only_gets G1) as [-> [_ [-> _]]].
        destruct (only_gets G2) as [-> [_ [-> _]]]. auto.
      - rewrite T2, T1. unfold s1. simpl. rewrite <- !app_assoc. reflexivity. }
  remember ([CallCreate c is_zr_contact] ++ evs1 ++ evs2) as E0 eqn:HE0.
  assert (T3 : trace s3 = trace s ++ E0).
  { rewrite T2, T1, HE0. unfold s1. simpl. rewrite <- !app_assoc. reflexivity. }
  assert (N3 : minted E0 = [] /\ sent POST E0 = []).
  { rewrite HE0, !minted_app, !sent_app.
    destruct (only_gets G1) as [-> [_ [-> _]]].
    destruct (only_gets G2) as [-> [_ [-> _]]]. auto. }
  destruct N3 as [N3 P3]. clear HE0 T1 T2 G1 G2.
  rewrite bind_run.
  cbn [forallb truthy salutation_id sales_channel_id String.eqb Ascii.eqb Bool.eqb negb andb].
  destruct (truthy group_id); cbn [negb andb].
  2:{ left. simpl. rewrite (new_events_app _ _ _ T3). auto. }
  cbv beta iota delta [ret]. rewrite bind_run. unfold fresh_uuid.
  destruct (uuid4_hex (world s3)) as [a w4].
  set (s4 := mkState w4 (log s3) (trace s3 ++ [Uuid4 a])).
  assert (T4 : trace s4 = trace s ++ E0 ++ [Uuid4 a]).
  { unfold s4. simpl. rewrite T3, <- !app_assoc. reflexivity. }
  right. exists a.
  rewrite bind_run. unfold lift.
  destruct (create_customer_data c is_zr_contact (JStr a) group_id country_id)
    as [payload | e] eqn:Hp.
  2:{ cbv zeta. cbn [snd]. rewrite (new_events_app _ _ _ T4).
      rewrite minted_app, sent_app, N3, P3. simpl. auto. }
  unfold try_except_request, try_except. rewrite bind_run. unfold send.
  set (req := mkReq POST (base_url ++ "/api/customer") [] (Some payload)).
  assert (Hreq : forall s5 : state World,
             trace s5 = trace s4 ++ [Http req] ->
             minted (new_events s s5) = [a] /\
             Forall (fun r => exists payload, body r = Some payload /\
                                              both_slots (JStr a) payload)
               (sent POST (new_events s s5))).
  { intros s5 T5.
    rewrite (new_events_app s s5 ((E0 ++ [Uuid4 a]) ++ [Http req])).
    - rewrite !minted_app, !sent_app, N3, P3. simpl. split; [ reflexivity | ].
      constructor; [ | constructor ]. exists payload. split; [ reflexivity | ].
      eapply create_data_both_slots; eauto.
    - rewrite T5, T4, <- !app_assoc. reflexivity. }
  destruct (http req (world s4)) as [[j | m] w5]; cbv zeta; apply Hreq; reflexivity.
Qed.

End CreateMints.

Section UpdateReuses.

Context {str : StrMethods}.

Variable World : Type.
Variable http : request -> World -> http_result * World.
Variable base_url : string.

(** An update mints nothing, and the payload it patches points both
    default slots and its address block at the id read from the default
    billing address id of the existing customer. *)
Lemma update_reuses_billing_id (c : contact) (is_zr_contact : bool)
    (existing_customer : json) (s : state World) :
  let evs := new_events s (snd (update_customer_generic http base_url c is_zr_contact
                                  existing_customer s)) in
  minted evs = [] /\
  Forall (fun r => exists d payload,
              existing_billing_address_id existing_customer = Ok d /\
              body r = Some payload /\ both_slots d payload)
    (sent PATCH evs).
Proof.
  cbv zeta.
  pose proof (emits_new_events s (update_emits http base_url c is_zr_contact
                                    existing_customer)) as H.
  split.
  - eapply minted_nil; [ | exact H ]. intros u [E | []]. discriminate E.
  - eapply sent_Forall; [ | exact H ].
    intros r [E | E] Hm; [ discriminate E | ].
    destruct E as [E | [_ [id [d [g [k [payload [_ [_ [Hd [Hp Hb]]]]]]]]]]]; [ congruence | ].
    exists d, payload. repeat split; auto;
      destruct (update_data_inv _ _ _ _ _ Hp) as [p [-> Hc]];
      apply (common_inv _ _ _ _ _ Hc).
Qed.

End UpdateReuses.

(** C4 (counterexample). Kauer's address-type is "Rechnungsanschrift"
    alone; the payload his create posts points the default shipping slot at
    the written address all the same. *)
Lemma rechnungsanschrift_alone_sets_shipping_too :
  exists r payload,
    sent POST (trace (snd (create_customer Shop.http Shop.uuid4_hex Shop.shop_url
                             Sample.kauer
                             (Shop.start (Sample.empty_shop [Sample.kauer] [] true)))))
      = [r] /\
    body r = Some payload /\
    ~ address_type_policy (adresstyp Sample.kauer) payload.
Proof.
  eexists. eexists. split; [ vm_compute; reflexivity | ]. split; [ reflexivity | ].
  intros [_ [H _]].
  assert (D : spec_shipping_designated (adresstyp Sample.kauer) = true).
  { apply H. exists (JStr "a0"). split; reflexivity. }
  vm_compute in D. discriminate D.
Qed.

(** C4 (amended). Whatever the address-type, a create mints at most one
    uuid and every payload it posts points the default billing slot, the
    default shipping slot and its one address block at that uuid; every
    payload an update patches points the three at the id read from the
    existing customer; and the payloads do not depend on the address-type
    at all. *)
Theorem both_default_slots_whatever_the_address_type :
  (forall (str : StrMethods) World
          (http : request -> World -> http_result * World) uuid4_hex base_url
          (c : contact) (is_zr_contact : bool) (s : state World),
      let evs := new_events s (snd (create_customer_generic http uuid4_hex base_url
                                      c is_zr_contact s)) in
      (minted evs = [] /\ sent POST evs = []) \/
      (exists a, minted evs = [a] /\
                 Forall (fun r => exists payload,
                             body r = Some payload /\ both_slots (JStr a) payload)
                   (sent POST evs))) /\
  (forall (str : StrMethods) World (http : request -> World -> http_result * World) base_url
          (c : contact) (is_zr_contact : bool) (existing_customer : json) (s : state World),
      Forall (fun r => exists d payload,
                  existing_billing_address_id existing_customer = Ok d /\
                  body r = Some payload /\ both_slots d payload)
        (sent PATCH (new_events s
           (snd (update_customer_generic http base_url c is_zr_contact
                   existing_customer s))))) /\
  (forall (u : AdminPanelUser) (z : AdminPanelZrContact) (t : string) (a g k : json),
      create_customer_data (IsUser (with_adresstyp u t)) false a g k
        = create_customer_data (IsUser u) false a g k /\
      update_customer_data (IsUser (with_adresstyp u t)) false a g k
        = update_customer_data (IsUser u) false a g k /\
      create_customer_data (IsZr (zr_with_adresstyp z t)) true a g k
        = create_customer_data (IsZr z) true a g k /\
      update_customer_data (IsZr (zr_with_adresstyp z t)) true a g k
        = update_customer_data (IsZr z) true a g k).
Proof.
  split; [ | split ].
  - intros. apply create_mints_the_address_id.
  - intros. apply update_reuses_billing_id.
  - intros. repeat split.
Qed.




(* ===================================================================== *)
(** ** The reconciliation loop, one iteration at a time *)
(* ===================================================================== *)

Section Iterations.

Context {str : StrMethods}.

Variable World : Type.
Variable http : request -> World -> http_result * World.
Variable uuid4_hex : World -> string * World.
Variable shopware_url : string.

(** One iteration of [sync_users], by the outcome of its three calls. *)
Lemma sync_user_iteration_run (user : AdminPanelUser) (c : counters) (s : state World) :
  sync_user_iteration http uuid4_hex shopware_url user c s =
  match get_customer_by_custom_field_entraid http shopware_url (entraID user) s with
  | (Raise e, s1) =>
      (Ok (incr_failed c), logged (fst (user_failure_line user e))
                             (snd (user_failure_line user e)) s1)
  | (Ok existing_customer, s1) =>
      if truthy existing_customer
      then match update_customer http shopware_url user existing_customer s1 with
           | (Ok _, s2) =>
               (Ok (incr_updated c),
                logged INFO ("Updated existing user: " ++ eMailadresse user)%string s2)
           | (Raise e, s2) =>
               (Ok (incr_failed c), logged (fst (user_failure_line user e))
                                      (snd (user_failure_line user e)) s2)
           end
      else match create_customer http uuid4_hex shopware_url user s1 with
           | (Ok _, s2) =>
               (Ok (incr_created c),
                logged INFO ("Created new user: " ++ eMailadresse user)%string s2)
           | (Raise e, s2) =>
               (Ok (incr_failed c), logged (fst (user_failure_line user e))
                                      (snd (user_failure_line user e)) s2)
           end
  end.
Proof.
  unfold sync_user_iteration, sync_user_try, try_except. rewrite bind_run.
  destruct (get_customer_by_custom_field_entraid http shopware_url (entraID user) s)
    as [[existing | e] s1]; [ | reflexivity ].
  destruct (truthy existing); rewrite bind_run.
  - destruct (update_customer http shopware_url user existing s1) as [[[] | e] s2];
      reflexivity.
  - destruct (create_customer http uuid4_hex shopware_url user s1) as [[[] | e] s2];
      reflexivity.
Qed.

(** One iteration of [sync_zr_customers], by the outcome of its three calls. *)
Lemma sync_zr_iteration_run (zr_contact : AdminPanelZrContact) (c : counters)
    (s : state World) :
  sync_zr_iteration http uuid4_hex shopware_url zr_contact c s =
  match get_customer_by_customer_number http shopware_url (zr_zrNummer zr_contact) s with
  | (Raise e, s1) =>
      (Ok (incr_failed c), logged (fst (zr_failure_line zr_contact e))
                             (snd (zr_failure_line zr_contact e)) s1)
  | (Ok existing_customer, s1) =>
      if truthy existing_customer
      then match update_zr_customer http shopware_url zr_contact existing_customer s1 with
           | (Ok _, s2) =>
               (Ok (incr_updated c),
                logged INFO ("Updated existing ZR customer: " ++ zr_zrNummer zr_contact)%string s2)
           | (Raise e, s2) =>
               (Ok (incr_failed c), logged (fst (zr_failure_line zr_contact e))
                                      (snd (zr_failure_line zr_contact e)) s2)
           end
      else match create_zr_customer http uuid4_hex shopware_url zr_contact s1 with
           | (Ok _, s2) =>
               (Ok (incr_created c),
                logged INFO ("Created new ZR customer: " ++ zr_zrNummer zr_contact)%string s2)
           | (Raise e, s2) =>
               (Ok (incr_failed c), logged (fst (zr_failure_line zr_contact e))
                                      (snd (zr_failure_line zr_contact e)) s2)
           end
  end.
Proof.
  unfold sync_zr_iteration, sync_zr_try, try_except. rewrite bind_run.
  destruct (get_customer_by_customer_number http shopware_url (zr_zrNummer zr_contact) s)
    as [[existing | e] s1]; [ | reflexivity ].
  destruct (truthy existing); rewrite bind_run.
  - destruct (update_zr_customer http shopware_url zr_contact existing s1)
      as [[[] | e] s2]; reflexivity.
  - destruct (create_zr_customer http uuid4_hex shopware_url zr_contact s1)
      as [[[] | e] s2]; reflexivity.
Qed.

Ltac tally := simpl; eexists; split; [ reflexivity | auto ].

(** An iteration returns, and tallies its record into exactly one
    counter. *)
Lemma sync_user_iteration_tallies (user : AdminPanelUser) (c : counters) (s : state World) :
  exists c', fst (sync_user_iteration http uuid4_hex shopware_url user c s) = Ok c' /\
             (c' = incr_updated c \/ c' = incr_created c \/ c' = incr_failed c).
Proof.
  rewrite sync_user_iteration_run.
  destruct (get_customer_by_custom_field_entraid http shopware_url (entraID user) s)
    as [[existing | e] s1]; [ | tally ].
  destruct (truthy existing).
  - destruct (update_customer http shopware_url user existing s1) as [[[] | e] s2]; tally.
  - destruct (create_customer http uuid4_hex shopware_url user s1) as [[[] | e] s2]; tally.
Qed.

Lemma sync_zr_iteration_tallies (zr_contact : AdminPanelZrContact) (c : counters)
    (s : state World) :
  exists c', fst (sync_zr_iteration http uuid4_hex shopware_url zr_contact c s) = Ok c' /\
             (c' = incr_updated c \/ c' = incr_created c \/ c' = incr_failed c).
Proof.
  rewrite sync_zr_iteration_run.
  destruct (get_customer_by_customer_number http shopware_url (zr_zrNummer zr_contact) s)
    as [[existing | e] s1]; [ | tally ].
  destruct (truthy existing).
  - destruct (update_zr_customer http shopware_url zr_contact existing s1)
      as [[[] | e] s2]; tally.
  - destruct (create_zr_customer http uuid4_hex shopware_url zr_contact s1)
      as [[[] | e] s2]; tally.
Qed.

Lemma tallied_step (c c' : counters) :
  c' = incr_updated c \/ c' = incr_created c \/ c' = incr_failed c ->
  tallied c' = tallied c + 1.
Proof.
  unfold tallied. intros [-> | [-> | ->]]; simpl; lia.
Qed.

(** The loop returns, and tallies every record. *)
Lemma sync_users_loop_tallies (admin_users : list AdminPanelUser) :
  forall (c : counters) (s : state World),
  exists c', fst (sync_users_loop http uuid4_hex shopware_url admin_users c s) = Ok c' /\
             tallied c' = tallied c + length admin_users.
Proof.
  induction admin_users as [ | user rest IH ]; intros c s; simpl.
  - exists c. split; [ reflexivity | lia ].
  - rewrite bind_run.
    destruct (sync_user_iteration_tallies user c s) as [c1 [E1 H1]].
    destruct (sync_user_iteration http uuid4_hex shopware_url user c s) as [r s1].
    simpl in E1. subst r.
    destruct (IH c1 s1) as [c' [E' H']]. exists c'. split; [ exact E' | ].
    rewrite H', (tallied_step H1). lia.
Qed.

Lemma sync_zr_loop_tallies (zr_contacts : list AdminPanelZrContact) :
  forall (c : counters) (s : state World),
  exists c', fst (sync_zr_loop http uuid4_hex shopware_url zr_contacts c s) = Ok c' /\
             tallied c' = tallied c + length zr_contacts.
Proof.
  induction zr_contacts as [ | zr_contact rest IH ]; intros c s; simpl.
  - exists c. split; [ reflexivity | lia ].
  - rewrite bind_run.
    destruct (sync_zr_iteration_tallies zr_contact c s) as [c1 [E1 H1]].
    destruct (sync_zr_iteration http uuid4_hex shopware_url zr_contact c s) as [r s1].
    simpl in E1. subst r.
    destruct (IH c1 s1) as [c' [E' H']]. exists c'. split; [ exact E' | ].
    rewrite H', (tallied_step H1). lia.
Qed.

End Iterations.

(** C8. Each pass returns the triple (total, updated, created): total is the
    number of records fetched, every record is tallied into exactly one of
    updated, created and failed, so the three add up to total; the failed
    count goes to the closing log line only.  When the fetch raises, so does
    the pass.  In the sample run of three organization contacts, one of
    which the strict destination refuses, updated + created = 2 < 3. *)
Theorem pass_returns_total_updated_created :
  (forall (str : StrMethods) World (http : request -> World -> http_result * World) uuid4_hex
          shopware_url admin_panel_url (s : state World),
      match get_all_contacts http admin_panel_url
              (logged INFO "Starting user synchronization" s) with
      | (Ok admin_users, _) =>
          exists c,
            fst (sync_users http uuid4_hex shopware_url admin_panel_url s)
              = Ok (length admin_users, updated c, created c) /\
            updated c + created c + failed c = length admin_users /\
            last (log (snd (sync_users http uuid4_hex shopware_url admin_panel_url s)))
                 (INFO, "")
              = (INFO, completed_line "Synchronization" (length admin_users) c)
      | (Raise e, _) =>
          fst (sync_users http uuid4_hex shopware_url admin_panel_url s) = Raise e
      end) /\
  (forall (str : StrMethods) World (http : request -> World -> http_result * World) uuid4_hex
          shopware_url admin_panel_url (s : state World),
      match get_all_zr_contacts http admin_panel_url
              (logged INFO "Starting ZR customer synchronization" s) with
      | (Ok zr_contacts, _) =>
          exists c,
            fst (sync_zr_customers http uuid4_hex shopware_url admin_panel_url s)
              = Ok (length zr_contacts, updated c, created c) /\
            updated c + created c + failed c = length zr_contacts /\
            last (log (snd (sync_zr_customers http uuid4_hex shopware_url
                              admin_panel_url s)))
                 (INFO, "")
              = (INFO, completed_line "ZR synchronization" (length zr_contacts) c)
      | (Raise e, _) =>
          fst (sync_zr_customers http uuid4_hex shopware_url admin_panel_url s) = Raise e
      end) /\
  fst (sync_zr_customers Shop.http Shop.uuid4_hex Shop.shop_url Shop.admin_url
         (Shop.start (Sample.empty_shop [] [Sample.zr_a; Sample.zr_b; Sample.zr_c] true)))
    = Ok (3, 0, 2).
Proof.
  split; [ | split ].
  - intros str World http uuid4_hex shopware_url admin_panel_url s.
    unfold sync_users. rewrite bind_run. cbn [logger]. unfold try_except.
    rewrite bind_run.
    destruct (get_all_contacts http admin_panel_url
                (logged INFO "Starting user synchronization" s)) as [[users | e] s1];
      [ | reflexivity ].
    rewrite bind_run. cbn [logger]. rewrite bind_run.
    match goal with
    | |- context [ sync_users_loop _ _ _ users zero ?s2 ] =>
        destruct (sync_users_loop_tallies http uuid4_hex shopware_url users zero s2)
          as [c [E H]];
        destruct (sync_users_loop http uuid4_hex shopware_url users zero s2) as [r s3]
    end.
    simpl in E. subst r. exists c. rewrite bind_run. cbn [logger ret fst snd].
    split; [ reflexivity | ]. split.
    + unfold tallied in H. simpl in H. exact H.
    + unfold logged. cbn [log]. apply last_last.
  - intros str World http uuid4_hex shopware_url admin_panel_url s.
    unfold sync_zr_customers. rewrite bind_run. cbn [logger]. unfold try_except.
    rewrite bind_run.
    destruct (get_all_zr_contacts http admin_panel_url
                (logged INFO "Starting ZR customer synchronization" s))
      as [[zr_contacts | e] s1]; [ | reflexivity ].
    rewrite bind_run. cbn [logger]. rewrite bind_run.
    match goal with
    | |- context [ sync_zr_loop _ _ _ zr_contacts zero ?s2 ] =>
        destruct (sync_zr_loop_tallies http uuid4_hex shopware_url zr_contacts zero s2)
          as [c [E H]];
        destruct (sync_zr_loop http uuid4_hex shopware_url zr_contacts zero s2) as [r s3]
    end.
    simpl in E. subst r. exists c. rewrite bind_run. cbn [logger ret fst snd].
    split; [ reflexivity | ]. split.
    + unfold tallied in H. simpl in H. exact H.
    + unfold logged. cbn [log]. apply last_last.
  - vm_compute. reflexivity.
Qed.

(** C7. An exception raised while a record is looked up, mapped or
    written is caught by the loop: the record is counted as failed, the
    error line names the record (the email address of an individual, the
    zrNummer of an organization), and the loop goes on with the next record
    from the state the failed one left.  Neither loop ever raises, a pass
    returns whenever its fetch does, and [run_sync] starts the second pass
    from the state the first pass left, whatever the first pass tallied. *)
Theorem failures_stay_within_their_record :
  forall (str : StrMethods) World (http : request -> World -> http_result * World) uuid4_hex
         shopware_url admin_panel_url client_id client_secret,
    (forall user rest c (s s1 : state World) e,
        sync_user_try http uuid4_hex shopware_url user c s = (Raise e, s1) ->
        sync_users_loop http uuid4_hex shopware_url (user :: rest) c s
          = sync_users_loop http uuid4_hex shopware_url rest (incr_failed c)
              (logged ERROR ("Failed to process user " ++ eMailadresse user ++ ": "
                             ++ exn_msg e) s1)) /\
    (forall zr_contact rest c (s s1 : state World) e,
        sync_zr_try http uuid4_hex shopware_url zr_contact c s = (Raise e, s1) ->
        sync_zr_loop http uuid4_hex shopware_url (zr_contact :: rest) c s
          = sync_zr_loop http uuid4_hex shopware_url rest (incr_failed c)
              (logged ERROR ("Failed to process ZR customer " ++ zr_zrNummer zr_contact
                             ++ ": " ++ exn_msg e) s1)) /\
    (forall admin_users c (s : state World),
        exists c', fst (sync_users_loop http uuid4_hex shopware_url admin_users c s)
                   = Ok c') /\
    (forall zr_contacts c (s : state World),
        exists c', fst (sync_zr_loop http uuid4_hex shopware_url zr_contacts c s)
                   = Ok c') /\
    (forall (s s1 : state World) admin_users,
        get_all_contacts http admin_panel_url
          (logged INFO "Starting user synchronization" s) = (Ok admin_users, s1) ->
        exists r, fst (sync_users http uuid4_hex shopware_url admin_panel_url s) = Ok r) /\
    (forall (s s1 s2 : state World) r,
        _authenticate http shopware_url client_id client_secret
          (logged INFO "Initializing sync service..."
             (logged INFO "Logging initialized" s)) = (Ok tt, s1) ->
        sync_users http uuid4_hex shopware_url admin_panel_url s1 = (Ok r, s2) ->
        run_sync http uuid4_hex shopware_url admin_panel_url client_id client_secret s
          = match sync_zr_customers http uuid4_hex shopware_url admin_panel_url
                    (logged INFO (users_summary r) s2) with
            | (Ok rz, s3) => (Returned, logged INFO (zr_summary rz) s3)
            | (Raise e, s3) => (SysExit 1, logged ERROR ("Sync failed: " ++ exn_msg e) s3)
            end).
Proof.
  intros str World http uuid4_hex shopware_url admin_panel_url client_id client_secret.
  repeat apply conj.
  - intros user rest c s s1 e H. simpl. rewrite bind_run.
    unfold sync_user_iteration, try_except. rewrite H. reflexivity.
  - intros zr_contact rest c s s1 e H. simpl. rewrite bind_run.
    unfold sync_zr_iteration, try_except. rewrite H. reflexivity.
  - intros users c s.
    destruct (sync_users_loop_tallies http uuid4_hex shopware_url users c s) as [c' [E _]].
    eauto.
  - intros zrs c s.
    destruct (sync_zr_loop_tallies http uuid4_hex shopware_url zrs c s) as [c' [E _]].
    eauto.
  - intros s s1 users H.
    unfold sync_users. rewrite bind_run. cbn [logger]. unfold try_except.
    rewrite bind_run, H, bind_run. cbn [logger]. rewrite bind_run.
    match goal with
    | |- context [ sync_users_loop _ _ _ users zero ?s2 ] =>
        destruct (sync_users_loop_tallies http uuid4_hex shopware_url users zero s2)
          as [c [E _]];
        destruct (sync_users_loop http uuid4_hex shopware_url users zero s2) as [r s3]
    end.
    simpl in E. subst r. rewrite bind_run. cbn [logger ret fst]. eauto.
  - intros s s1 s2 r Hauth Husers.
    unfold run_sync, setup_logging. cbn [logger snd].
    rewrite bind_run. cbn [logger]. rewrite bind_run, Hauth.
    rewrite bind_run, Husers. rewrite bind_run. cbn [logger]. rewrite bind_run.
    destruct (sync_zr_customers http uuid4_hex shopware_url admin_panel_url
                (logged INFO (users_summary r) s2)) as [[rz | e] s3]; reflexivity.
Qed.

Lemma failures_stay_within_their_record_witness :
  let refused := Exn RequestException "400 Bad Request" in
  let s := Shop.start (Sample.empty_shop [Sample.nomad; Sample.kauer]
                         [Sample.zr_b; Sample.zr_c] true) in
  let s1 := snd (sync_user_try Shop.http Shop.uuid4_hex Shop.shop_url Sample.nomad zero s) in
  let z1 := snd (sync_zr_try Shop.http Shop.uuid4_hex Shop.shop_url Sample.zr_b zero s) in
  sync_users_loop Shop.http Shop.uuid4_hex Shop.shop_url [Sample.nomad; Sample.kauer] zero s
    = sync_users_loop Shop.http Shop.uuid4_hex Shop.shop_url [Sample.kauer]
        (incr_failed zero)
        (logged ERROR "Failed to process user thomas.kauer@kauer.ch: 400 Bad Request" s1) /\
  sync_zr_loop Shop.http Shop.uuid4_hex Shop.shop_url [Sample.zr_b; Sample.zr_c] zero s
    = sync_zr_loop Shop.http Shop.uuid4_hex Shop.shop_url [Sample.zr_c]
        (incr_failed zero)
        (logged ERROR "Failed to process ZR customer 112213: 400 Bad Request" z1) /\
  (exists r, fst (sync_users Shop.http Shop.uuid4_hex Shop.shop_url Shop.admin_url s)
             = Ok r) /\
  Sample.run s
    = match sync_zr_customers Shop.http Shop.uuid4_hex Shop.shop_url Shop.admin_url
              (logged INFO (users_summary (2, 0, 1))
                 (snd (sync_users Shop.http Shop.uuid4_hex Shop.shop_url Shop.admin_url
                         (snd (_authenticate Shop.http Shop.shop_url "id" "secret"
                                 (logged INFO "Initializing sync service..."
                                    (logged INFO "Logging initialized" s))))))) with
      | (Ok rz, s3) => (Returned, logged INFO (zr_summary rz) s3)
      | (Raise e, s3) => (SysExit 1, logged ERROR ("Sync failed: " ++ exn_msg e) s3)
      end.
Proof.
  cbv zeta.
  destruct (@failures_stay_within_their_record ascii_strings Shop.t Shop.http Shop.uuid4_hex
              Shop.shop_url Shop.admin_url "id" "secret")
    as [Husers [Hzr [_ [_ [Hpass Hrun]]]]].
  split; [ | split; [ | split ] ].
  - apply (Husers Sample.nomad [Sample.kauer] zero _ _
             (Exn RequestException "400 Bad Request")).
    vm_compute. reflexivity.
  - apply (Hzr Sample.zr_b [Sample.zr_c] zero _ _
             (Exn RequestException "400 Bad Request")).
    vm_compute. reflexivity.
  - eapply Hpass. vm_compute. reflexivity.
  - eapply Hrun; vm_compute; reflexivity.
Defined.

(* ===================================================================== *)
(** ** The dispatch on the lookup *)
(* ===================================================================== *)

Lemma update_events_quiet (base_url : string) (c : contact) (z : bool) (ex : json)
    (evs : list event) :
  Forall (update_event base_url c z ex) evs -> calls evs = [] /\ sent POST evs = [].
Proof.
  intros H. induction H as [ | ev evs Hev _ [IH1 IH2] ]; simpl; auto.
  destruct ev; simpl in Hev; try contradiction.
  destruct Hev as [Hm | [Hm _]]; rewrite Hm; simpl; auto.
Qed.

Lemma create_events_quiet (base_url : string) (c : contact) (z : bool)
    (evs : list event) :
  Forall (create_event base_url c z) evs -> calls evs = [] /\ sent PATCH evs = [].
Proof.
  intros H. induction H as [ | ev evs Hev _ [IH1 IH2] ]; simpl; auto.
  destruct ev; simpl in Hev; try contradiction; auto.
  destruct Hev as [Hm | [Hm _]]; rewrite Hm; simpl; auto.
Qed.

Section Dispatch.

Context {str : StrMethods}.

Variable World : Type.
Variable http : request -> World -> http_result * World.
Variable uuid4_hex : World -> string * World.
Variable base_url : string.

(** The lookup of an individual when the destination answers with a list. *)
Lemma get_by_entraid_listed (identifier : string) (s : state World)
    (d : list (string * json)) (l : list json) (w1 : World) :
  http (entraid_lookup base_url identifier) (world s) = (Body (JObj d), w1) ->
  assoc "data" d = Some (JArr l) ->
  get_customer_by_custom_field_entraid http base_url identifier s
    = (Ok (hd JNull l),
       mkState w1 (log s)
         (trace s ++ [CallGetByEntraId identifier;
                      Http (entraid_lookup base_url identifier)])).
Proof.
  intros Hh Hd. unfold get_customer_by_custom_field_entraid.
  rewrite bind_run. cbn [emit]. unfold try_except_request, try_except.
  rewrite bind_run. unfold send. cbn [world log trace].
  fold (entraid_lookup base_url identifier). rewrite Hh.
  rewrite bind_run. cbn [lift py_get]. rewrite Hd. cbn [lift].
  rewrite <- app_assoc. destruct l; reflexivity.
Qed.

(** The lookup of an organization when the destination answers with a list. *)
Lemma get_by_number_listed (customer_number : string) (s : state World)
    (d : list (string * json)) (l : list json) (w1 : World) :
  http (number_lookup base_url customer_number) (world s) = (Body (JObj d), w1) ->
  assoc "data" d = Some (JArr l) ->
  get_customer_by_customer_number http base_url customer_number s
    = (Ok (hd JNull l),
       mkState w1 (log s)
         (trace s ++ [CallGetByNumber customer_number;
                      Http (number_lookup base_url customer_number)])).
Proof.
  intros Hh Hd. unfold get_customer_by_customer_number.
  rewrite bind_run. cbn [emit]. unfold try_except_request, try_except.
  rewrite bind_run. unfold send. cbn [world log trace].
  fold (number_lookup base_url customer_number). rewrite Hh.
  rewrite bind_run. cbn [lift py_get]. rewrite Hd. cbn [lift].
  rewrite <- app_assoc. destruct l; reflexivity.
Qed.

End Dispatch.

Section DispatchTraces.

Context {str : StrMethods}.

Variable World : Type.
Variable http : request -> World -> http_result * World.
Variable uuid4_hex : World -> string * World.
Variable base_url : string.

Lemma logged_trace (l : level) (msg : string) (s : state World) :
  trace (logged l msg s) = trace s.
Proof. reflexivity. Qed.

Lemma user_iteration_matched (user : AdminPanelUser) (c : counters) (s : state World)
    (d : list (string * json)) (w1 : World) (existing : json) (others : list json) :
  http (entraid_lookup base_url (entraID user)) (world s) = (Body (JObj d), w1) ->
  assoc "data" d = Some (JArr (existing :: others)) ->
  truthy existing = true ->
  exists evs,
    new_events s (snd (sync_user_iteration http uuid4_hex base_url user c s))
      = [CallGetByEntraId (entraID user); Http (entraid_lookup base_url (entraID user));
         CallUpdate (IsUser user) false existing] ++ evs /\
    Forall (update_event base_url (IsUser user) false existing) evs.
Proof.
  intros Hh Hd Ht. rewrite sync_user_iteration_run.
  rewrite (get_by_entraid_listed _ _ _ _ Hh Hd). cbn [hd]. rewrite Ht.
  match goal with
  | |- context [ update_customer _ _ _ _ ?s1 ] =>
      destruct (update_trace http base_url (IsUser user) false existing s1)
        as [evs [T F]];
      exists evs; split; [ | exact F ];
      apply new_events_app;
      unfold update_customer;
      destruct (update_customer_generic http base_url (IsUser user) false existing s1)
        as [[[] | e] s2]
  end; cbn [snd] in *; rewrite logged_trace, T; cbn [trace];
    rewrite <- app_assoc; reflexivity.
Qed.

Lemma user_iteration_unmatched (user : AdminPanelUser) (c : counters) (s : state World)
    (d : list (string * json)) (w1 : World) :
  http (entraid_lookup base_url (entraID user)) (world s) = (Body (JObj d), w1) ->
  assoc "data" d = Some (JArr []) ->
  exists evs,
    new_events s (snd (sync_user_iteration http uuid4_hex base_url user c s))
      = [CallGetByEntraId (entraID user); Http (entraid_lookup base_url (entraID user));
         CallCreate (IsUser user) false] ++ evs /\
    Forall (create_event base_url (IsUser user) false) evs.
Proof.
  intros Hh Hd. rewrite sync_user_iteration_run.
  rewrite (get_by_entraid_listed _ _ _ _ Hh Hd). cbn [hd truthy].
  match goal with
  | |- context [ create_customer _ _ _ _ ?s1 ] =>
      destruct (create_trace http uuid4_hex base_url (IsUser user) false s1)
        as [evs [T F]];
      exists evs; split; [ | exact F ];
      apply new_events_app;
      unfold create_customer;
      destruct (create_customer_generic http uuid4_hex base_url (IsUser user) false s1)
        as [[[] | e] s2]
  end; cbn [snd] in *; rewrite logged_trace, T; cbn [trace];
    rewrite <- app_assoc; reflexivity.
Qed.

Lemma zr_iteration_matched (z : AdminPanelZrContact) (c : counters) (s : state World)
    (d : list (string * json)) (w1 : World) (existing : json) (others : list json) :
  http (number_lookup base_url (zr_zrNummer z)) (world s) = (Body (JObj d), w1) ->
  assoc "data" d = Some (JArr (existing :: others)) ->
  truthy existing = true ->
  exists evs,
    new_events s (snd (sync_zr_iteration http uuid4_hex base_url z c s))
      = [CallGetByNumber (zr_zrNummer z); Http (number_lookup base_url (zr_zrNummer z));
         CallUpdate (IsZr z) true existing] ++ evs /\
    Forall (update_event base_url (IsZr z) true existing) evs.
Proof.
  intros Hh Hd Ht. rewrite sync_zr_iteration_run.
  rewrite (get_by_number_listed _ _ _ _ Hh Hd). cbn [hd]. rewrite Ht.
  match goal with
  | |- context [ update_zr_customer _ _ _ _ ?s1 ] =>
      destruct (update_trace http base_url (IsZr z) true existing s1)
        as [evs [T F]];
      exists evs; split; [ | exact F ];
      apply new_events_app;
      unfold update_zr_customer;
      destruct (update_customer_generic http base_url (IsZr z) true existing s1)
        as [[[] | e] s2]
  end; cbn [snd] in *; rewrite logged_trace, T; cbn [trace];
    rewrite <- app_assoc; reflexivity.
Qed.

Lemma zr_iteration_unmatched (z : AdminPanelZrContact) (c : counters) (s : state World)
    (d : list (string * json)) (w1 : World) :
  http (number_lookup base_url (zr_zrNummer z)) (world s) = (Body (JObj d), w1) ->
  assoc "data" d = Some (JArr []) ->
  exists evs,
    new_events s (snd (sync_zr_iteration http uuid4_hex base_url z c s))
      = [CallGetByNumber (zr_zrNummer z); Http (number_lookup base_url (zr_zrNummer z));
         CallCreate (IsZr z) true] ++ evs /\
    Forall (create_event base_url (IsZr z) true) evs.
Proof.
  intros Hh Hd. rewrite sync_zr_iteration_run.
  rewrite (get_by_number_listed _ _ _ _ Hh Hd). cbn [hd truthy].
  match goal with
  | |- context [ create_zr_customer _ _ _ _ ?s1 ] =>
      destruct (create_trace http uuid4_hex base_url (IsZr z) true s1)
        as [evs [T F]];
      exists evs; split; [ | exact F ];
      apply new_events_app;
      unfold create_zr_customer;
      destruct (create_customer_generic http uuid4_hex base_url (IsZr z) true s1)
        as [[[] | e] s2]
  end; cbn [snd] in *; rewrite logged_trace, T; cbn [trace];
    rewrite <- app_assoc; reflexivity.
Qed.

End DispatchTraces.

(** C1. An iteration of the individual pass first looks the customer up by
    the contact's entraID, sent as the custom-field filter.  When the
    destination lists a customer for it, the iteration enters update with the
    first one listed, never enters create and sends no POST; when the
    destination lists none, it enters create, never update, and sends no
    PATCH.  An iteration of the organization pass does the same with the
    customer number (zrNummer) as the only parameter of its lookup. *)
Theorem lookup_decides_update_or_create :
  forall (str : StrMethods) World
          (http : request -> World -> http_result * World) uuid4_hex base_url,
    (forall user c (s : state World) d w1 kv m others,
        http (entraid_lookup base_url (entraID user)) (world s) = (Body (JObj d), w1) ->
        assoc "data" d = Some (JArr (JObj (kv :: m) :: others)) ->
        let evs := new_events s (snd (sync_user_iteration http uuid4_hex base_url user c s)) in
        calls evs = [CallGetByEntraId (entraID user);
                     CallUpdate (IsUser user) false (JObj (kv :: m))] /\
        hd_error (sent GET evs) = Some (entraid_lookup base_url (entraID user)) /\
        sent POST evs = []) /\
    (forall user c (s : state World) d w1,
        http (entraid_lookup base_url (entraID user)) (world s) = (Body (JObj d), w1) ->
        assoc "data" d = Some (JArr []) ->
        let evs := new_events s (snd (sync_user_iteration http uuid4_hex base_url user c s)) in
        calls evs = [CallGetByEntraId (entraID user); CallCreate (IsUser user) false] /\
        hd_error (sent GET evs) = Some (entraid_lookup base_url (entraID user)) /\
        sent PATCH evs = []) /\
    (forall z c (s : state World) d w1 kv m others,
        http (number_lookup base_url (zr_zrNummer z)) (world s) = (Body (JObj d), w1) ->
        assoc "data" d = Some (JArr (JObj (kv :: m) :: others)) ->
        let evs := new_events s (snd (sync_zr_iteration http uuid4_hex base_url z c s)) in
        calls evs = [CallGetByNumber (zr_zrNummer z);
                     CallUpdate (IsZr z) true (JObj (kv :: m))] /\
        hd_error (sent GET evs) = Some (number_lookup base_url (zr_zrNummer z)) /\
        sent POST evs = []) /\
    (forall z c (s : state World) d w1,
        http (number_lookup base_url (zr_zrNummer z)) (world s) = (Body (JObj d), w1) ->
        assoc "data" d = Some (JArr []) ->
        let evs := new_events s (snd (sync_zr_iteration http uuid4_hex base_url z c s)) in
        calls evs = [CallGetByNumber (zr_zrNummer z); CallCreate (IsZr z) true] /\
        hd_error (sent GET evs) = Some (number_lookup base_url (zr_zrNummer z)) /\
        sent PATCH evs = []).
Proof.
  intros str World http uuid4_hex base_url. repeat apply conj.
  - intros user c s d w1 kv m others Hh Hd. cbv zeta.
    destruct (@user_iteration_matched str World http uuid4_hex base_url user c s d w1
                  _ _ Hh Hd eq_refl)
      as [evs [-> F]].
    destruct (update_events_quiet F) as [Hc Hp].
    rewrite calls_app, !sent_app, Hc, Hp. repeat split.
  - intros user c s d w1 Hh Hd. cbv zeta.
    destruct (@user_iteration_unmatched str World http uuid4_hex base_url user c s d w1 Hh Hd)
      as [evs [-> F]].
    destruct (create_events_quiet F) as [Hc Hp].
    rewrite calls_app, !sent_app, Hc, Hp. repeat split.
  - intros z c s d w1 kv m others Hh Hd. cbv zeta.
    destruct (@zr_iteration_matched str World http uuid4_hex base_url z c s d w1 _ _ Hh Hd eq_refl)
      as [evs [-> F]].
    destruct (update_events_quiet F) as [Hc Hp].
    rewrite calls_app, !sent_app, Hc, Hp. repeat split.
  - intros z c s d w1 Hh Hd. cbv zeta.
    destruct (@zr_iteration_unmatched str World http uuid4_hex base_url z c s d w1 Hh Hd)
      as [evs [-> F]].
    destruct (create_events_quiet F) as [Hc Hp].
    rewrite calls_app, !sent_app, Hc, Hp. repeat split.
Qed.

Lemma lookup_decides_update_or_create_witness :
  let fresh := Shop.start (Sample.empty_shop [Sample.kauer] [Sample.zr_a] true) in
  let synced := Shop.start (world (snd (Sample.run fresh))) in
  let iteration s := new_events s (snd (sync_user_iteration Shop.http Shop.uuid4_hex
                                          Shop.shop_url Sample.kauer zero s)) in
  let zr_iteration s := new_events s (snd (sync_zr_iteration Shop.http Shop.uuid4_hex
                                             Shop.shop_url Sample.zr_a zero s)) in
  (exists kv m,
      calls (iteration synced)
        = [CallGetByEntraId "entra-1"; CallUpdate (IsUser Sample.kauer) false (JObj (kv :: m))] /\
      hd_error (sent GET (iteration synced))
        = Some (entraid_lookup Shop.shop_url "entra-1") /\
      sent POST (iteration synced) = []) /\
  (calls (iteration fresh)
     = [CallGetByEntraId "entra-1"; CallCreate (IsUser Sample.kauer) false] /\
   hd_error (sent GET (iteration fresh)) = Some (entraid_lookup Shop.shop_url "entra-1") /\
   sent PATCH (iteration fresh) = []) /\
  (exists kv m,
      calls (zr_iteration synced)
        = [CallGetByNumber "112212"; CallUpdate (IsZr Sample.zr_a) true (JObj (kv :: m))] /\
      hd_error (sent GET (zr_iteration synced))
        = Some (number_lookup Shop.shop_url "112212") /\
      sent POST (zr_iteration synced) = []) /\
  (calls (zr_iteration fresh)
     = [CallGetByNumber "112212"; CallCreate (IsZr Sample.zr_a) true] /\
   hd_error (sent GET (zr_iteration fresh)) = Some (number_lookup Shop.shop_url "112212") /\
   sent PATCH (zr_iteration fresh) = []).
Proof.
  cbv zeta.
  destruct (@lookup_decides_update_or_create _ Shop.t Shop.http Shop.uuid4_hex Shop.shop_url)
    as [Hum [Huu [Hzm Hzu]]].
  split; [ | split; [ | split ] ].
  - eexists. eexists. eapply (Hum Sample.kauer zero); vm_compute; reflexivity.
  - eapply (Huu Sample.kauer zero); vm_compute; reflexivity.
  - eexists. eexists. eapply (Hzm Sample.zr_a zero); vm_compute; reflexivity.
  - eapply (Hzu Sample.zr_a zero); vm_compute; reflexivity.
Defined.

(** C6 (the code at the failing input). Huber's record has every
    mandatory field and parses; the source serves it together with Kauer's,
    and [get_all_contacts] returns Kauer's alone: whatever the source
    serves, every contact the fetch returns has the address of the mock
    filter. *)
Theorem mock_filter_drops_complete_records :
  all_present (user_json Sample.huber) mandatory_fields = Ok true /\
  parse_user (user_json Sample.huber) = Ok Sample.huber /\
  fst (get_all_contacts Shop.http Shop.admin_url
         (Shop.start (Sample.empty_shop [Sample.huber; Sample.kauer] [] true)))
    = Ok [Sample.kauer] /\
  fst (sync_users Shop.http Shop.uuid4_hex Shop.shop_url Shop.admin_url
         (Shop.start (Sample.empty_shop [Sample.huber; Sample.kauer] [] true)))
    = Ok (1, 0, 1) /\
  (forall World (http : request -> World -> http_result * World) base_url (s : state World),
      match fst (get_all_contacts http base_url s) with
      | Ok contacts => Forall (fun u => eMailadresse u = mock_address) contacts
      | Raise _ => True
      end).
Proof.
  do 4 (split; [ vm_compute; reflexivity | ]).
  intros World http base_url s. unfold get_all_contacts, try_except.
  rewrite bind_run. unfold send.
  destruct (http (mkReq GET (base_url ++ "/api/contacts/list_contact_gs") [] None) (world s))
    as [[j | m] w1].
  - rewrite bind_run. cbn [lift].
    destruct (py_iter j) as [items | e];
      [ | destruct (is_request_exception e); exact I ].
    rewrite bind_run. cbn [lift].
    destruct (comprehension (fun x => all_present x mandatory_fields) parse_user items)
      as [contacts | e]; [ | destruct (is_request_exception e); exact I ].
    cbn. apply Forall_forall. intros u Hu. apply filter_In in Hu.
    apply String.eqb_eq. apply Hu.
  - exact I.
Qed.
(** C2 (the code at the failing input). The source serves three
    organization contacts; the country of the second resolves to no country
    id.  No mapping fails: the pass posts three payloads, the second with a
    null countryId.  A destination that takes the write gives three creates
    and no failure; a destination that refuses it gives the failure the
    specification counts, raised by the write and not by the mapping. *)
Theorem unresolved_country_is_posted_as_null :
  let zrs := [Sample.zr_a; Sample.zr_b; Sample.zr_c] in
  let pass strict := sync_zr_customers Shop.http Shop.uuid4_hex Shop.shop_url Shop.admin_url
                       (Shop.start (Sample.empty_shop [] zrs strict)) in
  let posted strict :=
    map (fun r => match body r with
                  | Some payload => address_field "countryId" payload
                  | None => None
                  end)
        (sent POST (trace (snd (pass strict)))) in
  fst (_get_country_id Shop.http (zr_land Sample.zr_b)
         (Shop.start (Sample.empty_shop [] zrs false))) = Ok JNull /\
  posted false = [Some (JStr "country-de"); Some JNull; Some (JStr "country-de")] /\
  fst (pass false) = Ok (3, 0, 3) /\
  last (log (snd (pass false))) (INFO, "")
    = (INFO, "ZR synchronization completed. Total: 3, Updated: 0, Created: 3, Failed: 0") /\
  posted true = [Some (JStr "country-de"); Some JNull; Some (JStr "country-de")] /\
  fst (pass true) = Ok (3, 0, 2) /\
  In (ERROR, "Failed to create ZR customer 112213: 400 Bad Request") (log (snd (pass true))).
Proof.
  cbv zeta.
  do 6 (split; [ vm_compute; reflexivity | ]).
  vm_compute. tauto.
Qed.

(* ===================================================================== *)
(** ** The client against the sample destination *)
(* ===================================================================== *)

Lemma parse_customer_id (i : nat) : Shop.parse_id (Shop.customer_id i) = Some i.
Proof.
  unfold Shop.parse_id, Shop.customer_id, str_of_nat.
  rewrite NilEmpty.usu, DecimalNat.Unsigned.of_to, String.eqb_refl. reflexivity.
Qed.

Lemma select_app (key : list (string * json) -> json) (v : string)
    (l1 l2 : list (list (string * json))) :
  forall i, Shop.select key v i (l1 ++ l2)
            = Shop.select key v i l1 ++ Shop.select key v (i + length l1) l2.
Proof.
  induction l1 as [ | f l1 IH ]; intros i; simpl.
  - rewrite Nat.add_0_r. reflexivity.
  - rewrite IH. replace (S i + length l1) with (i + S (length l1)) by lia.
    destruct (py_eq_str (key f) v); reflexivity.
Qed.

Lemma select_none (key : list (string * json) -> json) (v : string)
    (l : list (list (string * json))) :
  forallb (fun f => negb (py_eq_str (key f) v)) l = true ->
  forall i, Shop.select key v i l = [].
Proof.
  induction l as [ | f l IH ]; simpl; intros H i; [ reflexivity | ].
  apply andb_prop in H. destruct H as [H1 H2].
  destruct (py_eq_str (key f) v); [ discriminate H1 | auto ].
Qed.

Lemma replace_middle {A : Type} (pre : list A) (x y : A) (post : list A) :
  Shop.replace (length pre) y (pre ++ x :: post) = pre ++ y :: post.
Proof. induction pre as [ | p pre IH ]; simpl; [ | rewrite IH ]; reflexivity. Qed.

Section AgainstShop.

Context {str : StrMethods}.

(** The answers of the sample destination, request by request. *)
Lemma shop_http_groups (w : Shop.t) :
  Shop.http (mkReq GET (Shop.shop_url ++ "/api/customer-group") [] None) w
    = (Body (JObj [ ("data", Shop.customer_groups w) ]), w).
Proof. reflexivity. Qed.

Lemma shop_http_country (iso : string) (w : Shop.t) :
  Shop.http (mkReq GET country_url [("filter[iso]", iso)] None) w
    = (match Shop.country_of iso (Shop.countries w) with
       | Some id => Body (Shop.data [ JObj [ ("id", JStr id) ] ])
       | None => Body (Shop.data [])
       end, w).
Proof. reflexivity. Qed.

Lemma shop_http_entraid (identifier : string) (w : Shop.t) :
  Shop.http (entraid_lookup Shop.shop_url identifier) w
    = (Body (JObj [ ("data", JArr (Shop.select Shop.entraid_of identifier 0
                                      (Shop.customers w))) ]), w).
Proof. reflexivity. Qed.

Lemma shop_http_number (customer_number : string) (w : Shop.t) :
  Shop.http (number_lookup Shop.shop_url customer_number) w
    = (Body (JObj [ ("data", JArr (Shop.select Shop.number_of customer_number 0
                                      (Shop.customers w))) ]), w).
Proof. reflexivity. Qed.

Lemma shop_http_post (p : list (string * json)) (w : Shop.t) :
  Shop.accepts w (JObj p) = true ->
  Shop.http (mkReq POST (Shop.shop_url ++ "/api/customer") [] (Some (JObj p))) w
    = (Body JNull, Shop.with_customers w (Shop.customers w ++ [p])).
Proof.
  intros H. unfold Shop.http, Shop.post. cbn [meth url body]. simpl String.eqb. cbv iota.
  rewrite H. reflexivity.
Qed.

Lemma shop_http_patch (i : nat) (p : list (string * json)) (w : Shop.t) :
  i < length (Shop.customers w) ->
  Shop.accepts w (JObj p) = true ->
  Shop.http (mkReq PATCH (Shop.shop_url ++ "/api/customer/" ++ Shop.customer_id i) []
               (Some (JObj p))) w
    = (Body JNull, Shop.with_customers w (Shop.replace i p (Shop.customers w))).
Proof.
  intros Hi H. unfold Shop.http, Shop.patch. cbn [meth url body].
  replace (Shop.strip_prefix (Shop.shop_url ++ "/api/customer/")
             (Shop.shop_url ++ "/api/customer/" ++ Shop.customer_id i))
    with (Some (Shop.customer_id i)) by reflexivity.
  rewrite parse_customer_id, H.
  apply Nat.ltb_lt in Hi. rewrite Hi. reflexivity.
Qed.

Lemma shop_group (is_zr_contact : bool) (s : state Shop.t) :
  Shop.customer_groups (world s) = Shop.two_groups ->
  exists s',
    _get_customer_group_id Shop.http Shop.shop_url (group_name_of is_zr_contact) s
      = (Ok (group_of is_zr_contact), s') /\
    world s' = world s.
Proof.
  intros H. unfold _get_customer_group_id, try_except_request, try_except.
  rewrite bind_run. unfold send. rewrite shop_http_groups, H.
  destruct is_zr_contact; eexists; split; reflexivity.
Qed.

Lemma shop_country (c : contact) (s : state Shop.t) :
  exists s',
    _get_country_id Shop.http (c_land c) s
      = (Ok (resolved_country (Shop.countries (world s)) c), s') /\
    world s' = world s.
Proof.
  unfold _get_country_id, try_except_request, try_except, resolved_country.
  rewrite bind_run. unfold send. rewrite shop_http_country.
  destruct (Shop.country_of (upper (c_land c)) (Shop.countries (world s)));
    eexists; split; reflexivity.
Qed.


(** A create the destination takes. *)
Lemma shop_create (c : contact) (is_zr_contact : bool) (p : list (string * json))
    (s : state Shop.t) :
  Shop.customer_groups (world s) = Shop.two_groups ->
  create_customer_data c is_zr_contact (JStr (nth_uuid (Shop.uuids (world s))))
    (group_of is_zr_contact) (resolved_country (Shop.countries (world s)) c)
    = Ok (JObj p) ->
  Shop.accepts (world s) (JObj p) = true ->
  exists s',
    create_customer_generic Shop.http Shop.uuid4_hex Shop.shop_url c is_zr_contact s
      = (Ok tt, s') /\
    world s' = after_create (world s) p.
Proof.
  intros Hg Hp Ha. unfold create_customer_generic.
  rewrite bind_run. cbn [emit].
  set (s1 := mkState (world s) (log s) (trace s ++ [CallCreate c is_zr_contact])).
  rewrite bind_run. destruct (shop_country c s1) as [s2 [E2 W2]]. rewrite E2.
  rewrite bind_run.
  assert (Hg2 : Shop.customer_groups (world s2) = Shop.two_groups)
    by (rewrite W2; exact Hg).
  destruct (shop_group is_zr_contact s2 Hg2) as [s3 [E3 W3]]. rewrite E3.
  rewrite bind_run.
  replace (negb (forallb truthy [JStr salutation_id; JStr sales_channel_id;
                                 group_of is_zr_contact])) with false
    by (destruct is_zr_contact; reflexivity).
  cbn [ret]. rewrite bind_run. unfold fresh_uuid, Shop.uuid4_hex.
  assert (W : world s3 = world s) by (rewrite W3, W2; reflexivity).
  rewrite bind_run. cbn [lift]. rewrite W. fold (nth_uuid (Shop.uuids (world s))).
  replace (Shop.countries (world s1)) with (Shop.countries (world s)) by reflexivity.
  rewrite Hp. unfold try_except_request, try_except. rewrite bind_run.
  unfold send. cbn [world log trace].
  rewrite shop_http_post.
  - eexists. split; reflexivity.
  - exact Ha.
Qed.

(** An update the destination takes. *)
Lemma shop_update (c : contact) (is_zr_contact : bool) (i : nat)
    (f p : list (string * json)) (s : state Shop.t) :
  Shop.customer_groups (world s) = Shop.two_groups ->
  nth_error (Shop.customers (world s)) i = Some f ->
  update_customer_data c is_zr_contact
    (match assoc "defaultBillingAddressId" f with Some b => b | None => JNull end)
    (group_of is_zr_contact) (resolved_country (Shop.countries (world s)) c)
    = Ok (JObj p) ->
  Shop.accepts (world s) (JObj p) = true ->
  exists s',
    update_customer_generic Shop.http Shop.shop_url c is_zr_contact (Shop.render i f) s
      = (Ok tt, s') /\
    world s' = Shop.with_customers (world s) (Shop.replace i p (Shop.customers (world s))).
Proof.
  intros Hg Hn Hp Ha. unfold update_customer_generic.
  rewrite bind_run. cbn [emit].
  set (s1 := mkState (world s) (log s)
               (trace s ++ [CallUpdate c is_zr_contact (Shop.render i f)])).
  rewrite bind_run. cbn [lift Shop.render py_item assoc String.eqb Ascii.eqb Bool.eqb].
  rewrite bind_run.
  replace (existing_billing_address_id (Shop.render i f))
    with (Ok (match assoc "defaultBillingAddressId" f with Some b => b | None => JNull end))
    by reflexivity.
  cbn [lift]. rewrite bind_run.
  assert (Hg1 : Shop.customer_groups (world s1) = Shop.two_groups) by exact Hg.
  destruct (shop_group is_zr_contact s1 Hg1) as [s2 [E2 W2]]. rewrite E2.
  rewrite bind_run. destruct (shop_country c s2) as [s3 [E3 W3]]. rewrite E3.
  assert (W : world s3 = world s) by (rewrite W3, W2; reflexivity).
  rewrite bind_run. cbn [lift]. rewrite W2.
  replace (Shop.countries (world s1)) with (Shop.countries (world s)) by reflexivity.
  rewrite Hp. unfold try_except_request, try_except. rewrite bind_run.
  unfold send. cbn [py_str]. rewrite W.
  rewrite shop_http_patch.
  - eexists. split; reflexivity.
  - apply nth_error_Some. rewrite Hn. discriminate.
  - exact Ha.
Qed.

End AgainstShop.

(** *** What the two writes leave at the sample destination *)

Lemma stored_user {str : StrMethods}
    (cs : list (string * string)) (u : AdminPanelUser) (a : string) :
  let f := stored_by_create cs (IsUser u) false a in
  create_customer_data (IsUser u) false (JStr a) (group_of false)
    (resolved_country cs (IsUser u)) = Ok (JObj f) /\
  update_customer_data (IsUser u) false
    (match assoc "defaultBillingAddressId" f with Some b => b | None => JNull end)
    (group_of false) (resolved_country cs (IsUser u))
    = Ok (JObj (without "customFields" f)) /\
  Shop.entraid_of f = JStr (entraID u) /\
  Shop.number_of f = JStr (zrNummer u) /\
  Shop.entraid_of (without "customFields" f) = JNull /\
  Shop.number_of (without "customFields" f) = JStr (zrNummer u) /\
  assoc "customFields" f = Some (JObj [ (entraid_field, JStr (entraID u)) ]).
Proof. cbv zeta. repeat split. Qed.

Lemma stored_zr {str : StrMethods}
    (cs : list (string * string)) (z : AdminPanelZrContact) (a : string) :
  let f := stored_by_create cs (IsZr z) true a in
  create_customer_data (IsZr z) true (JStr a) (group_of true)
    (resolved_country cs (IsZr z)) = Ok (JObj f) /\
  update_customer_data (IsZr z) true
    (match assoc "defaultBillingAddressId" f with Some b => b | None => JNull end)
    (group_of true) (resolved_country cs (IsZr z))
    = Ok (JObj (without "customFields" f)) /\
  Shop.entraid_of f = JNull /\
  Shop.number_of f = JStr (zr_zrNummer z) /\
  Shop.entraid_of (without "customFields" f) = JNull /\
  Shop.number_of (without "customFields" f) = JStr (zr_zrNummer z) /\
  assoc "customFields" f = Some (JObj [ (entraid_field, JNull) ]).
Proof. cbv zeta. repeat split. Qed.

Lemma accepts_stored {str : StrMethods} (w : Shop.t) (l : list (list (string * json))) (n : nat)
    (u : AdminPanelUser) (a : string) :
  Shop.accepts (shop_with w l n)
    (JObj (stored_by_create (Shop.countries w) (IsUser u) false a))
    = taken w (IsUser u) /\
  Shop.accepts (shop_with w l n)
    (JObj (without "customFields" (stored_by_create (Shop.countries w) (IsUser u) false a)))
    = taken w (IsUser u).
Proof.
  unfold Shop.accepts, taken, Shop.country_given, stored_by_create.
  cbn [shop_with Shop.strict]. cbn. unfold resolved_country. cbn [c_land].
  destruct (Shop.country_of (upper (land u)) (Shop.countries w)); split; reflexivity.
Qed.

Lemma accepts_stored_zr {str : StrMethods} (w : Shop.t) (l : list (list (string * json))) (n : nat)
    (z : AdminPanelZrContact) (a : string) :
  Shop.accepts (shop_with w l n)
    (JObj (stored_by_create (Shop.countries w) (IsZr z) true a))
    = taken w (IsZr z) /\
  Shop.accepts (shop_with w l n)
    (JObj (without "customFields" (stored_by_create (Shop.countries w) (IsZr z) true a)))
    = taken w (IsZr z).
Proof.
  unfold Shop.accepts, taken, Shop.country_given, stored_by_create.
  cbn [shop_with Shop.strict]. cbn. unfold resolved_country. cbn [c_land].
  destruct (Shop.country_of (upper (zr_land z)) (Shop.countries w)); split; reflexivity.
Qed.

(** *** One iteration against the sample destination *)

Section ShopIterations.

Context {str : StrMethods}.

Variable w : Shop.t.
Hypothesis groups : Shop.customer_groups w = Shop.two_groups.

Lemma shop_user_creates (l : list (list (string * json))) (n : nat)
    (u : AdminPanelUser) (c : counters) (s : state Shop.t) :
  world s = shop_with w l n ->
  taken w (IsUser u) = true ->
  no_entraid_match l u = true ->
  exists s',
    sync_user_iteration Shop.http Shop.uuid4_hex Shop.shop_url u c s
      = (Ok (incr_created c), s') /\
    world s' = shop_with w (l ++ [stored_by_create (Shop.countries w) (IsUser u) false
                                    (nth_uuid n)]) (S n).
Proof.
  intros Hw Ht Hn. rewrite sync_user_iteration_run.
  rewrite (get_by_entraid_listed Shop.http Shop.shop_url (entraID u) s
             (shop_http_entraid _ _) eq_refl).
  rewrite Hw. cbn [Shop.customers shop_with].
  rewrite (select_none _ _ _ Hn). cbn [hd truthy].
  unfold create_customer.
  match goal with
  | |- context [ create_customer_generic _ _ _ _ _ ?s1 ] =>
      destruct (@shop_create _ (IsUser u) false
                  (stored_by_create (Shop.countries w) (IsUser u) false (nth_uuid n)) s1)
        as [s2 [E W]]
  end.
  - exact groups.
  - apply stored_user.
  - cbn [world]. rewrite (proj1 (accepts_stored w l n u _)). exact Ht.
  - rewrite E. eexists. split; [ reflexivity | ]. exact W.
Qed.

Lemma shop_user_updates (pre post : list (list (string * json))) (n : nat) (a : string)
    (u : AdminPanelUser) (c : counters) (s : state Shop.t) :
  let f := stored_by_create (Shop.countries w) (IsUser u) false a in
  world s = shop_with w (pre ++ f :: post) n ->
  taken w (IsUser u) = true ->
  no_entraid_match pre u = true ->
  exists s',
    sync_user_iteration Shop.http Shop.uuid4_hex Shop.shop_url u c s
      = (Ok (incr_updated c), s') /\
    world s' = shop_with w (pre ++ without "customFields" f :: post) n.
Proof.
  intros f Hw Ht Hn. rewrite sync_user_iteration_run.
  rewrite (get_by_entraid_listed Shop.http Shop.shop_url (entraID u) s
             (shop_http_entraid _ _) eq_refl).
  rewrite Hw. cbn [Shop.customers shop_with].
  rewrite select_app, (select_none _ _ _ Hn). cbn [app Shop.select].
  replace (py_eq_str (Shop.entraid_of f) (entraID u)) with true
    by (unfold f; cbn; rewrite String.eqb_refl; reflexivity).
  cbn [hd]. replace (truthy (Shop.render (0 + length pre) f)) with true by reflexivity.
  unfold update_customer.
  match goal with
  | |- context [ update_customer_generic _ _ _ _ _ ?s1 ] =>
      destruct (@shop_update _ (IsUser u) false (0 + length pre) f
                  (without "customFields" f) s1) as [s2 [E W]]
  end.
  - exact groups.
  - cbn [world Shop.customers shop_with]. cbn [Nat.add].
    rewrite nth_error_app2 by lia. rewrite Nat.sub_diag. reflexivity.
  - apply stored_user.
  - cbn [world]. unfold f. rewrite (proj2 (accepts_stored w _ n u _)). exact Ht.
  - rewrite E. eexists. split; [ reflexivity | ].
    cbn [logged world]. rewrite W. cbn [world Shop.customers shop_with Nat.add].
    rewrite replace_middle. reflexivity.
Qed.

Lemma shop_zr_creates (l : list (list (string * json))) (n : nat)
    (z : AdminPanelZrContact) (c : counters) (s : state Shop.t) :
  world s = shop_with w l n ->
  taken w (IsZr z) = true ->
  no_number_match l z = true ->
  exists s',
    sync_zr_iteration Shop.http Shop.uuid4_hex Shop.shop_url z c s
      = (Ok (incr_created c), s') /\
    world s' = shop_with w (l ++ [stored_by_create (Shop.countries w) (IsZr z) true
                                    (nth_uuid n)]) (S n).
Proof.
  intros Hw Ht Hn. rewrite sync_zr_iteration_run.
  rewrite (get_by_number_listed Shop.http Shop.shop_url (zr_zrNummer z) s
             (shop_http_number _ _) eq_refl).
  rewrite Hw. cbn [Shop.customers shop_with].
  rewrite (select_none _ _ _ Hn). cbn [hd truthy].
  unfold create_zr_customer.
  match goal with
  | |- context [ create_customer_generic _ _ _ _ _ ?s1 ] =>
      destruct (@shop_create _ (IsZr z) true
                  (stored_by_create (Shop.countries w) (IsZr z) true (nth_uuid n)) s1)
        as [s2 [E W]]
  end.
  - exact groups.
  - apply stored_zr.
  - cbn [world]. rewrite (proj1 (accepts_stored_zr w l n z _)). exact Ht.
  - rewrite E. eexists. split; [ reflexivity | ]. exact W.
Qed.

Lemma shop_zr_updates (pre post : list (list (string * json))) (n : nat) (a : string)
    (z : AdminPanelZrContact) (c : counters) (s : state Shop.t) :
  let f := stored_by_create (Shop.countries w) (IsZr z) true a in
  world s = shop_with w (pre ++ f :: post) n ->
  taken w (IsZr z) = true ->
  no_number_match pre z = true ->
  exists s',
    sync_zr_iteration Shop.http Shop.uuid4_hex Shop.shop_url z c s
      = (Ok (incr_updated c), s') /\
    world s' = shop_with w (pre ++ without "customFields" f :: post) n.
Proof.
  intros f Hw Ht Hn. rewrite sync_zr_iteration_run.
  rewrite (get_by_number_listed Shop.http Shop.shop_url (zr_zrNummer z) s
             (shop_http_number _ _) eq_refl).
  rewrite Hw. cbn [Shop.customers shop_with].
  rewrite select_app, (select_none _ _ _ Hn). cbn [app Shop.select].
  replace (py_eq_str (Shop.number_of f) (zr_zrNummer z)) with true
    by (unfold f; cbn; rewrite String.eqb_refl; reflexivity).
  cbn [hd]. replace (truthy (Shop.render (0 + length pre) f)) with true by reflexivity.
  unfold update_zr_customer.
  match goal with
  | |- context [ update_customer_generic _ _ _ _ _ ?s1 ] =>
      destruct (@shop_update _ (IsZr z) true (0 + length pre) f
                  (without "customFields" f) s1) as [s2 [E W]]
  end.
  - exact groups.
  - cbn [world Shop.customers shop_with]. cbn [Nat.add].
    rewrite nth_error_app2 by lia. rewrite Nat.sub_diag. reflexivity.
  - apply stored_zr.
  - cbn [world]. unfold f. rewrite (proj2 (accepts_stored_zr w _ n z _)). exact Ht.
  - rewrite E. eexists. split; [ reflexivity | ].
    cbn [logged world]. rewrite W. cbn [world Shop.customers shop_with Nat.add].
    rewrite replace_middle. reflexivity.
Qed.

End ShopIterations.

(** *** A pass against the sample destination *)

Lemma distinct_head (k : string) (ks : list string) :
  distinct (k :: ks) = true ->
  distinct ks = true /\ forall k', In k' ks -> String.eqb k k' = false.
Proof.
  simpl. intros H. apply andb_prop in H. destruct H as [H1 H2]. split; [ exact H2 | ].
  intros k' Hin. destruct (String.eqb k k') eqn:E; [ | reflexivity ].
  apply negb_true_iff in H1.
  assert (existsb (String.eqb k) ks = true) by (apply existsb_exists; eauto).
  congruence.
Qed.

Lemma no_match_snoc {A : Type} (key : list (string * json) -> json) (keyof : A -> string)
    (l : list (list (string * json))) (f : list (string * json)) (rest : list A) :
  (forall x, In x rest -> py_eq_str (key f) (keyof x) = false) ->
  forallb (fun x => forallb (fun g => negb (py_eq_str (key g) (keyof x))) l) rest = true ->
  forallb (fun x => forallb (fun g => negb (py_eq_str (key g) (keyof x))) (l ++ [f])) rest
    = true.
Proof.
  intros Hf H. apply forallb_forall. intros x Hx.
  rewrite forallb_app. rewrite (proj1 (forallb_forall _ _) H x Hx).
  simpl. rewrite (Hf x Hx). reflexivity.
Qed.

Section ShopPasses.

Context {str : StrMethods}.

Variable w : Shop.t.
Hypothesis groups : Shop.customer_groups w = Shop.two_groups.

Lemma shop_users_create_pass (users : list AdminPanelUser) :
  forall (l : list (list (string * json))) (n : nat) (c : counters) (s : state Shop.t),
    world s = shop_with w l n ->
    forallb (fun u => taken w (IsUser u)) users = true ->
    distinct (map entraID users) = true ->
    forallb (no_entraid_match l) users = true ->
    exists s',
      sync_users_loop Shop.http Shop.uuid4_hex Shop.shop_url users c s
        = (Ok (mkCounters (updated c) (created c + length users) (failed c)), s') /\
      world s' = shop_with w (l ++ created_users (Shop.countries w) users n) (n + length users).
Proof.
  induction users as [ | u rest IH ]; intros l n c s Hw Ht Hd Hn.
  - exists s. simpl. rewrite app_nil_r, !Nat.add_0_r. destruct c. auto.
  - simpl in Ht, Hn. apply andb_prop in Ht, Hn. destruct Ht as [Ht Hts], Hn as [Hn Hns].
    simpl map in Hd. apply distinct_head in Hd. destruct Hd as [Hd Hne].
    simpl sync_users_loop. rewrite bind_run.
    destruct (shop_user_creates groups u c s Hw Ht Hn) as [s1 [E1 W1]]. rewrite E1.
    destruct (IH _ _ (incr_created c) s1 W1 Hts Hd) as [s2 [E2 W2]].
    + apply (no_match_snoc Shop.entraid_of entraID); [ | exact Hns ].
      intros u' Hu'. cbn. apply Hne. apply in_map. exact Hu'.
    + exists s2. rewrite E2. split.
      * simpl. do 3 f_equal. lia.
      * rewrite W2. simpl. rewrite <- app_assoc. f_equal. lia.
Qed.

Lemma shop_users_update_pass (users : list AdminPanelUser) :
  forall (pre post : list (list (string * json))) (n n0 : nat) (c : counters)
         (s : state Shop.t),
    world s = shop_with w (pre ++ created_users (Shop.countries w) users n0 ++ post) n ->
    forallb (fun u => taken w (IsUser u)) users = true ->
    forallb (no_entraid_match pre) users = true ->
    exists s',
      sync_users_loop Shop.http Shop.uuid4_hex Shop.shop_url users c s
        = (Ok (mkCounters (updated c + length users) (created c) (failed c)), s') /\
      world s' = shop_with w (pre ++ map (without "customFields") (created_users (Shop.countries w) users n0)
                                  ++ post) n.
Proof.
  induction users as [ | u rest IH ]; intros pre post n n0 c s Hw Ht Hn.
  - exists s. simpl. rewrite !Nat.add_0_r. destruct c. auto.
  - simpl in Ht, Hn. apply andb_prop in Ht, Hn. destruct Ht as [Ht Hts], Hn as [Hn Hns].
    simpl sync_users_loop. rewrite bind_run.
    simpl created_users in *. rewrite <- app_comm_cons in Hw.
    destruct (@shop_user_updates _ w groups pre _ n (nth_uuid n0) u c s Hw Ht Hn)
      as [s1 [E1 W1]]. rewrite E1.
    destruct (IH (pre ++ [without "customFields"
                            (stored_by_create (Shop.countries w) (IsUser u) false (nth_uuid n0))])
                 post n (S n0) (incr_updated c) s1) as [s2 [E2 W2]].
    + rewrite W1, <- app_assoc. reflexivity.
    + exact Hts.
    + apply (no_match_snoc Shop.entraid_of entraID); [ | exact Hns ].
      intros u' Hu'. reflexivity.
    + exists s2. rewrite E2. split.
      * simpl. do 3 f_equal. lia.
      * rewrite W2. simpl. rewrite <- app_assoc. reflexivity.
Qed.

Lemma shop_zr_create_pass (zrs : list AdminPanelZrContact) :
  forall (l : list (list (string * json))) (n : nat) (c : counters) (s : state Shop.t),
    world s = shop_with w l n ->
    forallb (fun z => taken w (IsZr z)) zrs = true ->
    distinct (map zr_zrNummer zrs) = true ->
    forallb (no_number_match l) zrs = true ->
    exists s',
      sync_zr_loop Shop.http Shop.uuid4_hex Shop.shop_url zrs c s
        = (Ok (mkCounters (updated c) (created c + length zrs) (failed c)), s') /\
      world s' = shop_with w (l ++ created_zrs (Shop.countries w) zrs n) (n + length zrs).
Proof.
  induction zrs as [ | z rest IH ]; intros l n c s Hw Ht Hd Hn.
  - exists s. simpl. rewrite app_nil_r, !Nat.add_0_r. destruct c. auto.
  - simpl in Ht, Hn. apply andb_prop in Ht, Hn. destruct Ht as [Ht Hts], Hn as [Hn Hns].
    simpl map in Hd. apply distinct_head in Hd. destruct Hd as [Hd Hne].
    simpl sync_zr_loop. rewrite bind_run.
    destruct (shop_zr_creates groups z c s Hw Ht Hn) as [s1 [E1 W1]]. rewrite E1.
    destruct (IH _ _ (incr_created c) s1 W1 Hts Hd) as [s2 [E2 W2]].
    + apply (no_match_snoc Shop.number_of zr_zrNummer); [ | exact Hns ].
      intros z' Hz'. cbn. apply Hne. apply in_map. exact Hz'.
    + exists s2. rewrite E2. split.
      * simpl. do 3 f_equal. lia.
      * rewrite W2. simpl. rewrite <- app_assoc. f_equal. lia.
Qed.

Lemma shop_zr_update_pass (zrs : list AdminPanelZrContact) :
  forall (pre post : list (list (string * json))) (n n0 : nat) (c : counters)
         (s : state Shop.t),
    world s = shop_with w (pre ++ created_zrs (Shop.countries w) zrs n0 ++ post) n ->
    forallb (fun z => taken w (IsZr z)) zrs = true ->
    distinct (map zr_zrNummer zrs) = true ->
    forallb (no_number_match pre) zrs = true ->
    exists s',
      sync_zr_loop Shop.http Shop.uuid4_hex Shop.shop_url zrs c s
        = (Ok (mkCounters (updated c + length zrs) (created c) (failed c)), s') /\
      world s' = shop_with w (pre ++ map (without "customFields") (created_zrs (Shop.countries w) zrs n0)
                                  ++ post) n.
Proof.
  induction zrs as [ | z rest IH ]; intros pre post n n0 c s Hw Ht Hd Hn.
  - exists s. simpl. rewrite !Nat.add_0_r. destruct c. auto.
  - simpl in Ht, Hn. apply andb_prop in Ht, Hn. destruct Ht as [Ht Hts], Hn as [Hn Hns].
    simpl map in Hd. apply distinct_head in Hd. destruct Hd as [Hd Hne].
    simpl sync_zr_loop. rewrite bind_run.
    simpl created_zrs in *. rewrite <- app_comm_cons in Hw.
    destruct (@shop_zr_updates _ w groups pre _ n (nth_uuid n0) z c s Hw Ht Hn)
      as [s1 [E1 W1]]. rewrite E1.
    destruct (IH (pre ++ [without "customFields"
                            (stored_by_create (Shop.countries w) (IsZr z) true (nth_uuid n0))])
                 post n (S n0) (incr_updated c) s1) as [s2 [E2 W2]].
    + rewrite W1, <- app_assoc. reflexivity.
    + exact Hts.
    + exact Hd.
    + apply (no_match_snoc Shop.number_of zr_zrNummer); [ | exact Hns ].
      intros z' Hz'. cbn. apply Hne. apply in_map. exact Hz'.
    + exists s2. rewrite E2. split.
      * simpl. do 3 f_equal. lia.
      * rewrite W2. simpl. rewrite <- app_assoc. reflexivity.
Qed.

End ShopPasses.

(* ===================================================================== *)
(** ** The log only grows *)
(* ===================================================================== *)

Section Log.

Context {str : StrMethods}.

Variable World : Type.
Variable http : request -> World -> http_result * World.
Variable uuid4_hex : World -> string * World.
Variable base_url : string.

Lemma keeps_ret {A : Type} (a : A) : keeps_log (@ret World A a).
Proof. intros s. exists []. simpl. rewrite app_nil_r. reflexivity. Qed.

Lemma keeps_raise {A : Type} (e : exn) : keeps_log (@raise World A e).
Proof. intros s. exists []. simpl. rewrite app_nil_r. reflexivity. Qed.

Lemma keeps_lift {A : Type} (r : result A) : keeps_log (@lift World A r).
Proof. intros s. exists []. simpl. rewrite app_nil_r. reflexivity. Qed.

Lemma keeps_logger (l : level) (m : string) : keeps_log (@logger World l m).
Proof. intros s. exists [(l, m)]. reflexivity. Qed.

Lemma keeps_emit (ev : event) : keeps_log (@emit World ev).
Proof. intros s. exists []. simpl. rewrite app_nil_r. reflexivity. Qed.

Lemma keeps_send (r : request) : keeps_log (send http r).
Proof.
  intros s. exists []. unfold send.
  destruct (http r (world s)) as [[j | m] w1]; simpl; rewrite app_nil_r; reflexivity.
Qed.

Lemma keeps_fresh_uuid : keeps_log (fresh_uuid uuid4_hex).
Proof.
  intros s. exists []. unfold fresh_uuid.
  destruct (uuid4_hex (world s)) as [u w1]. simpl. rewrite app_nil_r. reflexivity.
Qed.

Lemma keeps_bind {A B : Type} (c : M World A) (k : A -> M World B) :
  keeps_log c -> (forall a, keeps_log (k a)) -> keeps_log (bind c k).
Proof.
  intros Hc Hk s. unfold bind. destruct (Hc s) as [l Hl].
  destruct (c s) as [[a | e] s1]; simpl in *.
  - destruct (Hk a s1) as [l' Hl']. exists (l ++ l'). rewrite Hl', Hl, app_assoc.
    reflexivity.
  - exists l. exact Hl.
Qed.

Lemma keeps_try_except {A : Type} (c : M World A) (h : exn -> M World A) :
  keeps_log c -> (forall e, keeps_log (h e)) -> keeps_log (try_except c h).
Proof.
  intros Hc Hh s. unfold try_except. destruct (Hc s) as [l Hl].
  destruct (c s) as [[a | e] s1]; simpl in *.
  - exists l. exact Hl.
  - destruct (Hh e s1) as [l' Hl']. exists (l ++ l'). rewrite Hl', Hl, app_assoc.
    reflexivity.
Qed.

Ltac keeps :=
  repeat first
    [ apply keeps_ret | apply keeps_raise | apply keeps_lift | apply keeps_logger
    | apply keeps_emit | apply keeps_send | apply keeps_fresh_uuid
    | apply keeps_bind; [ | intros ? ]
    | apply keeps_try_except; [ | intros ? ]
    | match goal with
      | |- keeps_log (if ?b then _ else _) => destruct b
      | |- keeps_log (match ?x with _ => _ end) => destruct x
      end ].

Lemma keeps_create (c : contact) (z : bool) :
  keeps_log (create_customer_generic http uuid4_hex base_url c z).
Proof.
  unfold create_customer_generic, _get_country_id, _get_customer_group_id,
    try_except_request. keeps.
Qed.

Lemma keeps_update (c : contact) (z : bool) (existing : json) :
  keeps_log (update_customer_generic http base_url c z existing).
Proof.
  unfold update_customer_generic, _get_country_id, _get_customer_group_id,
    try_except_request. keeps.
Qed.

Lemma keeps_zr_iteration (z : AdminPanelZrContact) (c : counters) :
  keeps_log (sync_zr_iteration http uuid4_hex base_url z c).
Proof.
  unfold sync_zr_iteration, sync_zr_try, get_customer_by_customer_number,
    update_zr_customer, create_zr_customer, try_except_request.
  keeps; first [ apply keeps_update | apply keeps_create ].
Qed.

Lemma keeps_zr_loop (zrs : list AdminPanelZrContact) :
  forall c, keeps_log (sync_zr_loop http uuid4_hex base_url zrs c).
Proof.
  induction zrs as [ | z rest IH ]; intros c; simpl.
  - apply keeps_ret.
  - apply keeps_bind; [ apply keeps_zr_iteration | intros c'; apply IH ].
Qed.

Lemma keeps_sync_zr (admin_panel_url : string) :
  keeps_log (sync_zr_customers http uuid4_hex base_url admin_panel_url).
Proof.
  unfold sync_zr_customers, get_all_zr_contacts. keeps. apply keeps_zr_loop.
Qed.

End Log.

(* ===================================================================== *)
(** ** Two runs against the sample destination *)
(* ===================================================================== *)

Section ShopRuns.

Context {str : StrMethods}.

Variable w : Shop.t.
Hypothesis groups : Shop.customer_groups w = Shop.two_groups.

(** The fetches read the source documents and leave the world as it is. *)
Lemma shop_fetch_users (users : list AdminPanelUser) (l : list (list (string * json)))
    (n : nat) (s : state Shop.t) :
  world s = shop_with w l n ->
  fst (get_all_contacts Shop.http Shop.admin_url (Shop.start w)) = Ok users ->
  exists s', get_all_contacts Shop.http Shop.admin_url s = (Ok users, s') /\
             world s' = world s.
Proof.
  intros Hw. unfold get_all_contacts, try_except. rewrite !bind_run. unfold send.
  replace (Shop.http (mkReq GET (Shop.admin_url ++ "/api/contacts/list_contact_gs") [] None)
             (world s)) with (Body (Shop.contacts_gs w), world s)
    by (rewrite Hw; reflexivity).
  replace (Shop.http (mkReq GET (Shop.admin_url ++ "/api/contacts/list_contact_gs") [] None)
             (world (Shop.start w))) with (Body (Shop.contacts_gs w), w) by reflexivity.
  rewrite !bind_run. cbn [lift].
  destruct (py_iter (Shop.contacts_gs w)) as [items | e];
    [ | destruct (is_request_exception e); discriminate ].
  rewrite !bind_run. cbn [lift].
  destruct (comprehension (fun x => all_present x mandatory_fields) parse_user items)
    as [contacts | e]; [ | destruct (is_request_exception e); discriminate ].
  cbn. intros H. inversion H. eexists. split; reflexivity.
Qed.

Lemma shop_fetch_zrs (zrs : list AdminPanelZrContact) (l : list (list (string * json)))
    (n : nat) (s : state Shop.t) :
  world s = shop_with w l n ->
  fst (get_all_zr_contacts Shop.http Shop.admin_url (Shop.start w)) = Ok zrs ->
  exists s', get_all_zr_contacts Shop.http Shop.admin_url s = (Ok zrs, s') /\
             world s' = world s.
Proof.
  intros Hw. unfold get_all_zr_contacts, try_except. rewrite !bind_run. unfold send.
  replace (Shop.http (mkReq GET (Shop.admin_url ++ "/api/companys/list_gs_adresstyp") [] None)
             (world s)) with (Body (Shop.companys_gs w), world s)
    by (rewrite Hw; reflexivity).
  replace (Shop.http (mkReq GET (Shop.admin_url ++ "/api/companys/list_gs_adresstyp") [] None)
             (world (Shop.start w))) with (Body (Shop.companys_gs w), w) by reflexivity.
  rewrite !bind_run. cbn [lift].
  destruct (py_iter (Shop.companys_gs w)) as [items | e];
    [ | destruct (is_request_exception e); discriminate ].
  rewrite !bind_run. cbn [lift].
  destruct (comprehension in_allow_list parse_zr items)
    as [contacts | e]; [ | destruct (is_request_exception e); discriminate ].
  cbn. intros H. inversion H. eexists. split; reflexivity.
Qed.

Lemma shop_authenticate (client_id client_secret : string) (s : state Shop.t) :
  exists s', _authenticate Shop.http Shop.shop_url client_id client_secret s = (Ok tt, s') /\
             world s' = world s.
Proof. eexists. split; reflexivity. Qed.

Variable users : list AdminPanelUser.
Variable zrs : list AdminPanelZrContact.
Hypothesis fetch_users :
  fst (get_all_contacts Shop.http Shop.admin_url (Shop.start w)) = Ok users.
Hypothesis fetch_zrs :
  fst (get_all_zr_contacts Shop.http Shop.admin_url (Shop.start w)) = Ok zrs.

(** A pass, given what its loop does to the world. *)
Lemma shop_sync_users (l l' : list (list (string * json))) (n n' : nat)
    (c : counters) (s : state Shop.t) :
  world s = shop_with w l n ->
  (forall s0, world s0 = shop_with w l n ->
     exists s', sync_users_loop Shop.http Shop.uuid4_hex Shop.shop_url users zero s0
                = (Ok c, s') /\ world s' = shop_with w l' n') ->
  exists s', sync_users Shop.http Shop.uuid4_hex Shop.shop_url Shop.admin_url s
             = (Ok (length users, updated c, created c), s') /\
             world s' = shop_with w l' n'.
Proof.
  intros Hw Hloop. unfold sync_users. rewrite bind_run. cbn [logger].
  unfold try_except. rewrite bind_run.
  destruct (@shop_fetch_users users l n (logged INFO "Starting user synchronization" s) Hw
              fetch_users) as [s1 [E1 W1]]. rewrite E1.
  rewrite bind_run. cbn [logger]. rewrite bind_run.
  match goal with
  | |- context [ sync_users_loop _ _ _ users zero ?s2 ] =>
      destruct (Hloop s2) as [s3 [E3 W3]]; [ cbn [logged world]; rewrite W1; exact Hw | ]
  end.
  rewrite E3. rewrite bind_run. cbn [logger ret]. eexists. split; [ reflexivity | exact W3 ].
Qed.

Lemma shop_sync_zrs (l l' : list (list (string * json))) (n n' : nat)
    (c : counters) (s : state Shop.t) :
  world s = shop_with w l n ->
  (forall s0, world s0 = shop_with w l n ->
     exists s', sync_zr_loop Shop.http Shop.uuid4_hex Shop.shop_url zrs zero s0
                = (Ok c, s') /\ world s' = shop_with w l' n') ->
  exists s', sync_zr_customers Shop.http Shop.uuid4_hex Shop.shop_url Shop.admin_url s
             = (Ok (length zrs, updated c, created c), s') /\
             world s' = shop_with w l' n'.
Proof.
  intros Hw Hloop. unfold sync_zr_customers. rewrite bind_run. cbn [logger].
  unfold try_except. rewrite bind_run.
  destruct (@shop_fetch_zrs zrs l n (logged INFO "Starting ZR customer synchronization" s)
              Hw fetch_zrs) as [s1 [E1 W1]]. rewrite E1.
  rewrite bind_run. cbn [logger]. rewrite bind_run.
  match goal with
  | |- context [ sync_zr_loop _ _ _ zrs zero ?s2 ] =>
      destruct (Hloop s2) as [s3 [E3 W3]]; [ cbn [logged world]; rewrite W1; exact Hw | ]
  end.
  rewrite E3. rewrite bind_run. cbn [logger ret]. eexists. split; [ reflexivity | exact W3 ].
Qed.

(** A run, given what its two passes return and do to the world: it
    returns, leaves the world the second pass left, and logs both
    summaries. *)
Lemma shop_run (client_id client_secret : string)
    (l l1 l2 : list (list (string * json))) (n n1 n2 : nat)
    (r rz : nat * nat * nat) (s : state Shop.t) :
  world s = shop_with w l n ->
  (forall s0, world s0 = shop_with w l n ->
     exists s', sync_users Shop.http Shop.uuid4_hex Shop.shop_url Shop.admin_url s0
                = (Ok r, s') /\ world s' = shop_with w l1 n1) ->
  (forall s0, world s0 = shop_with w l1 n1 ->
     exists s', sync_zr_customers Shop.http Shop.uuid4_hex Shop.shop_url Shop.admin_url s0
                = (Ok rz, s') /\ world s' = shop_with w l2 n2) ->
  let out := run_sync Shop.http Shop.uuid4_hex Shop.shop_url Shop.admin_url
               client_id client_secret s in
  fst out = Returned /\
  world (snd out) = shop_with w l2 n2 /\
  In (INFO, users_summary r) (log (snd out)) /\
  In (INFO, zr_summary rz) (log (snd out)).
Proof.
  intros Hw Husers Hzrs. cbv zeta. unfold run_sync, setup_logging. cbn [logger snd].
  rewrite bind_run. cbn [logger]. rewrite bind_run.
  destruct (shop_authenticate client_id client_secret
              (logged INFO "Initializing sync service..."
                 (logged INFO "Logging initialized" s))) as [s1 [E1 W1]].
  rewrite E1. rewrite bind_run.
  destruct (Husers s1) as [s2 [E2 W2]]; [ rewrite W1; exact Hw | ]. rewrite E2.
  rewrite bind_run. cbn [logger]. rewrite bind_run.
  destruct (Hzrs (logged INFO (users_summary r) s2)) as [s3 [E3 W3]]; [ exact W2 | ].
  destruct (keeps_sync_zr Shop.http Shop.uuid4_hex Shop.shop_url Shop.admin_url
              (logged INFO (users_summary r) s2)) as [extra Hlog].
  rewrite E3 in *. cbn [snd] in Hlog. cbn [logger fst snd logged world log].
  split; [ reflexivity | ]. split; [ exact W3 | ]. split.
  - rewrite Hlog. cbn [logged log]. rewrite !in_app_iff. simpl. auto.
  - rewrite in_app_iff. simpl. auto.
Qed.

End ShopRuns.

Lemma shop_with_self (w : Shop.t) : w = shop_with w (Shop.customers w) (Shop.uuids w).
Proof. destruct w. reflexivity. Qed.

Lemma created_users_length {str : StrMethods}
    (cs : list (string * string)) (users : list AdminPanelUser) :
  forall n, length (created_users cs users n) = length users.
Proof. induction users; intros n; simpl; auto. Qed.

Lemma created_zrs_length {str : StrMethods}
    (cs : list (string * string)) (zrs : list AdminPanelZrContact) :
  forall n, length (created_zrs cs zrs n) = length zrs.
Proof. induction zrs; intros n; simpl; auto. Qed.

Lemma created_users_customFields {str : StrMethods}
    (cs : list (string * string)) (users : list AdminPanelUser) :
  forall n, Forall (fun f => assoc "customFields" f <> None /\
                             assoc "customFields" (without "customFields" f) = None)
              (created_users cs users n).
Proof.
  induction users as [ | u rest IH ]; intros n; simpl; constructor; auto.
  split; [ discriminate | reflexivity ].
Qed.

Lemma created_zrs_customFields {str : StrMethods}
    (cs : list (string * string)) (zrs : list AdminPanelZrContact) :
  forall n, Forall (fun f => assoc "customFields" f <> None /\
                             assoc "customFields" (without "customFields" f) = None)
              (created_zrs cs zrs n).
Proof.
  induction zrs as [ | z rest IH ]; intros n; simpl; constructor; auto.
  split; [ discriminate | reflexivity ].
Qed.

(** The customers of the individuals answer no lookup of an organization,
    before and after the update. *)
Lemma users_off_the_numbers {str : StrMethods}
    (cs : list (string * string)) (users : list AdminPanelUser)
    (zrs : list AdminPanelZrContact) :
  numbers_apart users zrs = true ->
  forall n,
    forallb (no_number_match (created_users cs users n)) zrs = true /\
    forallb (no_number_match (map (without "customFields") (created_users cs users n))) zrs
      = true.
Proof.
  intros H n. split; apply forallb_forall; intros z Hz; unfold no_number_match;
    apply forallb_forall; intros f Hf.
  - revert n Hf. induction users as [ | u rest IH ]; intros n Hf; [ destruct Hf | ].
    simpl in H. apply andb_prop in H. destruct H as [H1 H2].
    destruct Hf as [<- | Hf]; [ | eapply IH; eauto ].
    cbn. destruct (String.eqb (zrNummer u) (zr_zrNummer z)) eqn:E; [ | reflexivity ].
    apply negb_true_iff in H1.
    assert (existsb (String.eqb (zrNummer u)) (map zr_zrNummer zrs) = true).
    { apply existsb_exists. exists (zr_zrNummer z). split; [ apply in_map; exact Hz | exact E ]. }
    congruence.
  - revert n Hf. induction users as [ | u rest IH ]; intros n Hf; [ destruct Hf | ].
    simpl in H. apply andb_prop in H. destruct H as [H1 H2].
    destruct Hf as [<- | Hf]; [ | eapply IH; eauto ].
    cbn. destruct (String.eqb (zrNummer u) (zr_zrNummer z)) eqn:E; [ | reflexivity ].
    apply negb_true_iff in H1.
    assert (existsb (String.eqb (zrNummer u)) (map zr_zrNummer zrs) = true).
    { apply existsb_exists. exists (zr_zrNummer z). split; [ apply in_map; exact Hz | exact E ]. }
    congruence.
Qed.

Lemma no_number_match_app (l1 l2 : list (list (string * json)))
    (zrs : list AdminPanelZrContact) :
  forallb (no_number_match l1) zrs = true ->
  forallb (no_number_match l2) zrs = true ->
  forallb (no_number_match (l1 ++ l2)) zrs = true.
Proof.
  intros H1 H2. apply forallb_forall. intros z Hz.
  pose proof (proj1 (forallb_forall _ _) H1 z Hz) as H1z.
  pose proof (proj1 (forallb_forall _ _) H2 z Hz) as H2z.
  unfold no_number_match in *. rewrite forallb_app, H1z, H2z. reflexivity.
Qed.

(** Two runs in succession against the sample destination, for every
    source.  The destination lists the two customer groups; the keys of the
    fetched contacts are pairwise distinct, no customer matches any of them
    before the first run, no individual carries the number of an
    organization of the list, and the destination takes every write.  Then
    the first run creates every record, the second run updates every record
    and creates none, and after the second run every customer has the
    fields it had after the first run except customFields, which the create
    wrote and the update, whose payload omits it, cleared. *)
Lemma second_run_updates_and_clears_customFields :
  forall (str : StrMethods) (w : Shop.t) (users : list AdminPanelUser)
         (zrs : list AdminPanelZrContact) (client_id client_secret : string),
    Shop.customer_groups w = Shop.two_groups ->
    fst (get_all_contacts Shop.http Shop.admin_url (Shop.start w)) = Ok users ->
    fst (get_all_zr_contacts Shop.http Shop.admin_url (Shop.start w)) = Ok zrs ->
    forallb (fun u => taken w (IsUser u)) users = true ->
    forallb (fun z => taken w (IsZr z)) zrs = true ->
    distinct (map entraID users) = true ->
    distinct (map zr_zrNummer zrs) = true ->
    forallb (no_entraid_match (Shop.customers w)) users = true ->
    forallb (no_number_match (Shop.customers w)) zrs = true ->
    numbers_apart users zrs = true ->
    let run := run_sync Shop.http Shop.uuid4_hex Shop.shop_url Shop.admin_url
                 client_id client_secret in
    let first := run (Shop.start w) in
    let second := run (Shop.start (world (snd first))) in
    let n := length users in
    let m := length zrs in
    exists added,
      length added = n + m /\
      fst first = Returned /\
      In (INFO, users_summary (n, 0, n)) (log (snd first)) /\
      In (INFO, zr_summary (m, 0, m)) (log (snd first)) /\
      Shop.customers (world (snd first)) = Shop.customers w ++ added /\
      fst second = Returned /\
      In (INFO, users_summary (n, n, 0)) (log (snd second)) /\
      In (INFO, zr_summary (m, m, 0)) (log (snd second)) /\
      Shop.customers (world (snd second))
        = Shop.customers w ++ map (without "customFields") added /\
      Forall (fun f => assoc "customFields" f <> None /\
                       assoc "customFields" (without "customFields" f) = None) added.
Proof.
  intros str w users zrs client_id client_secret Hg Hfu Hfz Htu Htz Hdu Hdz Hnu Hnz Hap.
  cbv zeta.
  set (cs := Shop.countries w).
  set (base := Shop.customers w).
  set (n0 := Shop.uuids w).
  set (U := created_users cs users n0).
  set (Z := created_zrs cs zrs (n0 + length users)).
  destruct (users_off_the_numbers cs users zrs Hap n0) as [HU HU'].
  fold U in HU, HU'.
  (* the first run *)
  assert (P1 : forall s0, world s0 = shop_with w base n0 ->
             exists s', sync_users Shop.http Shop.uuid4_hex Shop.shop_url Shop.admin_url s0
                        = (Ok (length users, 0, length users), s') /\
                        world s' = shop_with w (base ++ U) (n0 + length users)).
  { intros s0 H0.
    apply (@shop_sync_users _ w users Hfu base (base ++ U) n0 (n0 + length users)
             (mkCounters 0 (0 + length users) 0) s0 H0).
    intros s1 H1.
    apply (@shop_users_create_pass _ w Hg users base n0 zero s1 H1 Htu Hdu Hnu). }
  assert (P2 : forall s0, world s0 = shop_with w (base ++ U) (n0 + length users) ->
             exists s', sync_zr_customers Shop.http Shop.uuid4_hex Shop.shop_url
                          Shop.admin_url s0
                        = (Ok (length zrs, 0, length zrs), s') /\
                        world s' = shop_with w ((base ++ U) ++ Z)
                                     (n0 + length users + length zrs)).
  { intros s0 H0.
    apply (@shop_sync_zrs _ w zrs Hfz (base ++ U) ((base ++ U) ++ Z) (n0 + length users)
             (n0 + length users + length zrs)
             (mkCounters 0 (0 + length zrs) 0) s0 H0).
    intros s1 H1.
    apply (@shop_zr_create_pass _ w Hg zrs (base ++ U) (n0 + length users) zero s1 H1 Htz Hdz).
    apply no_number_match_app; assumption. }
  destruct (@shop_run _ w client_id client_secret base (base ++ U) ((base ++ U) ++ Z)
              n0 (n0 + length users) (n0 + length users + length zrs)
              (length users, 0, length users) (length zrs, 0, length zrs)
              (Shop.start w) (shop_with_self w) P1 P2) as [R1 [W1 [L1 L1z]]].
  (* the second run *)
  assert (P3 : forall s0, world s0 = shop_with w ((base ++ U) ++ Z)
                                       (n0 + length users + length zrs) ->
             exists s', sync_users Shop.http Shop.uuid4_hex Shop.shop_url Shop.admin_url s0
                        = (Ok (length users, length users, 0), s') /\
                        world s' = shop_with w (base ++ map (without "customFields") U ++ Z)
                                     (n0 + length users + length zrs)).
  { intros s0 H0.
    apply (@shop_sync_users _ w users Hfu ((base ++ U) ++ Z)
             (base ++ map (without "customFields") U ++ Z)
             (n0 + length users + length zrs) (n0 + length users + length zrs)
             (mkCounters (0 + length users) 0 0) s0 H0).
    intros s1 H1.
    apply (@shop_users_update_pass _ w Hg users base Z (n0 + length users + length zrs) n0
             zero s1); [ | exact Htu | exact Hnu ].
    rewrite H1, <- app_assoc. reflexivity. }
  assert (P4 : forall s0, world s0 = shop_with w (base ++ map (without "customFields") U ++ Z)
                                       (n0 + length users + length zrs) ->
             exists s', sync_zr_customers Shop.http Shop.uuid4_hex Shop.shop_url
                          Shop.admin_url s0
                        = (Ok (length zrs, length zrs, 0), s') /\
                        world s' = shop_with w
                                     ((base ++ map (without "customFields") U)
                                      ++ map (without "customFields") Z ++ [])
                                     (n0 + length users + length zrs)).
  { intros s0 H0.
    apply (@shop_sync_zrs _ w zrs Hfz (base ++ map (without "customFields") U ++ Z)
             ((base ++ map (without "customFields") U)
              ++ map (without "customFields") Z ++ [])
             (n0 + length users + length zrs) (n0 + length users + length zrs)
             (mkCounters (0 + length zrs) 0 0) s0 H0).
    intros s1 H1.
    apply (@shop_zr_update_pass _ w Hg zrs (base ++ map (without "customFields") U) []
             (n0 + length users + length zrs) (n0 + length users) zero s1);
      [ | exact Htz | exact Hdz | apply no_number_match_app; assumption ].
    rewrite H1, app_nil_r, <- app_assoc. reflexivity. }
  destruct (@shop_run _ w client_id client_secret ((base ++ U) ++ Z)
              (base ++ map (without "customFields") U ++ Z)
              ((base ++ map (without "customFields") U)
               ++ map (without "customFields") Z ++ [])
              (n0 + length users + length zrs) (n0 + length users + length zrs)
              (n0 + length users + length zrs)
              (length users, length users, 0) (length zrs, length zrs, 0)
              (Shop.start (world (snd (run_sync Shop.http Shop.uuid4_hex Shop.shop_url
                                         Shop.admin_url client_id client_secret
                                         (Shop.start w)))))
              W1 P3 P4) as [R2 [W2 [L2 L2z]]].
  exists (U ++ Z).
  split; [ rewrite length_app; unfold U, Z;
           rewrite created_users_length, created_zrs_length; reflexivity | ].
  split; [ exact R1 | ]. split; [ exact L1 | ]. split; [ exact L1z | ].
  split; [ rewrite W1; cbn [shop_with Shop.customers]; rewrite app_assoc; reflexivity | ].
  split; [ exact R2 | ]. split; [ exact L2 | ]. split; [ exact L2z | ].
  split.
  - rewrite W2. cbn [shop_with Shop.customers].
    rewrite app_nil_r, map_app, <- app_assoc. reflexivity.
  - apply Forall_app. split; [ apply created_users_customFields
                             | apply created_zrs_customFields ].
Qed.

Lemma second_run_updates_and_clears_customFields_witness :
  let w := Sample.empty_shop [Sample.huber; Sample.kauer] [Sample.zr_a; Sample.zr_c] true in
  let first := Sample.run (Shop.start w) in
  let second := Sample.run (Shop.start (world (snd first))) in
  exists added,
    length added = 1 + 2 /\
    fst first = Returned /\
    In (INFO, users_summary (1, 0, 1)) (log (snd first)) /\
    In (INFO, zr_summary (2, 0, 2)) (log (snd first)) /\
    Shop.customers (world (snd first)) = [] ++ added /\
    fst second = Returned /\
    In (INFO, users_summary (1, 1, 0)) (log (snd second)) /\
    In (INFO, zr_summary (2, 2, 0)) (log (snd second)) /\
    Shop.customers (world (snd second)) = [] ++ map (without "customFields") added /\
    Forall (fun f => assoc "customFields" f <> None /\
                     assoc "customFields" (without "customFields" f) = None) added.
Proof.
  exact (@second_run_updates_and_clears_customFields ascii_strings
           (Sample.empty_shop [Sample.huber; Sample.kauer] [Sample.zr_a; Sample.zr_c] true)
           [Sample.kauer] [Sample.zr_a; Sample.zr_c] "id" "secret"
           eq_refl eq_refl eq_refl eq_refl eq_refl eq_refl eq_refl eq_refl eq_refl eq_refl).
Defined.

(* ===================================================================== *)
(** ** Reference data: countries and customer groups *)
(* ===================================================================== *)

Section ReferenceData.

Context {str : StrMethods}.

Variable World : Type.
Variable http : request -> World -> http_result * World.
Variable base_url : string.

(** X1. [_get_country_id] sends one GET with [iso_code.upper()] as
    [filter[iso]], whatever [str.upper] makes of the code, and never lets a
    refusal out: refused, it logs the error and returns None; answered with
    a list, it returns the id of the first country listed (None when that
    has no id), and None for an empty list or an answer without [data]. *)
Theorem country_lookup_returns_first_id_or_none :
  forall (iso_code : string) (s : state World),
    (forall m w1,
        http (country_request iso_code) (world s) = (Refused m, w1) ->
        _get_country_id http iso_code s
          = (Ok JNull,
             mkState w1
               (log s ++ [(ERROR, ("Failed to get country ID for " ++ iso_code ++ ": " ++ m)%string)])
               (trace s ++ [Http (country_request iso_code)]))) /\
    (forall d c rest w1,
        http (country_request iso_code) (world s) = (Body (JObj d), w1) ->
        assoc "data" d = Some (JArr (JObj c :: rest)) ->
        _get_country_id http iso_code s
          = (Ok (match assoc "id" c with Some id => id | None => JNull end),
             mkState w1 (log s) (trace s ++ [Http (country_request iso_code)]))) /\
    (forall d w1,
        http (country_request iso_code) (world s) = (Body (JObj d), w1) ->
        assoc "data" d = Some (JArr []) \/ assoc "data" d = None ->
        _get_country_id http iso_code s
          = (Ok JNull, mkState w1 (log s) (trace s ++ [Http (country_request iso_code)]))).
Proof.
  intros iso_code s. unfold _get_country_id, try_except_request, try_except.
  rewrite bind_run. unfold send. fold (country_request iso_code).
  repeat apply conj.
  - intros m w1 H. rewrite H. reflexivity.
  - intros d c rest w1 H Hd. rewrite H. rewrite bind_run. cbn [lift py_get]. rewrite Hd.
    reflexivity.
  - intros d w1 H [Hd | Hd]; rewrite H; rewrite bind_run; cbn [lift py_get]; rewrite Hd;
      reflexivity.
Qed.

Lemma group_loop_listed (name_ : string) (gs : list (json * list (string * json))) :
  group_loop name_ (map group_json gs)
    = Ok (match find (fun g => py_eq_str (group_name g) name_) gs with
          | Some g => Some (fst g)
          | None => None
          end).
Proof.
  induction gs as [ | g gs IH ]; [ reflexivity | ].
  cbn [map group_loop]. unfold group_json at 1. cbn [py_get assoc String.eqb Ascii.eqb Bool.eqb].
  cbn [rbind py_get]. fold (group_name g). cbn [find].
  destruct (py_eq_str (group_name g) name_); [ reflexivity | exact IH ].
Qed.

(** X2. [_get_customer_group_id] never lets a refusal out: refused, it
    logs the error and returns None.  Answered with a list of groups, it
    returns the id of the first group whose name is the one asked for; when
    no group has that name it falls back to the id of the first group
    listed, and to None when none is listed. *)
Theorem group_lookup_falls_back_to_first_group :
  forall (group_name_ : string) (s : state World),
    (forall m w1,
        http (group_request base_url) (world s) = (Refused m, w1) ->
        _get_customer_group_id http base_url group_name_ s
          = (Ok JNull,
             mkState w1
               (log s ++ [(ERROR, ("Failed to get customer group ID: " ++ m)%string)])
               (trace s ++ [Http (group_request base_url)]))) /\
    (forall gs w1,
        http (group_request base_url) (world s)
          = (Body (JObj [ ("data", JArr (map group_json gs)) ]), w1) ->
        _get_customer_group_id http base_url group_name_ s
          = (Ok (resolve_group group_name_ gs),
             mkState w1 (log s) (trace s ++ [Http (group_request base_url)]))).
Proof.
  intros group_name_ s. unfold _get_customer_group_id, try_except_request, try_except.
  rewrite bind_run. unfold send. fold (group_request base_url).
  split.
  - intros m w1 H. rewrite H. reflexivity.
  - intros gs w1 H. rewrite H. rewrite bind_run. cbn [lift py_get assoc String.eqb Ascii.eqb Bool.eqb].
    rewrite bind_run. cbn [lift py_iter]. rewrite bind_run. cbn [lift].
    rewrite group_loop_listed. unfold resolve_group.
    destruct (find (fun g => py_eq_str (group_name g) group_name_) gs) as [g | ];
      [ reflexivity | ].
    destruct gs as [ | g gs ]; reflexivity.
Qed.

End ReferenceData.

Lemma country_lookup_returns_first_id_or_none_witness :
  let s := Shop.start (Sample.empty_shop [] [] true) in
  _get_country_id (Outage.http Outage.all) "de" s
    = (Ok JNull,
       mkState (world s)
         [(ERROR, "Failed to get country ID for de: 503 Service Unavailable")]
         [Http (country_request "de")]) /\
  _get_country_id Shop.http "de" s
    = (Ok (JStr "country-de"), mkState (world s) [] [Http (country_request "de")]) /\
  _get_country_id Shop.http "xx" s
    = (Ok JNull, mkState (world s) [] [Http (country_request "xx")]).
Proof.
  cbv zeta. split; [ | split ].
  - apply (proj1 (country_lookup_returns_first_id_or_none (Outage.http Outage.all) "de"
                    (Shop.start (Sample.empty_shop [] [] true)))).
    reflexivity.
  - apply (proj1 (proj2 (country_lookup_returns_first_id_or_none Shop.http "de"
                           (Shop.start (Sample.empty_shop [] [] true))))
             [ ("data", JArr [ JObj [ ("id", JStr "country-de") ] ]) ]
             [ ("id", JStr "country-de") ] []
             (Sample.empty_shop [] [] true));
      reflexivity.
  - apply (proj2 (proj2 (country_lookup_returns_first_id_or_none Shop.http "xx"
                           (Shop.start (Sample.empty_shop [] [] true))))
             [ ("data", JArr []) ] (Sample.empty_shop [] [] true));
      [ reflexivity | left; reflexivity ].
Defined.

Lemma group_lookup_falls_back_to_first_group_witness :
  let s := Shop.start (Sample.empty_shop [] [] true) in
  _get_customer_group_id (Outage.http Outage.all) Shop.shop_url "ZR-Kunden" s
    = (Ok JNull,
       mkState (world s)
         [(ERROR, "Failed to get customer group ID: 503 Service Unavailable")]
         [Http (group_request Shop.shop_url)]) /\
  _get_customer_group_id Shop.http Shop.shop_url "Standard customer group" s
    = (Ok (JStr "g-user"), mkState (world s) [] [Http (group_request Shop.shop_url)]).
Proof.
  cbv zeta. split.
  - apply (proj1 (group_lookup_falls_back_to_first_group (Outage.http Outage.all)
                    Shop.shop_url "ZR-Kunden" (Shop.start (Sample.empty_shop [] [] true)))).
    reflexivity.
  - apply (proj2 (group_lookup_falls_back_to_first_group Shop.http
                    Shop.shop_url "Standard customer group"
                    (Shop.start (Sample.empty_shop [] [] true)))
             [ (JStr "g-user", [ ("name", JStr "User-Kunden") ]);
               (JStr "g-zr", [ ("name", JStr "ZR-Kunden") ]) ]).
    reflexivity.
Defined.

(* ===================================================================== *)
(** ** One record, when the lookup goes wrong *)
(* ===================================================================== *)

Section LookupEdges.

Context {str : StrMethods}.

Variable World : Type.
Variable http : request -> World -> http_result * World.
Variable uuid4_hex : World -> string * World.
Variable base_url : string.

Lemma user_iteration_refused (user : AdminPanelUser) (c : counters) (s : state World)
    (m : string) (w1 : World) :
  http (entraid_lookup base_url (entraID user)) (world s) = (Refused m, w1) ->
  sync_user_iteration http uuid4_hex base_url user c s
    = (Ok (incr_failed c),
       mkState w1
         (log s ++
          [ (ERROR, ("Failed to search customer by entra id " ++ entraID user
                     ++ ": " ++ m)%string);
            (ERROR, ("Failed to process user " ++ eMailadresse user
                     ++ ": " ++ m)%string) ])
         (trace s ++ [ CallGetByEntraId (entraID user);
                       Http (entraid_lookup base_url (entraID user)) ])).
Proof.
  intros H. rewrite sync_user_iteration_run.
  unfold get_customer_by_custom_field_entraid, try_except_request, try_except.
  rewrite bind_run. cbn [emit]. rewrite bind_run. unfold send. cbn [world log trace].
  fold (entraid_lookup base_url (entraID user)). rewrite H.
  cbn. unfold logged. cbn [world log trace]. rewrite <- !app_assoc. reflexivity.
Qed.

Lemma zr_iteration_refused (zr_contact : AdminPanelZrContact) (c : counters)
    (s : state World) (m : string) (w1 : World) :
  http (number_lookup base_url (zr_zrNummer zr_contact)) (world s) = (Refused m, w1) ->
  sync_zr_iteration http uuid4_hex base_url zr_contact c s
    = (Ok (incr_failed c),
       mkState w1
         (log s ++
          [ (ERROR, ("Failed to search customer by number " ++ zr_zrNummer zr_contact
                     ++ ": " ++ m)%string);
            (ERROR, ("Failed to process ZR customer " ++ zr_zrNummer zr_contact
                     ++ ": " ++ m)%string) ])
         (trace s ++ [ CallGetByNumber (zr_zrNummer zr_contact);
                       Http (number_lookup base_url (zr_zrNummer zr_contact)) ])).
Proof.
  intros H. rewrite sync_zr_iteration_run.
  unfold get_customer_by_customer_number, try_except_request, try_except.
  rewrite bind_run. cbn [emit]. rewrite bind_run. unfold send. cbn [world log trace].
  fold (number_lookup base_url (zr_zrNummer zr_contact)). rewrite H.
  cbn. unfold logged. cbn [world log trace]. rewrite <- !app_assoc. reflexivity.
Qed.

(** X3. When the destination refuses the lookup of a record, the
    iteration enters neither create nor update and sends nothing else: the
    record is counted as failed, and the log gets the line of the lookup
    and the line of the loop, both with the message of the refusal. *)
Theorem refused_lookup_fails_the_record_without_a_write :
  (forall user c (s : state World) m w1,
      http (entraid_lookup base_url (entraID user)) (world s) = (Refused m, w1) ->
      sync_user_iteration http uuid4_hex base_url user c s
        = (Ok (incr_failed c),
           mkState w1
             (log s ++
              [ (ERROR, ("Failed to search customer by entra id " ++ entraID user
                         ++ ": " ++ m)%string);
                (ERROR, ("Failed to process user " ++ eMailadresse user
                         ++ ": " ++ m)%string) ])
             (trace s ++ [ CallGetByEntraId (entraID user);
                           Http (entraid_lookup base_url (entraID user)) ]))) /\
  (forall zr_contact c (s : state World) m w1,
      http (number_lookup base_url (zr_zrNummer zr_contact)) (world s) = (Refused m, w1) ->
      sync_zr_iteration http uuid4_hex base_url zr_contact c s
        = (Ok (incr_failed c),
           mkState w1
             (log s ++
              [ (ERROR, ("Failed to search customer by number " ++ zr_zrNummer zr_contact
                         ++ ": " ++ m)%string);
                (ERROR, ("Failed to process ZR customer " ++ zr_zrNummer zr_contact
                         ++ ": " ++ m)%string) ])
             (trace s ++ [ CallGetByNumber (zr_zrNummer zr_contact);
                           Http (number_lookup base_url (zr_zrNummer zr_contact)) ]))).
Proof.
  split.
  - intros user c s m w1 H. apply user_iteration_refused. exact H.
  - intros zr_contact c s m w1 H. apply zr_iteration_refused. exact H.
Qed.

End LookupEdges.

Lemma refused_lookup_fails_the_record_without_a_write_witness :
  let s := Shop.start (Sample.empty_shop [] [] true) in
  sync_user_iteration (Outage.http Outage.all) Shop.uuid4_hex Shop.shop_url Sample.kauer zero s
    = (Ok (incr_failed zero),
       mkState (world s)
         [ (ERROR, "Failed to search customer by entra id entra-1: 503 Service Unavailable");
           (ERROR, "Failed to process user thomas.kauer@kauer.ch: 503 Service Unavailable") ]
         [ CallGetByEntraId "entra-1"; Http (entraid_lookup Shop.shop_url "entra-1") ]) /\
  sync_zr_iteration (Outage.http Outage.all) Shop.uuid4_hex Shop.shop_url Sample.zr_a zero s
    = (Ok (incr_failed zero),
       mkState (world s)
         [ (ERROR, "Failed to search customer by number 112212: 503 Service Unavailable");
           (ERROR, "Failed to process ZR customer 112212: 503 Service Unavailable") ]
         [ CallGetByNumber "112212"; Http (number_lookup Shop.shop_url "112212") ]).
Proof.
  cbv zeta. split.
  - apply (proj1 (refused_lookup_fails_the_record_without_a_write
                    (Outage.http Outage.all) Shop.uuid4_hex Shop.shop_url)
             Sample.kauer zero (Shop.start (Sample.empty_shop [] [] true))).
    reflexivity.
  - apply (proj2 (refused_lookup_fails_the_record_without_a_write
                    (Outage.http Outage.all) Shop.uuid4_hex Shop.shop_url)
             Sample.zr_a zero (Shop.start (Sample.empty_shop [] [] true))).
    reflexivity.
Defined.

Section AnswerEdges.

Context {str : StrMethods}.

Variable World : Type.
Variable http : request -> World -> http_result * World.
Variable uuid4_hex : World -> string * World.
Variable base_url : string.

Lemma get_by_entraid_without_data (identifier : string) (s : state World)
    (d : list (string * json)) (w1 : World) :
  http (entraid_lookup base_url identifier) (world s) = (Body (JObj d), w1) ->
  assoc "data" d = None ->
  get_customer_by_custom_field_entraid http base_url identifier s
    = (Ok JNull,
       mkState w1 (log s)
         (trace s ++ [CallGetByEntraId identifier;
                      Http (entraid_lookup base_url identifier)])).
Proof.
  intros Hh Hd. unfold get_customer_by_custom_field_entraid.
  rewrite bind_run. cbn [emit]. unfold try_except_request, try_except.
  rewrite bind_run. unfold send. cbn [world log trace].
  fold (entraid_lookup base_url identifier). rewrite Hh.
  rewrite bind_run. cbn [lift py_get]. rewrite Hd. cbn [lift].
  rewrite <- app_assoc. reflexivity.
Qed.

Lemma get_by_number_without_data (customer_number : string) (s : state World)
    (d : list (string * json)) (w1 : World) :
  http (number_lookup base_url customer_number) (world s) = (Body (JObj d), w1) ->
  assoc "data" d = None ->
  get_customer_by_customer_number http base_url customer_number s
    = (Ok JNull,
       mkState w1 (log s)
         (trace s ++ [CallGetByNumber customer_number;
                      Http (number_lookup base_url customer_number)])).
Proof.
  intros Hh Hd. unfold get_customer_by_customer_number.
  rewrite bind_run. cbn [emit]. unfold try_except_request, try_except.
  rewrite bind_run. unfold send. cbn [world log trace].
  fold (number_lookup base_url customer_number). rewrite Hh.
  rewrite bind_run. cbn [lift py_get]. rewrite Hd. cbn [lift].
  rewrite <- app_assoc. reflexivity.
Qed.

(** X4. An answer to the lookup that is an object without a [data] key is
    read as "no customer": the iteration enters create, never update, and
    sends no PATCH. *)
Theorem answer_without_data_is_read_as_no_match :
  (forall user c (s : state World) d w1,
      http (entraid_lookup base_url (entraID user)) (world s) = (Body (JObj d), w1) ->
      assoc "data" d = None ->
      let evs := new_events s (snd (sync_user_iteration http uuid4_hex base_url user c s)) in
      calls evs = [CallGetByEntraId (entraID user); CallCreate (IsUser user) false] /\
      sent PATCH evs = []) /\
  (forall z c (s : state World) d w1,
      http (number_lookup base_url (zr_zrNummer z)) (world s) = (Body (JObj d), w1) ->
      assoc "data" d = None ->
      let evs := new_events s (snd (sync_zr_iteration http uuid4_hex base_url z c s)) in
      calls evs = [CallGetByNumber (zr_zrNummer z); CallCreate (IsZr z) true] /\
      sent PATCH evs = []).
Proof.
  split.
  - intros user c s d w1 Hh Hd. cbv zeta. rewrite sync_user_iteration_run.
    rewrite (@get_by_entraid_without_data (entraID user) s d w1 Hh Hd). cbn [truthy].
    match goal with
    | |- context [ create_customer _ _ _ _ ?s1 ] =>
        destruct (create_trace http uuid4_hex base_url (IsUser user) false s1)
          as [evs [T F]];
        unfold create_customer;
        destruct (create_customer_generic http uuid4_hex base_url (IsUser user) false s1)
          as [[[] | e] s2]
    end; cbn [snd] in *;
      rewrite (@new_events_app World s _
                 ([CallGetByEntraId (entraID user);
                   Http (entraid_lookup base_url (entraID user));
                   CallCreate (IsUser user) false] ++ evs))
        by (rewrite logged_trace, T; cbn [trace]; rewrite <- app_assoc; reflexivity);
      destruct (create_events_quiet F) as [Hc Hp];
      rewrite calls_app, sent_app, Hc, Hp; split; reflexivity.
  - intros z c s d w1 Hh Hd. cbv zeta. rewrite sync_zr_iteration_run.
    rewrite (@get_by_number_without_data (zr_zrNummer z) s d w1 Hh Hd). cbn [truthy].
    match goal with
    | |- context [ create_zr_customer _ _ _ _ ?s1 ] =>
        destruct (create_trace http uuid4_hex base_url (IsZr z) true s1)
          as [evs [T F]];
        unfold create_zr_customer;
        destruct (create_customer_generic http uuid4_hex base_url (IsZr z) true s1)
          as [[[] | e] s2]
    end; cbn [snd] in *;
      rewrite (@new_events_app World s _
                 ([CallGetByNumber (zr_zrNummer z);
                   Http (number_lookup base_url (zr_zrNummer z));
                   CallCreate (IsZr z) true] ++ evs))
        by (rewrite logged_trace, T; cbn [trace]; rewrite <- app_assoc; reflexivity);
      destruct (create_events_quiet F) as [Hc Hp];
      rewrite calls_app, sent_app, Hc, Hp; split; reflexivity.
Qed.

(** X5. A listed customer without an [id] makes the update raise
    KeyError before it sends anything: the record is counted as failed with
    the line "Failed to process ...: 'id'", and after the lookup the
    iteration sends no request at all. *)
Theorem customer_without_id_fails_before_any_request :
  (forall user c (s : state World) d w1 kv m others,
      http (entraid_lookup base_url (entraID user)) (world s) = (Body (JObj d), w1) ->
      assoc "data" d = Some (JArr (JObj (kv :: m) :: others)) ->
      assoc "id" (kv :: m) = None ->
      sync_user_iteration http uuid4_hex base_url user c s
        = (Ok (incr_failed c),
           mkState w1
             (log s ++ [ (ERROR, ("Failed to process user " ++ eMailadresse user
                                  ++ ": 'id'")%string) ])
             (trace s ++ [ CallGetByEntraId (entraID user);
                           Http (entraid_lookup base_url (entraID user));
                           CallUpdate (IsUser user) false (JObj (kv :: m)) ]))) /\
  (forall z c (s : state World) d w1 kv m others,
      http (number_lookup base_url (zr_zrNummer z)) (world s) = (Body (JObj d), w1) ->
      assoc "data" d = Some (JArr (JObj (kv :: m) :: others)) ->
      assoc "id" (kv :: m) = None ->
      sync_zr_iteration http uuid4_hex base_url z c s
        = (Ok (incr_failed c),
           mkState w1
             (log s ++ [ (ERROR, ("Failed to process ZR customer " ++ zr_zrNummer z
                                  ++ ": 'id'")%string) ])
             (trace s ++ [ CallGetByNumber (zr_zrNummer z);
                           Http (number_lookup base_url (zr_zrNummer z));
                           CallUpdate (IsZr z) true (JObj (kv :: m)) ]))).
Proof.
  split.
  - intros user c s d w1 kv m others Hh Hd Hid. rewrite sync_user_iteration_run.
    rewrite (@get_by_entraid_listed World http base_url _ s d _ w1 Hh Hd). cbn [hd truthy].
    unfold update_customer, update_customer_generic.
    rewrite bind_run. cbn [emit]. rewrite bind_run. cbn [lift py_item]. rewrite Hid.
    unfold logged, user_failure_line. cbn [fst snd world log trace exn_msg].
    rewrite <- !app_assoc. reflexivity.
  - intros z c s d w1 kv m others Hh Hd Hid. rewrite sync_zr_iteration_run.
    rewrite (@get_by_number_listed World http base_url _ s d _ w1 Hh Hd). cbn [hd truthy].
    unfold update_zr_customer, update_customer_generic.
    rewrite bind_run. cbn [emit]. rewrite bind_run. cbn [lift py_item]. rewrite Hid.
    unfold logged, zr_failure_line. cbn [fst snd world log trace exn_msg].
    rewrite <- !app_assoc. reflexivity.
Qed.

End AnswerEdges.

Lemma answer_without_data_is_read_as_no_match_witness :
  let answer := JObj [ ("total", JNum 0) ] in
  let user_evs := new_events Canned.start
                    (snd (sync_user_iteration (Canned.http answer) Canned.uuid4_hex
                            "https://shop.example" Sample.kauer zero Canned.start)) in
  let zr_evs := new_events Canned.start
                  (snd (sync_zr_iteration (Canned.http answer) Canned.uuid4_hex
                          "https://shop.example" Sample.zr_a zero Canned.start)) in
  (calls user_evs = [CallGetByEntraId "entra-1"; CallCreate (IsUser Sample.kauer) false] /\
   sent PATCH user_evs = []) /\
  (calls zr_evs = [CallGetByNumber "112212"; CallCreate (IsZr Sample.zr_a) true] /\
   sent PATCH zr_evs = []).
Proof.
  cbv zeta. split.
  - apply (proj1 (answer_without_data_is_read_as_no_match
                    (Canned.http (JObj [ ("total", JNum 0) ])) Canned.uuid4_hex
                    "https://shop.example")
             Sample.kauer zero Canned.start [ ("total", JNum 0) ] tt);
      reflexivity.
  - apply (proj2 (answer_without_data_is_read_as_no_match
                    (Canned.http (JObj [ ("total", JNum 0) ])) Canned.uuid4_hex
                    "https://shop.example")
             Sample.zr_a zero Canned.start [ ("total", JNum 0) ] tt);
      reflexivity.
Defined.

Lemma customer_without_id_fails_before_any_request_witness :
  let listed := [ ("type", JStr "customer") ] in
  let answer := JObj [ ("data", JArr [ JObj listed ]) ] in
  sync_user_iteration (Canned.http answer) Canned.uuid4_hex "https://shop.example"
    Sample.kauer zero Canned.start
    = (Ok (incr_failed zero),
       mkState tt
         [ (ERROR, "Failed to process user thomas.kauer@kauer.ch: 'id'") ]
         [ CallGetByEntraId "entra-1";
           Http (entraid_lookup "https://shop.example" "entra-1");
           CallUpdate (IsUser Sample.kauer) false (JObj listed) ]) /\
  sync_zr_iteration (Canned.http answer) Canned.uuid4_hex "https://shop.example"
    Sample.zr_a zero Canned.start
    = (Ok (incr_failed zero),
       mkState tt
         [ (ERROR, "Failed to process ZR customer 112212: 'id'") ]
         [ CallGetByNumber "112212";
           Http (number_lookup "https://shop.example" "112212");
           CallUpdate (IsZr Sample.zr_a) true (JObj listed) ]).
Proof.
  cbv zeta. split.
  - apply (proj1 (customer_without_id_fails_before_any_request
                    (Canned.http (JObj [ ("data", JArr [ JObj [ ("type", JStr "customer") ] ]) ]))
                    Canned.uuid4_hex "https://shop.example")
             Sample.kauer zero Canned.start
             [ ("data", JArr [ JObj [ ("type", JStr "customer") ] ]) ] tt
             ("type", JStr "customer") [] []);
      reflexivity.
  - apply (proj2 (customer_without_id_fails_before_any_request
                    (Canned.http (JObj [ ("data", JArr [ JObj [ ("type", JStr "customer") ] ]) ]))
                    Canned.uuid4_hex "https://shop.example")
             Sample.zr_a zero Canned.start
             [ ("data", JArr [ JObj [ ("type", JStr "customer") ] ]) ] tt
             ("type", JStr "customer") [] []);
      reflexivity.
Defined.

(* ===================================================================== *)
(** ** The loops as a whole *)
(* ===================================================================== *)

Section Loops.

Context {str : StrMethods}.

Variable World : Type.
Variable http : request -> World -> http_result * World.
Variable uuid4_hex : World -> string * World.
Variable base_url : string.

Lemma add_failed_succ (n : nat) (c : counters) :
  add_failed n (incr_failed c) = add_failed (S n) c.
Proof. unfold add_failed, incr_failed. cbn. f_equal. lia. Qed.

Lemma users_loop_during_outage (users : list AdminPanelUser) :
  (forall identifier w, exists m w1,
      http (entraid_lookup base_url identifier) w = (Refused m, w1)) ->
  forall c (s : state World),
  exists s' evs,
    sync_users_loop http uuid4_hex base_url users c s
      = (Ok (add_failed (length users) c), s') /\
    trace s' = trace s ++ evs /\
    calls evs = map (fun u => CallGetByEntraId (entraID u)) users /\
    sent POST evs = [] /\ sent PATCH evs = [] /\ minted evs = [].
Proof.
  intros Hdown. induction users as [ | u rest IH ]; intros c s.
  - exists s, []. cbn. rewrite app_nil_r. destruct c. unfold add_failed. cbn.
    rewrite Nat.add_0_r. repeat split.
  - destruct (Hdown (entraID u) (world s)) as [m [w1 H]].
    cbn [sync_users_loop]. rewrite bind_run, (@user_iteration_refused _ World http uuid4_hex base_url u c s m w1 H).
    match goal with
    | |- context [ sync_users_loop _ _ _ rest (incr_failed c) ?s1 ] =>
        destruct (IH (incr_failed c) s1) as [s' [evs [E [T [Hc [Hp [Hq Hm]]]]]]]
    end.
    exists s', ([CallGetByEntraId (entraID u); Http (entraid_lookup base_url (entraID u))]
                ++ evs).
    rewrite E, add_failed_succ. split; [ reflexivity | ].
    split; [ rewrite T; cbn [trace]; rewrite <- app_assoc; reflexivity | ].
    rewrite calls_app, !sent_app, minted_app, Hc, Hp, Hq, Hm. repeat split.
Qed.

Lemma zr_loop_during_outage (zrs : list AdminPanelZrContact) :
  (forall customer_number w, exists m w1,
      http (number_lookup base_url customer_number) w = (Refused m, w1)) ->
  forall c (s : state World),
  exists s' evs,
    sync_zr_loop http uuid4_hex base_url zrs c s
      = (Ok (add_failed (length zrs) c), s') /\
    trace s' = trace s ++ evs /\
    calls evs = map (fun z => CallGetByNumber (zr_zrNummer z)) zrs /\
    sent POST evs = [] /\ sent PATCH evs = [] /\ minted evs = [].
Proof.
  intros Hdown. induction zrs as [ | z rest IH ]; intros c s.
  - exists s, []. cbn. rewrite app_nil_r. destruct c. unfold add_failed. cbn.
    rewrite Nat.add_0_r. repeat split.
  - destruct (Hdown (zr_zrNummer z) (world s)) as [m [w1 H]].
    cbn [sync_zr_loop]. rewrite bind_run, (@zr_iteration_refused _ World http uuid4_hex base_url z c s m w1 H).
    match goal with
    | |- context [ sync_zr_loop _ _ _ rest (incr_failed c) ?s1 ] =>
        destruct (IH (incr_failed c) s1) as [s' [evs [E [T [Hc [Hp [Hq Hm]]]]]]]
    end.
    exists s', ([CallGetByNumber (zr_zrNummer z); Http (number_lookup base_url (zr_zrNummer z))]
                ++ evs).
    rewrite E, add_failed_succ. split; [ reflexivity | ].
    split; [ rewrite T; cbn [trace]; rewrite <- app_assoc; reflexivity | ].
    rewrite calls_app, !sent_app, minted_app, Hc, Hp, Hq, Hm. repeat split.
Qed.

(** X6. While the destination refuses every customer lookup, a pass over
    n records returns with n more failures and nothing else counted; it
    looks every record up once, in the order of the list, and sends no POST
    and no PATCH and mints no uuid. *)
Theorem outage_fails_every_record_and_writes_nothing :
  (forall (users : list AdminPanelUser) c (s : state World),
      (forall identifier w, exists m w1,
          http (entraid_lookup base_url identifier) w = (Refused m, w1)) ->
      let out := sync_users_loop http uuid4_hex base_url users c s in
      let evs := new_events s (snd out) in
      fst out = Ok (add_failed (length users) c) /\
      calls evs = map (fun u => CallGetByEntraId (entraID u)) users /\
      sent POST evs = [] /\ sent PATCH evs = [] /\ minted evs = []) /\
  (forall (zrs : list AdminPanelZrContact) c (s : state World),
      (forall customer_number w, exists m w1,
          http (number_lookup base_url customer_number) w = (Refused m, w1)) ->
      let out := sync_zr_loop http uuid4_hex base_url zrs c s in
      let evs := new_events s (snd out) in
      fst out = Ok (add_failed (length zrs) c) /\
      calls evs = map (fun z => CallGetByNumber (zr_zrNummer z)) zrs /\
      sent POST evs = [] /\ sent PATCH evs = [] /\ minted evs = []).
Proof.
  split.
  - intros users c s Hdown. cbv zeta.
    destruct (users_loop_during_outage users Hdown c s) as [s' [evs [E [T H]]]].
    rewrite E. cbn [fst snd]. rewrite (new_events_app _ _ _ T). split; [ reflexivity | exact H ].
  - intros zrs c s Hdown. cbv zeta.
    destruct (zr_loop_during_outage zrs Hdown c s) as [s' [evs [E [T H]]]].
    rewrite E. cbn [fst snd]. rewrite (new_events_app _ _ _ T). split; [ reflexivity | exact H ].
Qed.

End Loops.

Lemma outage_fails_every_record_and_writes_nothing_witness :
  let s := Shop.start (Sample.empty_shop [] [] true) in
  let out := sync_users_loop (Outage.http Outage.all) Shop.uuid4_hex Shop.shop_url
               [Sample.kauer; Sample.huber] zero s in
  let zout := sync_zr_loop (Outage.http Outage.all) Shop.uuid4_hex Shop.shop_url
                [Sample.zr_a; Sample.zr_b; Sample.zr_c] zero s in
  (fst out = Ok (add_failed 2 zero) /\
   calls (new_events s (snd out)) = [CallGetByEntraId "entra-1"; CallGetByEntraId "entra-2"] /\
   sent POST (new_events s (snd out)) = [] /\
   sent PATCH (new_events s (snd out)) = [] /\
   minted (new_events s (snd out)) = []) /\
  (fst zout = Ok (add_failed 3 zero) /\
   calls (new_events s (snd zout))
     = [CallGetByNumber "112212"; CallGetByNumber "112213"; CallGetByNumber "112214"] /\
   sent POST (new_events s (snd zout)) = [] /\
   sent PATCH (new_events s (snd zout)) = [] /\
   minted (new_events s (snd zout)) = []).
Proof.
  cbv zeta. split.
  - apply (proj1 (outage_fails_every_record_and_writes_nothing
                    (Outage.http Outage.all) Shop.uuid4_hex Shop.shop_url)
             [Sample.kauer; Sample.huber] zero (Shop.start (Sample.empty_shop [] [] true))).
    intros identifier w. eexists. eexists. reflexivity.
  - apply (proj2 (outage_fails_every_record_and_writes_nothing
                    (Outage.http Outage.all) Shop.uuid4_hex Shop.shop_url)
             [Sample.zr_a; Sample.zr_b; Sample.zr_c] zero
             (Shop.start (Sample.empty_shop [] [] true))).
    intros customer_number w. eexists. eexists. reflexivity.
Defined.

(* ===================================================================== *)
(** ** The fetches *)
(* ===================================================================== *)

(** What a comprehension returns: the builds of the items it keeps, in
    their order. *)
Lemma comprehension_Ok {A : Type} (cond : json -> result bool) (build : json -> result A)
    (items : list json) :
  forall l, comprehension cond build items = Ok l ->
            Forall2 (fun x a => build x = Ok a) (kept cond items) l.
Proof.
  induction items as [ | x rest IH ]; intros l H; cbn in H.
  - inversion H. constructor.
  - unfold kept. cbn [filter]. destruct (cond x) as [[ | ] | e]; cbn in H; try discriminate H.
    + destruct (build x) as [a | e] eqn:B; cbn in H; [ | discriminate H ].
      destruct (comprehension cond build rest) as [l' | e]; cbn in H; [ | discriminate H ].
      inversion H. subst. constructor; [ exact B | apply IH; reflexivity ].
    + apply IH. exact H.
Qed.

(** One item that is kept and does not build ends the comprehension,
    whatever follows it, when the items before it are skipped or build. *)
Lemma comprehension_raises {A : Type} (cond : json -> result bool)
    (build : json -> result A) (pre : list json) (x : json) (rest : list json) (e : exn) :
  Forall (fun y => cond y = Ok false \/ (cond y = Ok true /\ exists a, build y = Ok a)) pre ->
  cond x = Ok true ->
  build x = Raise e ->
  comprehension cond build (pre ++ x :: rest) = Raise e.
Proof.
  intros Hpre Hc Hb. induction Hpre as [ | y pre [Hy | [Hy [a Ha]]] _ IH ]; cbn.
  - rewrite Hc. cbn. rewrite Hb. reflexivity.
  - rewrite Hy. cbn. exact IH.
  - rewrite Hy. cbn. rewrite Ha. cbn. rewrite IH. reflexivity.
Qed.

(** Skipped items are not built: a comprehension over items on which the
    condition does not raise is the comprehension over the items kept. *)
Lemma comprehension_kept {A : Type} (cond : json -> result bool) (build : json -> result A)
    (items : list json) :
  Forall (fun x => exists b, cond x = Ok b) items ->
  comprehension cond build items = comprehension cond build (kept cond items).
Proof.
  intros H. induction H as [ | x rest [b Hb] _ IH ]; [ reflexivity | ].
  unfold kept. cbn [filter comprehension]. rewrite Hb. destruct b; cbn.
  - rewrite Hb. cbn. fold (kept cond rest). rewrite IH. reflexivity.
  - exact IH.
Qed.

Lemma all_present_true (m : list (string * json)) (keys : list string) :
  all_present (JObj m) keys = Ok true ->
  forall k, In k keys ->
            truthy (match assoc k m with Some v => v | None => JNull end) = true.
Proof.
  induction keys as [ | k0 rest IH ]; intros H k Hk; [ destruct Hk | ].
  cbn in H.
  destruct (truthy (match assoc k0 m with Some v => v | None => JNull end)) eqn:T;
    [ | discriminate H ].
  destruct Hk as [<- | Hk]; [ exact T | apply IH; assumption ].
Qed.

Lemma field_str_Ok (model : string) (m : list (string * json)) (k v : string) :
  field_str model m k = Ok v -> assoc k m = Some (JStr v).
Proof.
  unfold field_str. destruct (assoc k m) as [[ | | | | | ] | ]; intros H;
    try discriminate H. inversion H. reflexivity.
Qed.

Lemma present_string (m : list (string * json)) (k v : string) :
  truthy (match assoc k m with Some x => x | None => JNull end) = true ->
  assoc k m = Some (JStr v) ->
  v <> "".
Proof.
  intros T A. rewrite A in T. cbn in T. intros ->. discriminate T.
Qed.

Ltac read_field H x :=
  match type of H with
  | rbind (field_str ?model ?m ?k) _ = _ =>
      let F := fresh "F" in
      destruct (field_str model m k) as [x | ] eqn:F; cbn [rbind] in H;
      [ apply field_str_Ok in F | discriminate H ]
  end.

Lemma parse_user_Ok (m : list (string * json)) (u : AdminPanelUser) :
  parse_user (JObj m) = Ok u ->
  assoc "vorname" m = Some (JStr (vorname u)) /\
  assoc "name" m = Some (JStr (name u)) /\
  assoc "eMailadresse" m = Some (JStr (eMailadresse u)) /\
  assoc "zrNummer" m = Some (JStr (zrNummer u)) /\
  assoc "firma" m = Some (JStr (firma u)) /\
  assoc "strasse" m = Some (JStr (strasse u)) /\
  assoc "postleitzahl" m = Some (JStr (postleitzahl u)) /\
  assoc "stadt" m = Some (JStr (stadt u)) /\
  assoc "land" m = Some (JStr (land u)) /\
  assoc "adresstyp" m = Some (JStr (adresstyp u)) /\
  assoc "entraID" m = Some (JStr (entraID u)).
Proof.
  intros H. unfold parse_user in H. cbv zeta in H.
  read_field H a1. read_field H a2. read_field H a3.
  destruct (field_opt_str "AdminPanelUser" m "uStID") as [a4 | ]; cbn [rbind] in H;
    [ | discriminate H ].
  read_field H a5. read_field H a6. read_field H a7. read_field H a8.
  read_field H a9. read_field H a10. read_field H a11. read_field H a12.
  inversion H. cbn. repeat split; assumption.
Qed.

Lemma parse_zr_Ok (m : list (string * json)) (z : AdminPanelZrContact) :
  parse_zr (JObj m) = Ok z -> assoc "zrNummer" m = Some (JStr (zr_zrNummer z)).
Proof.
  intros H. unfold parse_zr in H. cbv zeta in H.
  destruct (field_opt_str "AdminPanelZrContact" m "uStID") as [a0 | ]; cbn [rbind] in H;
    [ | discriminate H ].
  read_field H a1. read_field H a2. read_field H a3. read_field H a4.
  read_field H a5. read_field H a6. read_field H a7.
  inversion H. cbn. assumption.
Qed.

Lemma kept_In (cond : json -> result bool) (items : list json) (x : json) :
  In x (kept cond items) -> cond x = Ok true.
Proof.
  unfold kept. intros H. apply filter_In in H. destruct H as [_ H].
  destruct (cond x) as [[ | ] | ]; congruence.
Qed.

Lemma Forall2_right {A B : Type} (R : A -> B -> Prop) (P : A -> Prop) (Q : B -> Prop)
    (l1 : list A) (l2 : list B) :
  (forall a b, P a -> R a b -> Q b) ->
  Forall P l1 -> Forall2 R l1 l2 -> Forall Q l2.
Proof.
  intros H HP HR. induction HR as [ | a b l1 l2 Hab _ IH ]; [ constructor | ].
  inversion HP; subst. constructor; eauto.
Qed.

Lemma served_individual_is_complete (x : json) (u : AdminPanelUser) :
  all_present x mandatory_fields = Ok true -> parse_user x = Ok u -> complete u.
Proof.
  intros Hp Hu. destruct x as [ | | | | | m ]; try discriminate Hu.
  pose proof (all_present_true m mandatory_fields Hp) as T.
  destruct (@parse_user_Ok m u Hu) as [V [N [E [Z [F [S [P [C [L [A I]]]]]]]]]].
  unfold complete, mandatory_fields in *.
  repeat split;
    match goal with
    | |- ?f u <> "" =>
        match goal with
        | K : assoc ?k m = Some (JStr (f u)) |- _ =>
            apply (@present_string m k (f u)); [ apply T; cbn; tauto | exact K ]
        end
    end.
Qed.

Lemma served_zr_is_allowed (x : json) (z : AdminPanelZrContact) :
  in_allow_list x = Ok true -> parse_zr x = Ok z -> In (zr_zrNummer z) zr_allow_list.
Proof.
  intros Ha Hz. destruct x as [ | | | | | m ]; try discriminate Hz.
  pose proof (@parse_zr_Ok m z Hz) as N.
  unfold in_allow_list in Ha. cbn [py_get rbind] in Ha. rewrite N in Ha.
  inversion Ha as [E].
  change (existsb (py_eq_str (JStr (zr_zrNummer z))) zr_allow_list = true) in E.
  apply existsb_exists in E. destruct E as [k [Hk Ek]].
  cbn [py_eq_str] in Ek. apply String.eqb_eq in Ek. subst. exact Hk.
Qed.

Section Fetches.

Context {str : StrMethods}.

Variable World : Type.
Variable http : request -> World -> http_result * World.
Variable base_url : string.

(** X7. Whatever the source serves, every contact [get_all_contacts]
    returns has a non-empty string in each of the eleven mandatory
    fields. *)
Theorem fetched_individuals_are_complete :
  forall (s : state World),
    match fst (get_all_contacts http base_url s) with
    | Ok contacts => Forall complete contacts
    | Raise _ => True
    end.
Proof.
  intros s. unfold get_all_contacts, try_except. rewrite bind_run. unfold send.
  destruct (http (mkReq GET (base_url ++ "/api/contacts/list_contact_gs") [] None) (world s))
    as [[j | m] w1]; [ | exact I ].
  rewrite bind_run. cbn [lift].
  destruct (py_iter j) as [items | e]; [ | destruct (is_request_exception e); exact I ].
  rewrite bind_run. cbn [lift].
  destruct (comprehension (fun x => all_present x mandatory_fields) parse_user items)
    as [contacts | e] eqn:C; [ | destruct (is_request_exception e); exact I ].
  cbn. apply Forall_forall. intros u Hu. apply filter_In in Hu. destruct Hu as [Hu _].
  pose proof (comprehension_Ok _ _ _ C) as F2.
  assert (G : Forall complete contacts).
  { eapply (Forall2_right (P := fun x => all_present x mandatory_fields = Ok true));
      [ | | exact F2 ].
    - intros a b Pa Rab. eapply served_individual_is_complete; eauto.
    - apply Forall_forall. intros x Hx.
      exact (@kept_In (fun x => all_present x mandatory_fields) items x Hx). }
  exact (proj1 (Forall_forall _ _) G u Hu).
Qed.

(** X8. Whatever the source serves, every contact [get_all_zr_contacts]
    returns has one of the three numbers of the allow-list. *)
Theorem fetched_organizations_are_on_the_allow_list :
  forall (s : state World),
    match fst (get_all_zr_contacts http base_url s) with
    | Ok zr_contacts => Forall (fun z => In (zr_zrNummer z) zr_allow_list) zr_contacts
    | Raise _ => True
    end.
Proof.
  intros s. unfold get_all_zr_contacts, try_except. rewrite bind_run. unfold send.
  destruct (http (mkReq GET (base_url ++ "/api/companys/list_gs_adresstyp") [] None) (world s))
    as [[j | m] w1]; [ | exact I ].
  rewrite bind_run. cbn [lift].
  destruct (py_iter j) as [items | e]; [ | destruct (is_request_exception e); exact I ].
  rewrite bind_run. cbn [lift].
  destruct (comprehension in_allow_list parse_zr items) as [zrs | e] eqn:C;
    [ | destruct (is_request_exception e); exact I ].
  cbn. pose proof (comprehension_Ok _ _ _ C) as F2.
  eapply (Forall2_right (P := fun x => in_allow_list x = Ok true)); [ | | exact F2 ].
  - intros a b Pa Rab. eapply served_zr_is_allowed; eauto.
  - apply Forall_forall. intros x Hx. exact (@kept_In in_allow_list items x Hx).
Qed.

End Fetches.

Lemma comprehension_total {A : Type} (cond : json -> result bool) (build : json -> result A)
    (items : list json) :
  Forall (fun x => exists b, cond x = Ok b) items ->
  Forall (fun x => exists a, build x = Ok a) (kept cond items) ->
  exists l, comprehension cond build items = Ok l /\
            Forall2 (fun x a => build x = Ok a) (kept cond items) l.
Proof.
  intros Hc. induction Hc as [ | x rest [b Hb] _ IH ]; intros Hk.
  - exists []. split; [ reflexivity | constructor ].
  - unfold kept in *. cbn [filter comprehension] in *. rewrite Hb in *. destruct b; cbn.
    + inversion Hk as [ | ? ? [a Ha] Hk' ]; subst.
      destruct (IH Hk') as [l [E F]]. exists (a :: l). rewrite Ha. cbn. rewrite E. cbn.
      split; [ reflexivity | constructor; assumption ].
    + exact (IH Hk).
Qed.

Lemma in_allow_list_object (x : json) : is_object x -> exists b, in_allow_list x = Ok b.
Proof. intros [m ->]. eexists. reflexivity. Qed.

Lemma all_present_object (x : json) (keys : list string) :
  is_object x -> exists b, all_present x keys = Ok b.
Proof.
  intros [m ->]. induction keys as [ | k rest IH ]; cbn; [ eauto | ].
  destruct (truthy _); eauto.
Qed.

Section FetchResults.

Context {str : StrMethods}.

Variable World : Type.
Variable http : request -> World -> http_result * World.
Variable uuid4_hex : World -> string * World.
Variable shopware_url : string.
Variable admin_panel_url : string.

(** X9. The records a fetch skips are not validated.  When the source
    serves a list of objects and every object with all eleven mandatory
    fields validates, [get_all_contacts] returns: it validates those
    objects, in the order served, and returns the contacts among them with
    the address of the mock filter.  When every object with one of the
    three allowed numbers validates, [get_all_zr_contacts] returns one
    contact for each such object, in the order served.  What the other
    objects hold cannot fail either fetch. *)
Theorem skipped_records_are_not_validated :
  (forall (s : state World) (items : list json) (w1 : World),
      http (contacts_request admin_panel_url) (world s) = (Body (JArr items), w1) ->
      readable_contacts items ->
      exists contacts,
        Forall2 (fun x u => parse_user x = Ok u)
          (kept (fun x => all_present x mandatory_fields) items) contacts /\
        fst (get_all_contacts http admin_panel_url s)
          = Ok (filter (fun u => String.eqb (eMailadresse u) mock_address) contacts)) /\
  (forall (s : state World) (items : list json) (w1 : World),
      http (companys_request admin_panel_url) (world s) = (Body (JArr items), w1) ->
      readable_companys items ->
      exists zr_contacts,
        Forall2 (fun x z => parse_zr x = Ok z) (kept in_allow_list items) zr_contacts /\
        fst (get_all_zr_contacts http admin_panel_url s) = Ok zr_contacts).
Proof.
  split.
  - intros s items w1 Hh [Hobj Hk].
    destruct (@comprehension_total _ (fun x => all_present x mandatory_fields)
                parse_user items) as [l [E F]].
    + eapply Forall_impl; [ | exact Hobj ]. intros x Hx. apply all_present_object. exact Hx.
    + exact Hk.
    + exists l. split; [ exact F | ].
      unfold get_all_contacts, try_except. rewrite bind_run. unfold send.
      fold (contacts_request admin_panel_url). rewrite Hh.
      rewrite bind_run. cbn [lift py_iter]. rewrite bind_run. cbn [lift]. rewrite E.
      reflexivity.
  - intros s items w1 Hh [Hobj Hk].
    destruct (@comprehension_total _ in_allow_list parse_zr items) as [l [E F]].
    + eapply Forall_impl; [ | exact Hobj ]. intros x. apply in_allow_list_object.
    + exact Hk.
    + exists l. split; [ exact F | ].
      unfold get_all_zr_contacts, try_except. rewrite bind_run. unfold send.
      fold (companys_request admin_panel_url). rewrite Hh.
      rewrite bind_run. cbn [lift py_iter]. rewrite bind_run. cbn [lift]. rewrite E.
      reflexivity.
Qed.

(** X10. One record of an individual that has every mandatory field and
    does not validate fails the whole fetch, wherever it stands in the list
    served: [sync_users] raises the validation error, and has sent nothing
    but the request to the source, so no record of the list is looked up or
    written. *)
Theorem one_invalid_record_fails_the_whole_pass :
  forall (s : state World) (pre rest : list json) (x : json) (e : exn) (w1 : World),
    http (contacts_request admin_panel_url) (world s)
      = (Body (JArr (pre ++ x :: rest)), w1) ->
    Forall (fun y => all_present y mandatory_fields = Ok false \/
                     (all_present y mandatory_fields = Ok true /\
                      exists u, parse_user y = Ok u)) pre ->
    all_present x mandatory_fields = Ok true ->
    parse_user x = Raise e ->
    let out := sync_users http uuid4_hex shopware_url admin_panel_url s in
    fst out = Raise e /\
    new_events s (snd out) = [Http (contacts_request admin_panel_url)] /\
    world (snd out) = w1.
Proof.
  intros s pre rest x e w1 Hh Hpre Hx He. cbv zeta.
  pose proof (@comprehension_raises _ (fun y => all_present y mandatory_fields) parse_user
                pre x rest e Hpre Hx He) as C.
  unfold sync_users. rewrite bind_run. cbn [logger]. unfold try_except.
  rewrite bind_run. unfold get_all_contacts, try_except. rewrite bind_run. unfold send.
  cbn [logged world log trace].
  fold (contacts_request admin_panel_url). rewrite Hh.
  rewrite bind_run. cbn [lift py_iter]. rewrite bind_run. cbn [lift]. rewrite C.
  destruct (is_request_exception e); cbn;
    unfold new_events, logged; cbn [trace world log];
    rewrite skipn_app, skipn_all, Nat.sub_diag; repeat split.
Qed.

(** X11. When the source serves an empty list, a pass returns (0, 0, 0),
    logs its four lines and has sent the request to the source and no
    other: the destination is not contacted. *)
Theorem empty_source_leaves_the_destination_alone :
  (forall (s : state World) (w1 : World),
      http (contacts_request admin_panel_url) (world s) = (Body (JArr []), w1) ->
      sync_users http uuid4_hex shopware_url admin_panel_url s
        = (Ok (0, 0, 0),
           mkState w1 (log s ++ empty_users_log)
             (trace s ++ [Http (contacts_request admin_panel_url)]))) /\
  (forall (s : state World) (w1 : World),
      http (companys_request admin_panel_url) (world s) = (Body (JArr []), w1) ->
      sync_zr_customers http uuid4_hex shopware_url admin_panel_url s
        = (Ok (0, 0, 0),
           mkState w1 (log s ++ empty_zr_log)
             (trace s ++ [Http (companys_request admin_panel_url)]))).
Proof.
  split.
  - intros s w1 Hh. unfold sync_users. rewrite bind_run. cbn [logger]. unfold try_except.
    rewrite bind_run. unfold get_all_contacts, try_except. rewrite bind_run. unfold send.
    cbn [logged world log trace]. fold (contacts_request admin_panel_url). rewrite Hh.
    cbn. unfold logged. cbn [world log trace]. rewrite <- !app_assoc. reflexivity.
  - intros s w1 Hh. unfold sync_zr_customers. rewrite bind_run. cbn [logger].
    unfold try_except.
    rewrite bind_run. unfold get_all_zr_contacts, try_except. rewrite bind_run. unfold send.
    cbn [logged world log trace]. fold (companys_request admin_panel_url). rewrite Hh.
    cbn. unfold logged. cbn [world log trace]. rewrite <- !app_assoc. reflexivity.
Qed.

End FetchResults.

Lemma skipped_records_are_not_validated_witness :
  (exists contacts,
      Forall2 (fun x u => parse_user x = Ok u)
        (kept (fun x => all_present x mandatory_fields)
           [ stray_individual; user_json Sample.kauer ]) contacts /\
      fst (get_all_contacts (Canned.http (JArr [ stray_individual; user_json Sample.kauer ]))
             "https://admin.example" Canned.start)
        = Ok (filter (fun u => String.eqb (eMailadresse u) mock_address) contacts)) /\
  (exists zr_contacts,
      Forall2 (fun x z => parse_zr x = Ok z)
        (kept in_allow_list [ stray_organization; zr_json Sample.zr_a ]) zr_contacts /\
      fst (get_all_zr_contacts
             (Canned.http (JArr [ stray_organization; zr_json Sample.zr_a ]))
             "https://admin.example" Canned.start)
        = Ok zr_contacts).
Proof.
  split.
  - apply (proj1 (@skipped_records_are_not_validated unit
                    (Canned.http (JArr [ stray_individual; user_json Sample.kauer ]))
                    "https://admin.example")
             Canned.start [ stray_individual; user_json Sample.kauer ] tt).
    + reflexivity.
    + split.
      * repeat constructor; eexists; reflexivity.
      * change (kept (fun x => all_present x mandatory_fields)
                  [ stray_individual; user_json Sample.kauer ])
          with [ user_json Sample.kauer ].
        constructor; [ exists Sample.kauer; vm_compute; reflexivity | constructor ].
  - apply (proj2 (@skipped_records_are_not_validated unit
                    (Canned.http (JArr [ stray_organization; zr_json Sample.zr_a ]))
                    "https://admin.example")
             Canned.start [ stray_organization; zr_json Sample.zr_a ] tt).
    + reflexivity.
    + split.
      * repeat constructor; eexists; reflexivity.
      * change (kept in_allow_list [ stray_organization; zr_json Sample.zr_a ])
          with [ zr_json Sample.zr_a ].
        constructor; [ exists Sample.zr_a; vm_compute; reflexivity | constructor ].
Defined.

Lemma one_invalid_record_fails_the_whole_pass_witness :
  let items := [ user_json Sample.huber; malformed_individual; user_json Sample.kauer ] in
  let out := sync_users (Canned.http (JArr items)) Canned.uuid4_hex
               "https://shop.example" "https://admin.example" Canned.start in
  fst out = Raise (Exn ValidationError "validation error for AdminPanelUser") /\
  new_events Canned.start (snd out) = [Http (contacts_request "https://admin.example")] /\
  world (snd out) = tt.
Proof.
  cbv zeta.
  apply (@one_invalid_record_fails_the_whole_pass _ unit
           (Canned.http (JArr [ user_json Sample.huber; malformed_individual;
                                user_json Sample.kauer ]))
           Canned.uuid4_hex "https://shop.example" "https://admin.example" Canned.start
           [ user_json Sample.huber ] [ user_json Sample.kauer ] malformed_individual
           (Exn ValidationError "validation error for AdminPanelUser") tt).
  - reflexivity.
  - constructor; [ right; split; [ vm_compute; reflexivity
                                 | exists Sample.huber; vm_compute; reflexivity ]
                 | constructor ].
  - vm_compute. reflexivity.
  - vm_compute. reflexivity.
Defined.

Lemma empty_source_leaves_the_destination_alone_witness :
  sync_users (Canned.http (JArr [])) Canned.uuid4_hex
    "https://shop.example" "https://admin.example" Canned.start
    = (Ok (0, 0, 0),
       mkState tt empty_users_log [Http (contacts_request "https://admin.example")]) /\
  sync_zr_customers (Canned.http (JArr [])) Canned.uuid4_hex
    "https://shop.example" "https://admin.example" Canned.start
    = (Ok (0, 0, 0),
       mkState tt empty_zr_log [Http (companys_request "https://admin.example")]).
Proof.
  split.
  - apply (proj1 (@empty_source_leaves_the_destination_alone _ unit (Canned.http (JArr []))
                    Canned.uuid4_hex "https://shop.example" "https://admin.example")
             Canned.start tt).
    reflexivity.
  - apply (proj2 (@empty_source_leaves_the_destination_alone _ unit (Canned.http (JArr []))
                    Canned.uuid4_hex "https://shop.example" "https://admin.example")
             Canned.start tt).
    reflexivity.
Defined.

Lemma py_item_not_request (j : json) (k : string) (e : exn) :
  py_item j k = Raise e -> is_request_exception e = false.
Proof.
  destruct j; cbn; try (intros H; inversion H; reflexivity).
  destruct (assoc k _); intros H; inversion H; reflexivity.
Qed.

Section Run.

Context {str : StrMethods}.

Variable World : Type.
Variable http : request -> World -> http_result * World.
Variable uuid4_hex : World -> string * World.
Variable shopware_url : string.
Variable admin_panel_url : string.
Variable client_id : string.
Variable client_secret : string.

Lemma authenticate_refused (s : state World) (msg : string) (w1 : World) :
  http (token_request shopware_url client_id client_secret) (world s) = (Refused msg, w1) ->
  _authenticate http shopware_url client_id client_secret s
    = (Raise (Exn RequestException msg),
       mkState w1
         (log s ++ [(ERROR, "Failed to authenticate with Shopware: " ++ msg)%string])
         (trace s ++ [Http (token_request shopware_url client_id client_secret)])).
Proof.
  intros H. unfold _authenticate, try_except_request, try_except. rewrite bind_run.
  unfold send. fold (token_request shopware_url client_id client_secret). rewrite H.
  reflexivity.
Qed.

Lemma authenticate_without_token (s : state World) (j : json) (e : exn) (w1 : World) :
  http (token_request shopware_url client_id client_secret) (world s) = (Body j, w1) ->
  py_item j "access_token" = Raise e ->
  _authenticate http shopware_url client_id client_secret s
    = (Raise e,
       mkState w1 (log s)
         (trace s ++ [Http (token_request shopware_url client_id client_secret)])).
Proof.
  intros H E. unfold _authenticate, try_except_request, try_except. rewrite bind_run.
  unfold send. fold (token_request shopware_url client_id client_secret). rewrite H.
  rewrite bind_run. cbn [lift]. rewrite E. rewrite (py_item_not_request _ _ E).
  reflexivity.
Qed.

Lemma authenticate_with_token (s : state World) (j t : json) (w1 : World) :
  http (token_request shopware_url client_id client_secret) (world s) = (Body j, w1) ->
  py_item j "access_token" = Ok t ->
  _authenticate http shopware_url client_id client_secret s
    = (Ok tt,
       mkState w1
         (log s ++ [(INFO, "Successfully authenticated with Shopware API")])
         (trace s ++ [Http (token_request shopware_url client_id client_secret)])).
Proof.
  intros H E. unfold _authenticate, try_except_request, try_except. rewrite bind_run.
  unfold send. fold (token_request shopware_url client_id client_secret). rewrite H.
  rewrite bind_run. cbn [lift]. rewrite E. reflexivity.
Qed.

Lemma get_all_contacts_returns (s : state World) (items : list json) (w1 : World) :
  http (contacts_request admin_panel_url) (world s) = (Body (JArr items), w1) ->
  readable_contacts items ->
  exists admin_users, fst (get_all_contacts http admin_panel_url s) = Ok admin_users.
Proof.
  intros Hh [Hobj Hk].
  destruct (@comprehension_total _ (fun x => all_present x mandatory_fields)
              parse_user items) as [l [E _]].
  - eapply Forall_impl; [ | exact Hobj ]. intros x Hx. apply all_present_object. exact Hx.
  - exact Hk.
  - unfold get_all_contacts, try_except. rewrite bind_run. unfold send.
    fold (contacts_request admin_panel_url). rewrite Hh.
    rewrite bind_run. cbn [lift py_iter]. rewrite bind_run. cbn [lift]. rewrite E.
    eexists. reflexivity.
Qed.

Lemma get_all_zr_contacts_returns (s : state World) (items : list json) (w1 : World) :
  http (companys_request admin_panel_url) (world s) = (Body (JArr items), w1) ->
  readable_companys items ->
  exists zr_contacts, fst (get_all_zr_contacts http admin_panel_url s) = Ok zr_contacts.
Proof.
  intros Hh [Hobj Hk].
  destruct (@comprehension_total _ in_allow_list parse_zr items) as [l [E _]].
  - eapply Forall_impl; [ | exact Hobj ]. intros x. apply in_allow_list_object.
  - exact Hk.
  - unfold get_all_zr_contacts, try_except. rewrite bind_run. unfold send.
    fold (companys_request admin_panel_url). rewrite Hh.
    rewrite bind_run. cbn [lift py_iter]. rewrite bind_run. cbn [lift]. rewrite E.
    eexists. reflexivity.
Qed.

Lemma get_all_contacts_refused (s : state World) (msg : string) (w1 : World) :
  http (contacts_request admin_panel_url) (world s) = (Refused msg, w1) ->
  get_all_contacts http admin_panel_url s
    = (Raise (Exn RequestException msg),
       mkState w1
         (log s ++ [(ERROR, "Failed to fetch contacts from admin panel: " ++ msg)%string])
         (trace s ++ [Http (contacts_request admin_panel_url)])).
Proof.
  intros H. unfold get_all_contacts, try_except. rewrite bind_run. unfold send.
  fold (contacts_request admin_panel_url). rewrite H. reflexivity.
Qed.

Lemma get_all_zr_contacts_refused (s : state World) (msg : string) (w1 : World) :
  http (companys_request admin_panel_url) (world s) = (Refused msg, w1) ->
  get_all_zr_contacts http admin_panel_url s
    = (Raise (Exn RequestException msg),
       mkState w1
         (log s ++ [(ERROR, "Failed to fetch ZR contacts from admin panel: " ++ msg)%string])
         (trace s ++ [Http (companys_request admin_panel_url)])).
Proof.
  intros H. unfold get_all_zr_contacts, try_except. rewrite bind_run. unfold send.
  fold (companys_request admin_panel_url). rewrite H. reflexivity.
Qed.

(** A pass returns as soon as its fetch does. *)
Lemma sync_users_returns (s : state World) (admin_users : list AdminPanelUser) :
  fst (get_all_contacts http admin_panel_url
         (logged INFO "Starting user synchronization" s)) = Ok admin_users ->
  exists r s', sync_users http uuid4_hex shopware_url admin_panel_url s = (Ok r, s').
Proof.
  intros F. unfold sync_users. rewrite bind_run. cbn [logger]. unfold try_except.
  rewrite bind_run.
  destruct (get_all_contacts http admin_panel_url
              (logged INFO "Starting user synchronization" s)) as [r0 s1].
  cbn [fst] in F. subst r0.
  rewrite bind_run. cbn [logger]. rewrite bind_run.
  match goal with
  | |- context [ sync_users_loop _ _ _ admin_users zero ?s2 ] =>
      destruct (sync_users_loop_tallies http uuid4_hex shopware_url admin_users zero s2)
        as [c [E _]];
      destruct (sync_users_loop http uuid4_hex shopware_url admin_users zero s2) as [r s3]
  end.
  cbn [fst] in E. subst r. rewrite bind_run. cbn [logger ret]. eexists. eexists. reflexivity.
Qed.

Lemma sync_zr_customers_returns (s : state World) (zr_contacts : list AdminPanelZrContact) :
  fst (get_all_zr_contacts http admin_panel_url
         (logged INFO "Starting ZR customer synchronization" s)) = Ok zr_contacts ->
  exists r s', sync_zr_customers http uuid4_hex shopware_url admin_panel_url s = (Ok r, s').
Proof.
  intros F. unfold sync_zr_customers. rewrite bind_run. cbn [logger]. unfold try_except.
  rewrite bind_run.
  destruct (get_all_zr_contacts http admin_panel_url
              (logged INFO "Starting ZR customer synchronization" s)) as [r0 s1].
  cbn [fst] in F. subst r0.
  rewrite bind_run. cbn [logger]. rewrite bind_run.
  match goal with
  | |- context [ sync_zr_loop _ _ _ zr_contacts zero ?s2 ] =>
      destruct (sync_zr_loop_tallies http uuid4_hex shopware_url zr_contacts zero s2)
        as [c [E _]];
      destruct (sync_zr_loop http uuid4_hex shopware_url zr_contacts zero s2) as [r s3]
  end.
  cbn [fst] in E. subst r. rewrite bind_run. cbn [logger ret]. eexists. eexists. reflexivity.
Qed.

(** X12. When the token request is refused, or is answered without an
    [access_token], [run_sync] ends the process with status 1 having sent
    that one request: no list is fetched and no customer is looked up or
    written.  The log of the run starts with the line of [setup_logging]
    and the line "Initializing sync service..."; a refusal is then logged
    by [_authenticate] and again by [run_sync], a missing token is a
    KeyError that only [run_sync] logs. *)
Theorem run_stops_when_authentication_fails :
  (forall (s : state World) (msg : string) (w1 : World),
      http (token_request shopware_url client_id client_secret) (world s)
        = (Refused msg, w1) ->
      run_sync http uuid4_hex shopware_url admin_panel_url client_id client_secret s
        = (SysExit 1,
           mkState w1
             (log s ++ [ (INFO, "Logging initialized");
                         (INFO, "Initializing sync service...");
                         (ERROR, ("Failed to authenticate with Shopware: " ++ msg)%string);
                         (ERROR, ("Sync failed: " ++ msg)%string) ])
             (trace s ++ [Http (token_request shopware_url client_id client_secret)]))) /\
  (forall (s : state World) (j : json) (e : exn) (w1 : World),
      http (token_request shopware_url client_id client_secret) (world s)
        = (Body j, w1) ->
      py_item j "access_token" = Raise e ->
      run_sync http uuid4_hex shopware_url admin_panel_url client_id client_secret s
        = (SysExit 1,
           mkState w1
             (log s ++ [ (INFO, "Logging initialized");
                         (INFO, "Initializing sync service...");
                         (ERROR, ("Sync failed: " ++ exn_msg e)%string) ])
             (trace s ++ [Http (token_request shopware_url client_id client_secret)]))).
Proof.
  split.
  - intros s msg w1 H. unfold run_sync, setup_logging. cbn [logger snd].
    rewrite bind_run. cbn [logger]. rewrite bind_run.
    rewrite (@authenticate_refused (logged INFO "Initializing sync service..."
               (logged INFO "Logging initialized" s)) msg w1 H).
    unfold logged. cbn [world log trace exn_msg]. rewrite <- !app_assoc. reflexivity.
  - intros s j e w1 H E. unfold run_sync, setup_logging. cbn [logger snd].
    rewrite bind_run. cbn [logger]. rewrite bind_run.
    rewrite (@authenticate_without_token (logged INFO "Initializing sync service..."
               (logged INFO "Logging initialized" s))
               j e w1 H E).
    unfold logged. cbn [world log trace]. rewrite <- !app_assoc. reflexivity.
Qed.

(** X13. The status of a run depends on the token and the two lists only.
    When, whatever the state of the world, the token request is answered
    with a token and the two fetches are answered with lists whose kept
    records validate, [run_sync] returns: whatever the destination answers
    to the lookups and writes of the records, and however many records
    fail, the process does not exit with status 1. *)
Theorem run_returns_whatever_happens_to_the_records :
  (forall w, exists j t w',
      http (token_request shopware_url client_id client_secret) w = (Body j, w') /\
      py_item j "access_token" = Ok t) ->
  (forall w, exists items w',
      http (contacts_request admin_panel_url) w = (Body (JArr items), w') /\
      readable_contacts items) ->
  (forall w, exists items w',
      http (companys_request admin_panel_url) w = (Body (JArr items), w') /\
      readable_companys items) ->
  forall s : state World,
    fst (run_sync http uuid4_hex shopware_url admin_panel_url client_id client_secret s)
      = Returned.
Proof.
  intros Htoken Husers Hzrs s. unfold run_sync, setup_logging. cbn [logger snd].
  rewrite bind_run. cbn [logger]. rewrite bind_run.
  destruct (Htoken (world (logged INFO "Initializing sync service..."
               (logged INFO "Logging initialized" s))))
    as [j [t [w1 [H1 E1]]]].
  rewrite (@authenticate_with_token _ j t w1 H1 E1). rewrite bind_run.
  match goal with
  | |- context [ sync_users _ _ _ _ ?s1 ] =>
      destruct (Husers (world (logged INFO "Starting user synchronization" s1)))
        as [items [w2 [H2 R2]]];
      destruct (@get_all_contacts_returns _ items w2 H2 R2) as [us F2];
      destruct (@sync_users_returns s1 us F2) as [r [s2 E2]]
  end.
  rewrite E2. rewrite bind_run. cbn [logger]. rewrite bind_run.
  match goal with
  | |- context [ sync_zr_customers _ _ _ _ ?s3 ] =>
      destruct (Hzrs (world (logged INFO "Starting ZR customer synchronization" s3)))
        as [zitems [w3 [H3 R3]]];
      destruct (@get_all_zr_contacts_returns _ zitems w3 H3 R3) as [zs F3];
      destruct (@sync_zr_customers_returns s3 zs F3) as [rz [s4 E4]]
  end.
  rewrite E4. reflexivity.
Qed.

(** X14. A refused fetch ends the run with status 1.  When the list of the
    individuals is refused, the run has sent the token request and that
    fetch, and the organizations are not fetched; its log is the line of
    [setup_logging], the two lines of the start and the three error lines
    of the fetch, the pass and the run.  When the list of the
    organizations is refused, the run ends in the world the pass over the
    individuals left, with that pass's summary in the log: what that pass
    wrote stays written. *)
Theorem refused_fetch_ends_the_run :
  (forall (s : state World) (j t : json) (msg : string) (w1 w2 : World),
      http (token_request shopware_url client_id client_secret) (world s)
        = (Body j, w1) ->
      py_item j "access_token" = Ok t ->
      http (contacts_request admin_panel_url) w1 = (Refused msg, w2) ->
      run_sync http uuid4_hex shopware_url admin_panel_url client_id client_secret s
        = (SysExit 1,
           mkState w2
             (log s ++ [ (INFO, "Logging initialized");
                         (INFO, "Initializing sync service...");
                         (INFO, "Successfully authenticated with Shopware API");
                         (INFO, "Starting user synchronization");
                         (ERROR, ("Failed to fetch contacts from admin panel: " ++ msg)%string);
                         (ERROR, ("Synchronization failed: " ++ msg)%string);
                         (ERROR, ("Sync failed: " ++ msg)%string) ])
             (trace s ++ [ Http (token_request shopware_url client_id client_secret);
                           Http (contacts_request admin_panel_url) ]))) /\
  (forall (s s2 : state World) (j t : json) (r : nat * nat * nat) (msg : string)
          (w1 w3 : World),
      http (token_request shopware_url client_id client_secret) (world s)
        = (Body j, w1) ->
      py_item j "access_token" = Ok t ->
      sync_users http uuid4_hex shopware_url admin_panel_url
        (mkState w1
           (log s ++ [ (INFO, "Logging initialized");
                       (INFO, "Initializing sync service...");
                       (INFO, "Successfully authenticated with Shopware API") ])
           (trace s ++ [Http (token_request shopware_url client_id client_secret)]))
        = (Ok r, s2) ->
      http (companys_request admin_panel_url) (world s2) = (Refused msg, w3) ->
      run_sync http uuid4_hex shopware_url admin_panel_url client_id client_secret s
        = (SysExit 1,
           mkState w3
             (log s2 ++ [ (INFO, users_summary r);
                          (INFO, "Starting ZR customer synchronization");
                          (ERROR, ("Failed to fetch ZR contacts from admin panel: " ++ msg)%string);
                          (ERROR, ("ZR synchronization failed: " ++ msg)%string);
                          (ERROR, ("Sync failed: " ++ msg)%string) ])
             (trace s2 ++ [Http (companys_request admin_panel_url)]))).
Proof.
  split.
  - intros s j t msg w1 w2 H1 E1 H2. unfold run_sync, setup_logging. cbn [logger snd].
    rewrite bind_run. cbn [logger]. rewrite bind_run.
    rewrite (@authenticate_with_token (logged INFO "Initializing sync service..."
               (logged INFO "Logging initialized" s))
               j t w1 H1 E1). rewrite bind_run.
    unfold sync_users. rewrite bind_run. cbn [logger]. unfold try_except.
    rewrite bind_run.
    erewrite get_all_contacts_refused; [ | cbn [logged world]; exact H2 ].
    rewrite !bind_run. cbn [logger raise]. unfold logged. cbn [world log trace exn_msg].
    rewrite <- !app_assoc. reflexivity.
  - intros s s2 j t r msg w1 w3 H1 E1 H2 H3. unfold run_sync, setup_logging. cbn [logger snd].
    rewrite bind_run. cbn [logger]. rewrite bind_run.
    rewrite (@authenticate_with_token (logged INFO "Initializing sync service..."
               (logged INFO "Logging initialized" s))
               j t w1 H1 E1). rewrite bind_run.
    change (log (logged INFO "Initializing sync service..."
               (logged INFO "Logging initialized" s)))
      with ((log s ++ [(INFO, "Logging initialized")])
              ++ [(INFO, "Initializing sync service...")]).
    change (trace (logged INFO "Initializing sync service..."
               (logged INFO "Logging initialized" s))) with (trace s).
    rewrite <- !app_assoc. cbn [app].
    rewrite H2. rewrite bind_run. cbn [logger]. rewrite bind_run.
    unfold sync_zr_customers. rewrite bind_run. cbn [logger]. unfold try_except.
    rewrite bind_run.
    erewrite get_all_zr_contacts_refused; [ | cbn [logged world]; exact H3 ].
    rewrite !bind_run. cbn [logger raise]. unfold logged. cbn [world log trace exn_msg].
    rewrite <- !app_assoc. reflexivity.
Qed.

End Run.

Lemma run_stops_when_authentication_fails_witness :
  let w := Sample.empty_shop [Sample.kauer] [Sample.zr_a] false in
  run_during_outage Outage.all (Shop.start w)
    = (SysExit 1,
       mkState w
         [ (INFO, "Logging initialized");
           (INFO, "Initializing sync service...");
           (ERROR, "Failed to authenticate with Shopware: 503 Service Unavailable");
           (ERROR, "Sync failed: 503 Service Unavailable") ]
         [ Http (token_request Shop.shop_url "id" "secret") ]) /\
  run_sync (Canned.http (JObj [ ("total", JNum 0) ])) Canned.uuid4_hex
    Shop.shop_url Shop.admin_url "id" "secret" Canned.start
    = (SysExit 1,
       mkState tt
         [ (INFO, "Logging initialized");
           (INFO, "Initializing sync service...");
           (ERROR, "Sync failed: 'access_token'") ]
         [ Http (token_request Shop.shop_url "id" "secret") ]).
Proof.
  cbv zeta. split.
  - apply (proj1 (@run_stops_when_authentication_fails _ Shop.t (Outage.http Outage.all)
                    Shop.uuid4_hex Shop.shop_url Shop.admin_url "id" "secret")
             (Shop.start (Sample.empty_shop [Sample.kauer] [Sample.zr_a] false))
             "503 Service Unavailable"
             (Sample.empty_shop [Sample.kauer] [Sample.zr_a] false)).
    reflexivity.
  - apply (proj2 (@run_stops_when_authentication_fails _ unit
                    (Canned.http (JObj [ ("total", JNum 0) ]))
                    Canned.uuid4_hex Shop.shop_url Shop.admin_url "id" "secret")
             Canned.start (JObj [ ("total", JNum 0) ]) (Exn KeyError "'access_token'") tt).
    + reflexivity.
    + reflexivity.
Defined.

Lemma run_returns_whatever_happens_to_the_records_witness :
  fst (TokenOnly.run Canned.start) = Returned /\
  In (INFO, "Synchronization completed. Total: 1, Updated: 0, Created: 0, Failed: 1")
     (log (snd (TokenOnly.run Canned.start))) /\
  In (INFO, "ZR synchronization completed. Total: 1, Updated: 0, Created: 0, Failed: 1")
     (log (snd (TokenOnly.run Canned.start))).
Proof.
  split; [ | split; vm_compute; tauto ].
  apply (@run_returns_whatever_happens_to_the_records _ unit TokenOnly.http Canned.uuid4_hex
           Shop.shop_url Shop.admin_url "id" "secret").
  - intros w. exists (JObj [ ("access_token", JStr "token") ]), (JStr "token"), w.
    split; reflexivity.
  - intros w. exists [ user_json Sample.kauer ], w. split; [ reflexivity | ]. split.
    + repeat constructor. eexists. reflexivity.
    + change (kept (fun x => all_present x mandatory_fields) [ user_json Sample.kauer ])
        with [ user_json Sample.kauer ].
      constructor; [ exists Sample.kauer; vm_compute; reflexivity | constructor ].
  - intros w. exists [ stray_organization; zr_json Sample.zr_a ], w.
    split; [ reflexivity | ]. split.
    + repeat constructor; eexists; reflexivity.
    + change (kept in_allow_list [ stray_organization; zr_json Sample.zr_a ])
        with [ zr_json Sample.zr_a ].
      constructor; [ exists Sample.zr_a; vm_compute; reflexivity | constructor ].
Defined.

Lemma refused_fetch_ends_the_run_witness :
  let w := Sample.empty_shop [Sample.kauer] [Sample.zr_a] false in
  let contacts_down := Outage.only (Shop.admin_url ++ "/api/contacts/list_contact_gs") in
  let companys_down := Outage.only (Shop.admin_url ++ "/api/companys/list_gs_adresstyp") in
  let s2 := snd (sync_users (Outage.http companys_down) Shop.uuid4_hex
                   Shop.shop_url Shop.admin_url (authenticated w)) in
  run_during_outage contacts_down (Shop.start w)
    = (SysExit 1,
       mkState w
         [ (INFO, "Logging initialized");
           (INFO, "Initializing sync service...");
           (INFO, "Successfully authenticated with Shopware API");
           (INFO, "Starting user synchronization");
           (ERROR, "Failed to fetch contacts from admin panel: 503 Service Unavailable");
           (ERROR, "Synchronization failed: 503 Service Unavailable");
           (ERROR, "Sync failed: 503 Service Unavailable") ]
         [ Http (token_request Shop.shop_url "id" "secret");
           Http (contacts_request Shop.admin_url) ]) /\
  run_during_outage companys_down (Shop.start w)
    = (SysExit 1,
       mkState (world s2)
         (log s2 ++
          [ (INFO, "Sync completed successfully: 1 users created, 0 already existed");
            (INFO, "Starting ZR customer synchronization");
            (ERROR, "Failed to fetch ZR contacts from admin panel: 503 Service Unavailable");
            (ERROR, "ZR synchronization failed: 503 Service Unavailable");
            (ERROR, "Sync failed: 503 Service Unavailable") ])
         (trace s2 ++ [ Http (companys_request Shop.admin_url) ])) /\
  length (Shop.customers (world s2)) = 1.
Proof.
  cbv zeta. split; [ | split ].
  - apply (proj1 (@refused_fetch_ends_the_run _ Shop.t
                    (Outage.http (Outage.only
                                    (Shop.admin_url ++ "/api/contacts/list_contact_gs")))
                    Shop.uuid4_hex Shop.shop_url Shop.admin_url "id" "secret")
             (Shop.start (Sample.empty_shop [Sample.kauer] [Sample.zr_a] false))
             (JObj [ ("access_token", JStr "token") ]) (JStr "token")
             "503 Service Unavailable"
             (Sample.empty_shop [Sample.kauer] [Sample.zr_a] false)
             (Sample.empty_shop [Sample.kauer] [Sample.zr_a] false)).
    + reflexivity.
    + reflexivity.
    + reflexivity.
  - apply (proj2 (@refused_fetch_ends_the_run _ Shop.t
                    (Outage.http (Outage.only
                                    (Shop.admin_url ++ "/api/companys/list_gs_adresstyp")))
                    Shop.uuid4_hex Shop.shop_url Shop.admin_url "id" "secret")
             (Shop.start (Sample.empty_shop [Sample.kauer] [Sample.zr_a] false))
             (snd (sync_users
                     (Outage.http (Outage.only
                                     (Shop.admin_url ++ "/api/companys/list_gs_adresstyp")))
                     Shop.uuid4_hex Shop.shop_url Shop.admin_url
                     (authenticated (Sample.empty_shop [Sample.kauer] [Sample.zr_a] false))))
             (JObj [ ("access_token", JStr "token") ]) (JStr "token") (1, 0, 1)
             "503 Service Unavailable"
             (Sample.empty_shop [Sample.kauer] [Sample.zr_a] false)
             (world (snd (sync_users
                     (Outage.http (Outage.only
                                     (Shop.admin_url ++ "/api/companys/list_gs_adresstyp")))
                     Shop.uuid4_hex Shop.shop_url Shop.admin_url
                     (authenticated
                        (Sample.empty_shop [Sample.kauer] [Sample.zr_a] false)))))).
    + reflexivity.
    + reflexivity.
    + vm_compute. reflexivity.
    + vm_compute. reflexivity.
  - vm_compute. reflexivity.
Defined.

(* ===================================================================== *)
(** ** The customer group of a write *)
(* ===================================================================== *)

Lemma common_group (c : contact) (z : bool) (d g k : json) (p : list (string * json)) :
  customer_data_common c z d g k = Ok p -> assoc "groupId" p = Some g.
Proof.
  unfold customer_data_common.
  destruct (unless_zr z (c_vorname c)) as [fn | e]; cbn; [ | discriminate ].
  destruct (unless_zr z (c_name c)) as [ln | e]; cbn; [ | discriminate ].
  intros H. inversion H. reflexivity.
Qed.

Lemma reads_only_quiet (evs : list event) :
  Forall reads_only evs -> minted evs = [] /\ sent POST evs = [] /\ sent PATCH evs = [].
Proof.
  intros H. induction H as [ | ev evs Hev _ [IH1 [IH2 IH3]] ]; cbn; auto.
  destruct ev; cbn in Hev; try contradiction; auto.
  rewrite Hev. cbn. auto.
Qed.

Section GroupOfAWrite.

Context {str : StrMethods}.

Variable World : Type.
Variable http : request -> World -> http_result * World.
Variable uuid4_hex : World -> string * World.
Variable base_url : string.

Ltac emits_more :=
  first
    [ apply emits_ret | apply emits_raise | apply emits_lift | apply emits_logger
    | apply emits_bind_lift; intros ? ?
    | apply emits_try_except_request; [ | intros ? ]
    | apply emits_bind; [ | intros ? ] ].

(** A computation whose value is known passes it to what follows. *)
Lemma emits_bind_known {A B : Type} (P : event -> Prop) (c : M World A)
    (k : A -> M World B) (a0 : A) :
  emits P c ->
  (forall s, fst (c s) = Ok a0) ->
  emits P (k a0) ->
  emits P (bind c k).
Proof.
  intros Hc Ha Hk s. unfold bind.
  destruct (Hc s) as [evs [Ht Hf]]. specialize (Ha s).
  destruct (c s) as [r s1]. cbn in Ha, Ht. subst r.
  destruct (Hk s1) as [evs' [Ht' Hf']].
  exists (evs ++ evs'). rewrite Ht', Ht, app_assoc. split; auto.
  apply Forall_app; auto.
Qed.

Lemma emits_failed_bind {A B : Type} (P : event -> Prop) (e : exn) (k : A -> M World B) :
  emits P (bind (raise e) k).
Proof. intros s. exists []. cbn. rewrite app_nil_r. auto. Qed.

Lemma create_guarded (c : contact) (is_zr_contact : bool) :
  emits guarded_post (create_customer_generic http uuid4_hex base_url c is_zr_contact).
Proof.
  assert (G : forall r, meth r = GET -> guarded_post (Http r)).
  { intros r Hr Hp. rewrite Hr in Hp. discriminate Hp. }
  unfold create_customer_generic.
  apply emits_bind; [ apply emits_emit; exact I | intros _ ].
  apply emits_bind; [ apply get_country_emits; exact G | intros country_id ].
  apply emits_bind; [ apply get_group_emits; exact G | intros group_id ].
  cbn [forallb truthy salutation_id sales_channel_id String.eqb Ascii.eqb Bool.eqb negb andb].
  destruct (truthy group_id) eqn:Hg; cbn [negb andb]; [ | apply emits_failed_bind ].
  apply emits_bind; [ apply emits_ret | intros _ ].
  apply emits_bind; [ apply emits_fresh_uuid; intros u; exact I | intros a ].
  apply emits_bind_lift. intros payload Hpayload.
  apply emits_try_except_request; [ | intros e; repeat emits_more ].
  apply emits_bind; [ | intros _; repeat emits_more ].
  apply emits_send. intros _. exists payload, group_id.
  split; [ reflexivity | ]. split; [ | exact Hg ].
  destruct (create_data_inv _ _ _ _ _ Hpayload) as [p [entra [-> [Hc _]]]].
  cbn [field]. apply assoc_app_l. exact (common_group _ _ _ _ _ Hc).
Qed.

(** X15. Every payload [create_customer_generic] posts carries a customer
    group: its [groupId] is a truthy value, neither None nor an empty
    string.  When the country lookup and the group lookup return
    and the group id is None or empty, the create raises ValueError "Failed
    to get required Shopware IDs" in the state the group lookup left: no
    address id is minted and nothing is posted. *)
Theorem every_created_customer_has_a_group :
  forall (c : contact) (is_zr_contact : bool) (s : state World),
    let out := create_customer_generic http uuid4_hex base_url c is_zr_contact s in
    let evs := new_events s (snd out) in
    Forall carries_group (sent POST evs) /\
    (forall (country_id customer_group_id : json) (s2 s3 : state World),
        _get_country_id http (c_land c) (entered (CallCreate c is_zr_contact) s)
          = (Ok country_id, s2) ->
        _get_customer_group_id http base_url (group_name_of is_zr_contact) s2
          = (Ok customer_group_id, s3) ->
        truthy customer_group_id = false ->
        out = (Raise (Exn ValueError "Failed to get required Shopware IDs"), s3) /\
        minted evs = [] /\
        sent POST evs = []).
Proof.
  intros c is_zr_contact s. cbv zeta. split.
  - eapply sent_Forall; [ | exact (emits_new_events s (create_guarded c is_zr_contact)) ].
    intros r Hr Hm. exact (Hr Hm).
  - intros country_id customer_group_id s2 s3 Hc Hg Ht.
    assert (E : create_customer_generic http uuid4_hex base_url c is_zr_contact s
                = (Raise (Exn ValueError "Failed to get required Shopware IDs"), s3)).
    { unfold create_customer_generic. rewrite bind_run. cbn [emit].
      fold (entered (CallCreate c is_zr_contact) s).
      rewrite bind_run, Hc, bind_run, Hg, bind_run.
      cbn [forallb truthy salutation_id sales_channel_id String.eqb Ascii.eqb Bool.eqb
           negb andb].
      rewrite Ht. reflexivity. }
    rewrite E. split; [ reflexivity | ]. cbn [snd].
    destruct (get_country_gets http (c_land c) (entered (CallCreate c is_zr_contact) s))
      as [evs1 [T1 G1]].
    rewrite Hc in T1. cbn [snd] in T1.
    destruct (get_group_gets http base_url (group_name_of is_zr_contact) s2)
      as [evs2 [T2 G2]].
    rewrite Hg in T2. cbn [snd] in T2.
    rewrite (new_events_app s s3 ([CallCreate c is_zr_contact] ++ evs1 ++ evs2))
      by (rewrite T2, T1; cbn [entered trace]; rewrite <- !app_assoc; reflexivity).
    rewrite !minted_app, !sent_app.
    destruct (only_gets G1) as [-> [_ [-> _]]].
    destruct (only_gets G2) as [-> [_ [-> _]]].
    split; reflexivity.
Qed.

Hypothesis outage : groups_down http base_url.

Lemma get_group_down (group_name_ : string) (s : state World) :
  fst (_get_customer_group_id http base_url group_name_ s) = Ok JNull.
Proof.
  unfold _get_customer_group_id, try_except_request, try_except. rewrite bind_run.
  unfold send. fold (group_request base_url).
  destruct (outage (world s)) as [msg [w' H]]. rewrite H. reflexivity.
Qed.

Lemma create_during_outage_reads_only (c : contact) (is_zr_contact : bool) :
  emits reads_only (create_customer_generic http uuid4_hex base_url c is_zr_contact).
Proof.
  assert (G : forall r, meth r = GET -> reads_only (Http r)) by (intros r Hr; exact Hr).
  unfold create_customer_generic.
  apply emits_bind; [ apply emits_emit; exact I | intros _ ].
  apply emits_bind; [ apply get_country_emits; exact G | intros country_id ].
  apply emits_bind_known with (a0 := JNull);
    [ apply get_group_emits; exact G | apply get_group_down | ].
  apply emits_failed_bind.
Qed.

Lemma create_during_outage_raises (c : contact) (is_zr_contact : bool) (s : state World) :
  exists e, fst (create_customer_generic http uuid4_hex base_url c is_zr_contact s) = Raise e.
Proof.
  unfold create_customer_generic. rewrite bind_run. cbn [emit]. rewrite bind_run.
  destruct (_get_country_id http (c_land c) _) as [[country_id | e] s2];
    [ | exists e; reflexivity ].
  rewrite bind_run.
  pose proof (get_group_down (group_name_of is_zr_contact) s2) as Hg.
  destruct (_get_customer_group_id http base_url (group_name_of is_zr_contact) s2)
    as [r s3]. cbn in Hg. subst r.
  eexists. reflexivity.
Qed.

Lemma update_during_outage_ungrouped (c : contact) (is_zr_contact : bool)
    (existing_customer : json) :
  emits ungrouped_patch
    (update_customer_generic http base_url c is_zr_contact existing_customer).
Proof.
  assert (G : forall r, meth r = GET -> ungrouped_patch (Http r)).
  { intros r Hr Hp. rewrite Hr in Hp. discriminate Hp. }
  unfold update_customer_generic.
  apply emits_bind; [ apply emits_emit; exact I | intros _ ].
  apply emits_bind_lift. intros id Hid.
  apply emits_bind_lift. intros d Hd.
  apply emits_bind_known with (a0 := JNull);
    [ apply get_group_emits; exact G | apply get_group_down | ].
  apply emits_bind; [ apply get_country_emits; exact G | intros country_id ].
  apply emits_bind_lift. intros payload Hpayload.
  apply emits_try_except_request; [ | intros e; repeat emits_more ].
  apply emits_bind; [ | intros _; repeat emits_more ].
  apply emits_send. intros _. exists payload. split; [ reflexivity | ].
  destruct (update_data_inv _ _ _ _ _ Hpayload) as [p [-> Hc]].
  exact (common_group _ _ _ _ _ Hc).
Qed.

(** X16. While the customer groups cannot be read, a create is stopped and
    an update is not.  [create_customer_generic] raises, having minted no
    id and posted nothing; [update_customer_generic] has no such check, and
    every payload it patches sets [groupId] to null. *)
Theorem group_outage_stops_creates_not_updates :
  (forall (c : contact) (is_zr_contact : bool) (s : state World),
      let out := create_customer_generic http uuid4_hex base_url c is_zr_contact s in
      (exists e, fst out = Raise e) /\
      minted (new_events s (snd out)) = [] /\
      sent POST (new_events s (snd out)) = []) /\
  (forall (c : contact) (is_zr_contact : bool) (existing_customer : json)
          (s : state World),
      Forall carries_no_group
        (sent PATCH (new_events s
           (snd (update_customer_generic http base_url c is_zr_contact
                   existing_customer s))))).
Proof.
  split.
  - intros c is_zr_contact s. cbv zeta.
    split; [ apply create_during_outage_raises | ].
    destruct (reads_only_quiet
                (emits_new_events s (create_during_outage_reads_only c is_zr_contact)))
      as [Hm [Hp _]].
    split; assumption.
  - intros c is_zr_contact existing_customer s.
    eapply sent_Forall;
      [ | exact (emits_new_events s
                   (update_during_outage_ungrouped c is_zr_contact existing_customer)) ].
    intros r Hr Hm. exact (Hr Hm).
Qed.

End GroupOfAWrite.

Lemma every_created_customer_has_a_group_witness :
  let s := Shop.start shop_with_kauer in
  let out := create_customer_generic (Outage.http groups_request_down) Shop.uuid4_hex
               Shop.shop_url (IsUser Sample.huber) false s in
  Forall carries_group (sent POST (new_events s (snd out))) /\
  fst out = Raise (Exn ValueError "Failed to get required Shopware IDs") /\
  minted (new_events s (snd out)) = [] /\
  sent POST (new_events s (snd out)) = [].
Proof.
  cbv zeta.
  destruct (@every_created_customer_has_a_group ascii_strings Shop.t
              (Outage.http groups_request_down) Shop.uuid4_hex Shop.shop_url
              (IsUser Sample.huber) false (Shop.start shop_with_kauer))
    as [F G].
  split; [ exact F | ].
  destruct (G (JStr "country-de") JNull
              (snd (_get_country_id (Outage.http groups_request_down) "de"
                      (entered (CallCreate (IsUser Sample.huber) false)
                         (Shop.start shop_with_kauer))))
              (snd (_get_customer_group_id (Outage.http groups_request_down) Shop.shop_url
                      "User-Kunden"
                      (snd (_get_country_id (Outage.http groups_request_down) "de"
                              (entered (CallCreate (IsUser Sample.huber) false)
                                 (Shop.start shop_with_kauer)))))))
    as [E [M P]].
  - vm_compute. reflexivity.
  - vm_compute. reflexivity.
  - reflexivity.
  - split; [ rewrite E; reflexivity | ]. split; [ exact M | exact P ].
Defined.

Lemma group_outage_stops_creates_not_updates_witness :
  let s := Shop.start shop_with_kauer in
  let created_ := create_customer_generic (Outage.http groups_request_down) Shop.uuid4_hex
                    Shop.shop_url (IsUser Sample.huber) false s in
  let updated_ := update_customer_generic (Outage.http groups_request_down)
                    Shop.shop_url (IsUser Sample.kauer) false
                    (Shop.render 0 kauer_stored) s in
  ((exists e, fst created_ = Raise e) /\
   minted (new_events s (snd created_)) = [] /\
   sent POST (new_events s (snd created_)) = []) /\
  Forall carries_no_group (sent PATCH (new_events s (snd updated_))) /\
  length (sent PATCH (new_events s (snd updated_))) = 1 /\
  map (assoc "groupId") (Shop.customers (world (snd updated_))) = [Some JNull].
Proof.
  cbv zeta.
  assert (D : groups_down (Outage.http groups_request_down) Shop.shop_url).
  { intros w. exists "503 Service Unavailable", w. reflexivity. }
  split; [ | split; [ | split ] ].
  - apply (proj1 (@group_outage_stops_creates_not_updates _ Shop.t
                    (Outage.http groups_request_down) Shop.uuid4_hex Shop.shop_url D)
             (IsUser Sample.huber) false (Shop.start shop_with_kauer)).
  - apply (proj2 (@group_outage_stops_creates_not_updates _ Shop.t
                    (Outage.http groups_request_down) Shop.uuid4_hex Shop.shop_url D)
             (IsUser Sample.kauer) false (Shop.render 0 kauer_stored)
             (Shop.start shop_with_kauer)).
  - vm_compute. reflexivity.
  - vm_compute. reflexivity.
Defined.

(* ===================================================================== *)
(** ** The writes of a pass, record by record *)
(* ===================================================================== *)

Lemma lookups_app (a b : list event) : lookups (a ++ b) = lookups a ++ lookups b.
Proof. apply filter_app. Qed.

Lemma gets_are_quiet (evs : list event) :
  Forall is_get evs -> lookups evs = [] /\ sent POST evs = [] /\ sent PATCH evs = [].
Proof.
  intros H. induction H as [ | ev evs [r [-> Hr]] _ [IH1 [IH2 IH3]] ]; cbn; auto.
  rewrite Hr. cbn. auto.
Qed.

Section Writes.

Context {str : StrMethods}.

Variable World : Type.
Variable http : request -> World -> http_result * World.
Variable uuid4_hex : World -> string * World.
Variable base_url : string.

Ltac settle :=
  cbn [fst snd trace logged];
  repeat rewrite ?lookups_app, ?sent_app;
  repeat match goal with
         | G : Forall is_get ?l |- _ =>
             destruct (gets_are_quiet G) as [-> [-> ->]]; clear G
         end;
  cbn; repeat split; intros; try lia; try discriminate; auto.

(** An update looks nothing up, posts nothing and patches at most once;
    when it returns, it has patched. *)
Lemma update_writes (c : contact) (is_zr_contact : bool) (existing_customer : json)
    (s : state World) :
  exists evs,
    trace (snd (update_customer_generic http base_url c is_zr_contact existing_customer s))
      = trace s ++ evs /\
    lookups evs = [] /\
    sent POST evs = [] /\
    length (sent PATCH evs) <= 1 /\
    (forall a, fst (update_customer_generic http base_url c is_zr_contact
                      existing_customer s) = Ok a ->
               length (sent PATCH evs) = 1).
Proof.
  unfold update_customer_generic. rewrite bind_run. cbn [emit].
  set (ev0 := CallUpdate c is_zr_contact existing_customer).
  set (s1 := mkState (world s) (log s) (trace s ++ [ev0])).
  rewrite bind_run. cbn [lift].
  destruct (py_item existing_customer "id") as [id | e];
    [ | exists [ev0]; settle ].
  rewrite bind_run. cbn [lift].
  destruct (existing_billing_address_id existing_customer) as [d | e];
    [ | exists [ev0]; settle ].
  rewrite bind_run.
  destruct (get_group_gets http base_url (group_name_of is_zr_contact) s1) as [evs1 [T1 G1]].
  destruct (_get_customer_group_id http base_url (group_name_of is_zr_contact) s1)
    as [[g | e] s2]; cbn [snd] in T1;
    [ | exists ([ev0] ++ evs1); split;
        [ cbn [snd]; rewrite T1; unfold s1; cbn [trace]; rewrite <- app_assoc; reflexivity
        | settle ] ].
  rewrite bind_run.
  destruct (get_country_gets http (c_land c) s2) as [evs2 [T2 G2]].
  destruct (_get_country_id http (c_land c) s2) as [[k | e] s3]; cbn [snd] in T2;
    [ | exists ([ev0] ++ evs1 ++ evs2); split;
        [ cbn [snd]; rewrite T2, T1; unfold s1; cbn [trace]; rewrite <- !app_assoc;
          reflexivity
        | settle ] ].
  rewrite bind_run. cbn [lift].
  destruct (update_customer_data c is_zr_contact d g k) as [payload | e];
    [ | exists ([ev0] ++ evs1 ++ evs2); split;
        [ cbn [snd]; rewrite T2, T1; unfold s1; cbn [trace]; rewrite <- !app_assoc;
          reflexivity
        | settle ] ].
  unfold try_except_request, try_except. rewrite bind_run. unfold send.
  match goal with
  | |- context [ http ?r (world s3) ] =>
      exists ([ev0] ++ evs1 ++ evs2 ++ [Http r]);
      destruct (http r (world s3)) as [[j | m] w4]
  end.
  - split; [ cbn; rewrite T2, T1; unfold s1; cbn [trace]; rewrite <- !app_assoc; reflexivity
           | settle ].
  - split; [ cbn; rewrite T2, T1; unfold s1; cbn [trace]; rewrite <- !app_assoc; reflexivity
           | settle ].
Qed.

(** A create looks nothing up, patches nothing and posts at most once;
    when it returns, it has posted. *)
Lemma create_writes (c : contact) (is_zr_contact : bool) (s : state World) :
  exists evs,
    trace (snd (create_customer_generic http uuid4_hex base_url c is_zr_contact s))
      = trace s ++ evs /\
    lookups evs = [] /\
    sent PATCH evs = [] /\
    length (sent POST evs) <= 1 /\
    (forall a, fst (create_customer_generic http uuid4_hex base_url c is_zr_contact s)
                 = Ok a ->
               length (sent POST evs) = 1).
Proof.
  unfold create_customer_generic. rewrite bind_run. cbn [emit].
  set (ev0 := CallCreate c is_zr_contact).
  set (s1 := mkState (world s) (log s) (trace s ++ [ev0])).
  rewrite bind_run.
  destruct (get_country_gets http (c_land c) s1) as [evs1 [T1 G1]].
  destruct (_get_country_id http (c_land c) s1) as [[k | e] s2]; cbn [snd] in T1;
    [ | exists ([ev0] ++ evs1); split;
        [ cbn [snd]; rewrite T1; unfold s1; cbn [trace]; rewrite <- app_assoc; reflexivity
        | settle ] ].
  rewrite bind_run.
  destruct (get_group_gets http base_url (group_name_of is_zr_contact) s2) as [evs2 [T2 G2]].
  destruct (_get_customer_group_id http base_url (group_name_of is_zr_contact) s2)
    as [[g | e] s3]; cbn [snd] in T2;
    [ | exists ([ev0] ++ evs1 ++ evs2); split;
        [ cbn [snd]; rewrite T2, T1; unfold s1; cbn [trace]; rewrite <- !app_assoc;
          reflexivity
        | settle ] ].
  rewrite bind_run.
  cbn [forallb truthy salutation_id sales_channel_id String.eqb Ascii.eqb Bool.eqb negb andb].
  destruct (truthy g); cbn [negb andb];
    [ | exists ([ev0] ++ evs1 ++ evs2); split;
        [ cbn; rewrite T2, T1; unfold s1; cbn [trace]; rewrite <- !app_assoc; reflexivity
        | settle ] ].
  cbv beta iota delta [ret]. rewrite bind_run. unfold fresh_uuid.
  destruct (uuid4_hex (world s3)) as [a w4].
  rewrite bind_run. cbn [lift].
  destruct (create_customer_data c is_zr_contact (JStr a) g k) as [payload | e];
    [ | exists ([ev0] ++ evs1 ++ evs2 ++ [Uuid4 a]); split;
        [ cbn; rewrite T2, T1; unfold s1; cbn [trace]; rewrite <- !app_assoc; reflexivity
        | settle ] ].
  unfold try_except_request, try_except. rewrite bind_run. unfold send.
  cbn [world log trace].
  match goal with
  | |- context [ http ?r w4 ] =>
      exists ([ev0] ++ evs1 ++ evs2 ++ [Uuid4 a; Http r]);
      destruct (http r w4) as [[j | m] w5]
  end.
  - split; [ cbn; rewrite T2, T1; unfold s1; cbn [trace]; rewrite <- !app_assoc; reflexivity
           | settle ].
  - split; [ cbn; rewrite T2, T1; unfold s1; cbn [trace]; rewrite <- !app_assoc; reflexivity
           | settle ].
Qed.

(** A lookup adds its entry and its one GET to the trace, whatever the
    answer. *)
Lemma get_by_entraid_trace (identifier : string) (s : state World) :
  trace (snd (get_customer_by_custom_field_entraid http base_url identifier s))
    = trace s ++ [CallGetByEntraId identifier; Http (entraid_lookup base_url identifier)].
Proof.
  unfold get_customer_by_custom_field_entraid, try_except_request, try_except.
  rewrite bind_run. cbn [emit]. rewrite bind_run. unfold send. cbn [world log trace].
  fold (entraid_lookup base_url identifier).
  destruct (http (entraid_lookup base_url identifier) (world s)) as [[j | m] w1].
  - rewrite bind_run. cbn [lift].
    destruct (py_get j "data" (JArr [])) as [customers | e]; cbn [lift].
    + destruct (first_or_none customers) as [x | e]; cbn.
      * rewrite <- app_assoc. reflexivity.
      * destruct (is_request_exception e); cbn; rewrite <- app_assoc; reflexivity.
    + destruct (is_request_exception e); cbn; rewrite <- app_assoc; reflexivity.
  - cbn. rewrite <- app_assoc. reflexivity.
Qed.

Lemma get_by_number_trace (customer_number : string) (s : state World) :
  trace (snd (get_customer_by_customer_number http base_url customer_number s))
    = trace s ++ [CallGetByNumber customer_number;
                  Http (number_lookup base_url customer_number)].
Proof.
  unfold get_customer_by_customer_number, try_except_request, try_except.
  rewrite bind_run. cbn [emit]. rewrite bind_run. unfold send. cbn [world log trace].
  fold (number_lookup base_url customer_number).
  destruct (http (number_lookup base_url customer_number) (world s)) as [[j | m] w1].
  - rewrite bind_run. cbn [lift].
    destruct (py_get j "data" (JArr [])) as [customers | e]; cbn [lift].
    + destruct (first_or_none customers) as [x | e]; cbn.
      * rewrite <- app_assoc. reflexivity.
      * destruct (is_request_exception e); cbn; rewrite <- app_assoc; reflexivity.
    + destruct (is_request_exception e); cbn; rewrite <- app_assoc; reflexivity.
  - cbn. rewrite <- app_assoc. reflexivity.
Qed.

Ltac tally_up :=
  unfold accounted, writes; cbn [fst snd trace logged];
  repeat rewrite ?lookups_app, ?sent_app, ?length_app;
  repeat match goal with
         | H : lookups _ = _ |- _ => rewrite H; clear H
         | H : sent _ _ = [] |- _ => rewrite H; clear H
         | H : length (sent _ _) = 1 |- _ => rewrite H; clear H
         end;
  cbn; repeat split; try lia.

Lemma user_iteration_accounted (user : AdminPanelUser) (c : counters) (s : state World) :
  exists c' evs,
    fst (sync_user_iteration http uuid4_hex base_url user c s) = Ok c' /\
    trace (snd (sync_user_iteration http uuid4_hex base_url user c s)) = trace s ++ evs /\
    accounted [CallGetByEntraId (entraID user)] 1 c c' evs.
Proof.
  rewrite sync_user_iteration_run.
  pose proof (get_by_entraid_trace (entraID user) s) as T0.
  destruct (get_customer_by_custom_field_entraid http base_url (entraID user) s)
    as [[existing | e] s1]; cbn [snd] in T0.
  2:{ exists (incr_failed c), [CallGetByEntraId (entraID user);
                               Http (entraid_lookup base_url (entraID user))].
      split; [ reflexivity | ]. split; [ exact T0 | tally_up ]. }
  destruct (truthy existing).
  - unfold update_customer.
    destruct (update_writes (IsUser user) false existing s1) as [evs [T [L [P [B O]]]]].
    destruct (update_customer_generic http base_url (IsUser user) false existing s1)
      as [[[] | e] s2]; cbn [fst snd] in *.
    + specialize (O tt eq_refl).
      exists (incr_updated c), ([CallGetByEntraId (entraID user);
                                 Http (entraid_lookup base_url (entraID user))] ++ evs).
      split; [ reflexivity | ].
      split; [ cbn [trace logged]; rewrite T, T0, <- app_assoc; reflexivity | ].
      tally_up.
    + exists (incr_failed c), ([CallGetByEntraId (entraID user);
                                Http (entraid_lookup base_url (entraID user))] ++ evs).
      split; [ reflexivity | ].
      split; [ cbn [trace logged]; rewrite T, T0, <- app_assoc; reflexivity | ].
      tally_up.
  - unfold create_customer.
    destruct (create_writes (IsUser user) false s1) as [evs [T [L [P [B O]]]]].
    destruct (create_customer_generic http uuid4_hex base_url (IsUser user) false s1)
      as [[[] | e] s2]; cbn [fst snd] in *.
    + specialize (O tt eq_refl).
      exists (incr_created c), ([CallGetByEntraId (entraID user);
                                 Http (entraid_lookup base_url (entraID user))] ++ evs).
      split; [ reflexivity | ].
      split; [ cbn [trace logged]; rewrite T, T0, <- app_assoc; reflexivity | ].
      tally_up.
    + exists (incr_failed c), ([CallGetByEntraId (entraID user);
                                Http (entraid_lookup base_url (entraID user))] ++ evs).
      split; [ reflexivity | ].
      split; [ cbn [trace logged]; rewrite T, T0, <- app_assoc; reflexivity | ].
      tally_up.
Qed.

Lemma zr_iteration_accounted (zr_contact : AdminPanelZrContact) (c : counters)
    (s : state World) :
  exists c' evs,
    fst (sync_zr_iteration http uuid4_hex base_url zr_contact c s) = Ok c' /\
    trace (snd (sync_zr_iteration http uuid4_hex base_url zr_contact c s)) = trace s ++ evs /\
    accounted [CallGetByNumber (zr_zrNummer zr_contact)] 1 c c' evs.
Proof.
  rewrite sync_zr_iteration_run.
  pose proof (get_by_number_trace (zr_zrNummer zr_contact) s) as T0.
  destruct (get_customer_by_customer_number http base_url (zr_zrNummer zr_contact) s)
    as [[existing | e] s1]; cbn [snd] in T0.
  2:{ exists (incr_failed c), [CallGetByNumber (zr_zrNummer zr_contact);
                               Http (number_lookup base_url (zr_zrNummer zr_contact))].
      split; [ reflexivity | ]. split; [ exact T0 | tally_up ]. }
  destruct (truthy existing).
  - unfold update_zr_customer.
    destruct (update_writes (IsZr zr_contact) true existing s1) as [evs [T [L [P [B O]]]]].
    destruct (update_customer_generic http base_url (IsZr zr_contact) true existing s1)
      as [[[] | e] s2]; cbn [fst snd] in *.
    + specialize (O tt eq_refl).
      exists (incr_updated c), ([CallGetByNumber (zr_zrNummer zr_contact);
                                 Http (number_lookup base_url (zr_zrNummer zr_contact))]
                                  ++ evs).
      split; [ reflexivity | ].
      split; [ cbn [trace logged]; rewrite T, T0, <- app_assoc; reflexivity | ].
      tally_up.
    + exists (incr_failed c), ([CallGetByNumber (zr_zrNummer zr_contact);
                                Http (number_lookup base_url (zr_zrNummer zr_contact))]
                                 ++ evs).
      split; [ reflexivity | ].
      split; [ cbn [trace logged]; rewrite T, T0, <- app_assoc; reflexivity | ].
      tally_up.
  - unfold create_zr_customer.
    destruct (create_writes (IsZr zr_contact) true s1) as [evs [T [L [P [B O]]]]].
    destruct (create_customer_generic http uuid4_hex base_url (IsZr zr_contact) true s1)
      as [[[] | e] s2]; cbn [fst snd] in *.
    + specialize (O tt eq_refl).
      exists (incr_created c), ([CallGetByNumber (zr_zrNummer zr_contact);
                                 Http (number_lookup base_url (zr_zrNummer zr_contact))]
                                  ++ evs).
      split; [ reflexivity | ].
      split; [ cbn [trace logged]; rewrite T, T0, <- app_assoc; reflexivity | ].
      tally_up.
    + exists (incr_failed c), ([CallGetByNumber (zr_zrNummer zr_contact);
                                Http (number_lookup base_url (zr_zrNummer zr_contact))]
                                 ++ evs).
      split; [ reflexivity | ].
      split; [ cbn [trace logged]; rewrite T, T0, <- app_assoc; reflexivity | ].
      tally_up.
Qed.

Lemma accounted_step (l1 l2 : list event) (n1 n2 : nat) (c c1 c2 : counters)
    (evs1 evs2 : list event) :
  accounted l1 n1 c c1 evs1 -> accounted l2 n2 c1 c2 evs2 ->
  accounted (l1 ++ l2) (n1 + n2) c c2 (evs1 ++ evs2).
Proof.
  unfold accounted, writes. intros [L1 [W1 [U1 C1]]] [L2 [W2 [U2 C2]]].
  rewrite lookups_app, !sent_app, !length_app, L1, L2.
  repeat split; lia.
Qed.

Lemma users_loop_accounted (admin_users : list AdminPanelUser) :
  forall (c : counters) (s : state World),
  exists c' evs,
    fst (sync_users_loop http uuid4_hex base_url admin_users c s) = Ok c' /\
    trace (snd (sync_users_loop http uuid4_hex base_url admin_users c s)) = trace s ++ evs /\
    accounted (user_lookups admin_users) (length admin_users) c c' evs.
Proof.
  induction admin_users as [ | user rest IH ]; intros c s.
  - exists c, []. cbn. rewrite app_nil_r.
    split; [ reflexivity | ]. split; [ reflexivity | ].
    unfold accounted, writes. cbn. repeat split; lia.
  - cbn [sync_users_loop]. rewrite bind_run.
    destruct (user_iteration_accounted user c s) as [c1 [evs1 [E1 [T1 A1]]]].
    destruct (sync_user_iteration http uuid4_hex base_url user c s) as [r s1].
    cbn [fst snd] in E1, T1. subst r.
    destruct (IH c1 s1) as [c2 [evs2 [E2 [T2 A2]]]].
    exists c2, (evs1 ++ evs2). split; [ exact E2 | ].
    split; [ rewrite T2, T1, app_assoc; reflexivity | ].
    exact (accounted_step A1 A2).
Qed.

Lemma zr_loop_accounted (zr_contacts : list AdminPanelZrContact) :
  forall (c : counters) (s : state World),
  exists c' evs,
    fst (sync_zr_loop http uuid4_hex base_url zr_contacts c s) = Ok c' /\
    trace (snd (sync_zr_loop http uuid4_hex base_url zr_contacts c s)) = trace s ++ evs /\
    accounted (zr_lookups zr_contacts) (length zr_contacts) c c' evs.
Proof.
  induction zr_contacts as [ | zr_contact rest IH ]; intros c s.
  - exists c, []. cbn. rewrite app_nil_r.
    split; [ reflexivity | ]. split; [ reflexivity | ].
    unfold accounted, writes. cbn. repeat split; lia.
  - cbn [sync_zr_loop]. rewrite bind_run.
    destruct (zr_iteration_accounted zr_contact c s) as [c1 [evs1 [E1 [T1 A1]]]].
    destruct (sync_zr_iteration http uuid4_hex base_url zr_contact c s) as [r s1].
    cbn [fst snd] in E1, T1. subst r.
    destruct (IH c1 s1) as [c2 [evs2 [E2 [T2 A2]]]].
    exists c2, (evs1 ++ evs2). split; [ exact E2 | ].
    split; [ rewrite T2, T1, app_assoc; reflexivity | ].
    exact (accounted_step A1 A2).
Qed.

(** X17. Whatever the destination answers, a loop over the records looks
    every record up once, in the order of the list, and sends at most one
    write for each record.  The counters it returns do not overstate the
    writes: every update counted has sent a PATCH and every create counted
    has sent a POST. *)
Theorem one_lookup_and_at_most_one_write_per_record :
  (forall (admin_users : list AdminPanelUser) (c : counters) (s : state World),
      exists c',
        fst (sync_users_loop http uuid4_hex base_url admin_users c s) = Ok c' /\
        accounted (user_lookups admin_users) (length admin_users) c c'
          (new_events s (snd (sync_users_loop http uuid4_hex base_url admin_users c s)))) /\
  (forall (zr_contacts : list AdminPanelZrContact) (c : counters) (s : state World),
      exists c',
        fst (sync_zr_loop http uuid4_hex base_url zr_contacts c s) = Ok c' /\
        accounted (zr_lookups zr_contacts) (length zr_contacts) c c'
          (new_events s (snd (sync_zr_loop http uuid4_hex base_url zr_contacts c s)))).
Proof.
  split.
  - intros admin_users c s.
    destruct (users_loop_accounted admin_users c s) as [c' [evs [E [T A]]]].
    exists c'. split; [ exact E | ]. rewrite (new_events_app _ _ _ T). exact A.
  - intros zr_contacts c s.
    destruct (zr_loop_accounted zr_contacts c s) as [c' [evs [E [T A]]]].
    exists c'. split; [ exact E | ]. rewrite (new_events_app _ _ _ T). exact A.
Qed.

End Writes.

(* ===================================================================== *)
(** ** An organization and the individuals that carry its number *)
(* ===================================================================== *)

Section SharedNumber.

Context {str : StrMethods}.

Variable w : Shop.t.
Hypothesis groups : Shop.customer_groups w = Shop.two_groups.

(** X18. [create_customer_generic] stores the zrNummer of an individual as
    the customer number, and the pass over the organizations looks
    customers up by customer number alone.  Take the sample destination
    with its two customer groups listed, holding the customer created for
    an individual who carries the number of an organization, with no
    customer before it of that number, and taking the write of the
    organization (it is not strict, or the country of the organization
    resolves).  Then the iteration of the organization finds the
    individual's customer, enters update with it and is counted as updated;
    the payload it patches over the individual's customer carries the
    organization's address [zr<number>@einrichtungspartnerring.com], null
    names and the group of the organizations. *)
Theorem organization_overwrites_the_customer_of_its_member :
  forall (pre post : list (list (string * json))) (n : nat) (a : string)
         (u : AdminPanelUser) (z : AdminPanelZrContact) (c : counters) (s : state Shop.t),
    let f := stored_by_create (Shop.countries w) (IsUser u) false a in
    let p := written_by_zr_update (Shop.countries w) z a in
    let out := sync_zr_iteration Shop.http Shop.uuid4_hex Shop.shop_url z c s in
    world s = shop_with w (pre ++ f :: post) n ->
    zrNummer u = zr_zrNummer z ->
    no_number_match pre z = true ->
    taken w (IsZr z) = true ->
    fst out = Ok (incr_updated c) /\
    calls (new_events s (snd out))
      = [ CallGetByNumber (zr_zrNummer z);
          CallUpdate (IsZr z) true (Shop.render (length pre) f) ] /\
    world (snd out) = shop_with w (pre ++ p :: post) n /\
    assoc "email" p = Some (JStr ("zr" ++ zr_zrNummer z ++ "@einrichtungspartnerring.com")) /\
    assoc "firstName" p = Some JNull /\
    assoc "lastName" p = Some JNull /\
    assoc "groupId" p = Some (group_of true).
Proof.
  intros pre post n a u z c s f p out Hw Hz Hn Ht.
  destruct s as [ws ls ts]. cbn [world] in Hw. subst ws.
  set (s := mkState (shop_with w (pre ++ f :: post) n) ls ts) in *.
  assert (Hh : Shop.http (number_lookup Shop.shop_url (zr_zrNummer z)) (world s)
               = (Body (JObj [ ("data", JArr (Shop.render (length pre) f
                     :: Shop.select Shop.number_of (zr_zrNummer z) (S (length pre)) post)) ]),
                  world s)).
  { rewrite shop_http_number. unfold s. cbn [world Shop.customers shop_with].
    rewrite select_app, (select_none _ _ _ Hn). cbn [app Shop.select Nat.add].
    replace (py_eq_str (Shop.number_of f) (zr_zrNummer z)) with true
      by (unfold f; cbn; rewrite Hz, String.eqb_refl; reflexivity).
    reflexivity. }
  assert (Hrun : exists s2, out = (Ok (incr_updated c), s2) /\
                            world s2 = shop_with w (pre ++ p :: post) n).
  { unfold out. rewrite sync_zr_iteration_run.
    rewrite (get_by_number_listed Shop.http Shop.shop_url (zr_zrNummer z) s Hh eq_refl).
    cbn [hd]. replace (truthy (Shop.render (length pre) f)) with true by reflexivity.
    unfold update_zr_customer.
    match goal with
    | |- context [ update_customer_generic _ _ _ _ _ ?s1 ] =>
        destruct (@shop_update _ (IsZr z) true (length pre) f p s1) as [s2 [E W]]
    end.
    - exact groups.
    - unfold s. cbn [world Shop.customers shop_with].
      rewrite nth_error_app2 by lia. rewrite Nat.sub_diag. reflexivity.
    - reflexivity.
    - unfold s. cbn [world].
      unfold Shop.accepts, Shop.country_given, p, written_by_zr_update.
      cbn [shop_with Shop.strict]. cbn. unfold resolved_country. cbn [c_land].
      unfold taken in Ht. cbn [c_land] in Ht.
      destruct (Shop.country_of (upper (zr_land z)) (Shop.countries w)); exact Ht.
    - rewrite E. eexists. split; [ reflexivity | ].
      cbn [logged world]. rewrite W. unfold s.
      cbn [world Shop.customers shop_with Shop.with_customers Shop.contacts_gs
           Shop.companys_gs Shop.customer_groups Shop.countries Shop.strict Shop.uuids].
      rewrite replace_middle. reflexivity. }
  destruct Hrun as [s2 [E W]].
  split; [ rewrite E; reflexivity | ].
  split; [ | split; [ rewrite E; exact W | repeat split ] ].
  unfold out.
  destruct (@zr_iteration_matched _ Shop.t Shop.http Shop.uuid4_hex Shop.shop_url z c s
              _ (world s) (Shop.render (length pre) f) _ Hh eq_refl eq_refl)
    as [evs [-> F]].
  destruct (update_events_quiet F) as [Hc _].
  rewrite calls_app, Hc. reflexivity.
Qed.

End SharedNumber.

Lemma organization_overwrites_the_customer_of_its_member_witness :
  let w := Sample.empty_shop [member_of_a] [Sample.zr_a] false in
  let f := stored_by_create Sample.known_countries (IsUser member_of_a) false "a0" in
  let s := Shop.start (shop_with w [f] 1) in
  let out := sync_zr_iteration Shop.http Shop.uuid4_hex Shop.shop_url Sample.zr_a zero s in
  fst out = Ok (incr_updated zero) /\
  calls (new_events s (snd out))
    = [ CallGetByNumber "112212"; CallUpdate (IsZr Sample.zr_a) true (Shop.render 0 f) ] /\
  map (assoc "email") (Shop.customers (world (snd out)))
    = [ Some (JStr "zr112212@einrichtungspartnerring.com") ] /\
  map (assoc "firstName") (Shop.customers (world (snd out))) = [ Some JNull ].
Proof.
  cbv zeta.
  destruct (@organization_overwrites_the_customer_of_its_member
              _ (Sample.empty_shop [member_of_a] [Sample.zr_a] false) eq_refl
              [] [] 1 "a0" member_of_a Sample.zr_a zero
              (Shop.start (shop_with (Sample.empty_shop [member_of_a] [Sample.zr_a] false)
                             [stored_by_create Sample.known_countries (IsUser member_of_a)
                                false "a0"] 1))
              eq_refl eq_refl eq_refl eq_refl)
    as [R [C [W _]]].
  split; [ exact R | ]. split; [ exact C | ].
  rewrite W. split; vm_compute; reflexivity.
Defined.

(* ===================================================================== *)
(** ** The keys of the lookups in the payloads *)
(* ===================================================================== *)

Lemma common_number (c : contact) (z : bool) (d g k : json) (p : list (string * json)) :
  customer_data_common c z d g k = Ok p ->
  assoc "customerNumber" p = Some (JStr (c_zrNummer c)).
Proof.
  unfold customer_data_common.
  destruct (unless_zr z (c_vorname c)) as [fn | e]; cbn; [ | discriminate ].
  destruct (unless_zr z (c_name c)) as [ln | e]; cbn; [ | discriminate ].
  intros H. inversion H. reflexivity.
Qed.

Lemma assoc_app_r (k : string) (p q : list (string * json)) :
  assoc k p = None -> assoc k (p ++ q) = assoc k q.
Proof.
  induction p as [ | [k' v'] p IH ]; cbn [assoc app]; [ reflexivity | ].
  destruct (String.eqb k k'); [ discriminate | exact IH ].
Qed.

Section LookupKeys.

Context {str : StrMethods}.

Variable World : Type.
Variable http : request -> World -> http_result * World.
Variable uuid4_hex : World -> string * World.
Variable base_url : string.

(** X19. Every payload written for a record, created or updated, for an
    individual or an organization, carries the zrNummer of the record as
    [customerNumber], the one key the lookup of the organizations filters
    on; and every payload posted for an individual stores the entraID under
    the custom field the lookup of the individuals filters on. *)
Theorem writes_carry_the_keys_of_the_lookups :
  (forall (c : contact) (is_zr_contact : bool) (s : state World),
      Forall (carries_number (c_zrNummer c))
        (sent POST (new_events s (snd (create_customer_generic http uuid4_hex base_url
                                         c is_zr_contact s))))) /\
  (forall (c : contact) (is_zr_contact : bool) (existing_customer : json)
          (s : state World),
      Forall (carries_number (c_zrNummer c))
        (sent PATCH (new_events s (snd (update_customer_generic http base_url
                                          c is_zr_contact existing_customer s))))) /\
  (forall (admin_user : AdminPanelUser) (s : state World),
      Forall (carries_entraid (entraID admin_user))
        (sent POST (new_events s (snd (create_customer http uuid4_hex base_url
                                         admin_user s))))).
Proof.
  split; [ | split ].
  - intros c z s.
    eapply sent_Forall; [ | exact (emits_new_events s (create_emits http uuid4_hex base_url c z)) ].
    intros r [E | E] Hm; [ discriminate E | ].
    destruct E as [E | [_ [_ [a [g [k [payload [Hp Hb]]]]]]]]; [ congruence | ].
    exists payload. split; [ exact Hb | ].
    destruct (create_data_inv _ _ _ _ _ Hp) as [p [entra [-> [Hc _]]]].
    cbn [field]. apply assoc_app_l. exact (common_number _ _ _ _ _ Hc).
  - intros c z existing s.
    eapply sent_Forall;
      [ | exact (emits_new_events s (update_emits http base_url c z existing)) ].
    intros r [E | E] Hm; [ discriminate E | ].
    destruct E as [E | [_ [id [d [g [k [payload [_ [_ [_ [Hp Hb]]]]]]]]]]]; [ congruence | ].
    exists payload. split; [ exact Hb | ].
    destruct (update_data_inv _ _ _ _ _ Hp) as [p [-> Hc]].
    exact (common_number _ _ _ _ _ Hc).
  - intros u s. unfold create_customer.
    eapply sent_Forall;
      [ | exact (emits_new_events s (create_emits http uuid4_hex base_url (IsUser u) false)) ].
    intros r [E | E] Hm; [ discriminate E | ].
    destruct E as [E | [_ [_ [a [g [k [payload [Hp Hb]]]]]]]]; [ congruence | ].
    destruct (create_data_inv _ _ _ _ _ Hp) as [p [entra [-> [Hc [e [He ->]]]]]].
    cbn in He. inversion He. subst e.
    exists (JObj (p ++ [ ("customFields", JObj [ (entraid_field, JStr (entraID u)) ]) ])),
           (JObj [ (entraid_field, JStr (entraID u)) ]).
    split; [ exact Hb | ]. split; [ | reflexivity ].
    cbn [field]. destruct (common_inv _ _ _ _ _ Hc) as [Hn _].
    rewrite (assoc_app_r _ _ _ Hn). reflexivity.
Qed.

End LookupKeys.
